(** * AccessiBridge: a shallow embedding of [app.py] and its request handlers

    The Flask application is modelled as a set of handlers running in a small
    state-and-exception monad.  The state is the SQLite file, the connection
    opened by the running request and a log of the effects the handler
    performs (connections, statements, commits, uploads read, AI calls).
    External collaborators (the generative model, werkzeug's
    [secure_filename], the server clock) are fields of an environment
    record. *)

From Stdlib Require Import ZArith NArith Ascii String List Lia.
From Stdlib.Strings Require Import Byte.
From stdpp Require Import base option list gmap strings pretty sorting.

Open Scope Z_scope.

(** ** Python string operations used by the application

    A [str] of the application is modelled by a [string]: a sequence of
    characters of the 8-bit range.  Text outside that range only appears as
    the result of decoding an upload, which is kept as a list of code
    points. *)

Module Py.

(** [c in s] for a one-character needle. *)
Fixpoint contains (c : ascii) (s : string) : bool :=
  match s with
  | EmptyString => false
  | String a s' => if decide (a = c) then true else contains c s'
  end.

(** [s.rsplit(c, 1)]: the parts before and after the last occurrence of
    [c]; [None] when [c] does not occur (the list then has one element and
    indexing it at 1 is an error). *)
Fixpoint rsplit1 (c : ascii) (s : string) : option (string * string) :=
  match s with
  | EmptyString => None
  | String a s' =>
      match rsplit1 c s' with
      | Some (h, t) => Some (String a h, t)
      | None => if decide (a = c) then Some (EmptyString, s') else None
      end
  end.

(** [s.startswith(p)]. *)
Fixpoint startswith (p s : string) : bool :=
  match p, s with
  | EmptyString, _ => true
  | String a p', String b s' => bool_decide (a = b) && startswith p' s'
  | String _ _, EmptyString => false
  end.

(** [p in s] for a needle of any length: [p] occurs somewhere in [s]. *)
Fixpoint occurs (p s : string) : bool :=
  startswith p s ||
  match s with
  | EmptyString => false
  | String _ s' => occurs p s'
  end.

(** [str.lower] on one character of the 8-bit range: the ASCII capitals and
    the Latin-1 capitals (all but the multiplication sign) move down by 32. *)
Definition lower_char (a : ascii) : ascii :=
  let n := N_of_ascii a in
  if ((65 <=? n) && (n <=? 90))%N then ascii_of_N (n + 32)
  else if ((192 <=? n) && (n <=? 222) && negb (n =? 215))%N
       then ascii_of_N (n + 32)
  else a.

Fixpoint lower (s : string) : string :=
  match s with
  | EmptyString => EmptyString
  | String a s' => String (lower_char a) (lower s')
  end.

(** The line break of a triple-quoted literal and the double quote. *)
Definition nl : string := String (ascii_of_N 10) EmptyString.
Definition dq : string := String (ascii_of_N 34) EmptyString.

(** Twelve and eight blanks: the indentation that the triple-quoted
    literals of the handlers carry on their continuation lines. *)
Definition ind12 : string := "            ".
Definition ind8 : string := "        ".

End Py.

(** ** Upload validation *)

Definition ALLOWED_EXTENSIONS : gset string :=
  {[ "png"; "jpg"; "jpeg"; "gif"; "webp"; "pdf"; "txt"; "doc"; "docx" ]}.

(** [allowed_file]: ['.' in filename and
    filename.rsplit('.', 1)[1].lower() in ALLOWED_EXTENSIONS]. *)
Definition allowed_file (filename : string) : bool :=
  Py.contains "."%char filename &&
  match Py.rsplit1 "."%char filename with
  | Some (_, ext) => bool_decide (Py.lower ext ∈ ALLOWED_EXTENSIONS)
  | None => false
  end.

(** ** Prompt templates of the image describer *)

Definition prompt_quick : string :=
  "Describe this image in one clear, concise sentence. Focus on the main subject.".

Definition prompt_detailed : string :=
  "Provide a detailed, accessible description of this image for someone who cannot see it. Include:" +:+ Py.nl +:+
  Py.ind12 +:+ "1. Main subject and what's happening" +:+ Py.nl +:+
  Py.ind12 +:+ "2. Colors, shapes, and visual elements" +:+ Py.nl +:+
  Py.ind12 +:+ "3. Text visible in the image (if any)" +:+ Py.nl +:+
  Py.ind12 +:+ "4. Spatial relationships (left, right, foreground, background)" +:+ Py.nl +:+
  Py.ind12 +:+ "5. Emotional tone or mood" +:+ Py.nl +:+
  Py.ind12 +:+ "Be thorough but organized. Use clear, descriptive language.".

Definition prompt_navigation : string :=
  "Describe this image as if helping a blind person navigate or understand a physical space or document. Include:" +:+ Py.nl +:+
  Py.ind12 +:+ "1. Layout and structure" +:+ Py.nl +:+
  Py.ind12 +:+ "2. Any text, signs, or labels" +:+ Py.nl +:+
  Py.ind12 +:+ "3. Important objects and their positions" +:+ Py.nl +:+
  Py.ind12 +:+ "4. Potential hazards or obstacles (if applicable)" +:+ Py.nl +:+
  Py.ind12 +:+ "5. Key information for practical use".

Definition prompt_deafblind : string :=
  "Describe this image in a simple, structured format for someone who is deafblind:" +:+ Py.nl +:+
  Py.ind12 +:+ "SUBJECT: [main subject in 5 words or less]" +:+ Py.nl +:+
  Py.ind12 +:+ "DESCRIPTION: [clear, simple description in 2-3 sentences]" +:+ Py.nl +:+
  Py.ind12 +:+ "TEXT: [any text visible, or " +:+ Py.dq +:+ "none" +:+ Py.dq +:+ "]" +:+ Py.nl +:+
  Py.ind12 +:+ "KEY DETAILS: [bullet points of important elements]".

(** The [if mode == 'quick' ... elif ... else] chain of [api_describe_image]. *)
Definition describe_prompt (mode : string) : string :=
  if decide (mode = "quick") then prompt_quick
  else if decide (mode = "detailed") then prompt_detailed
  else if decide (mode = "navigation") then prompt_navigation
  else prompt_deafblind.

(** ** Python values *)

(** The Python values that the handlers bind to SQL placeholders or format
    into text: [None], booleans, integers of any size and strings, as they
    come out of a parsed JSON object or a URL segment. *)
Inductive pyval :=
| PNone
| PBool (b : bool)
| PInt (n : Z)
| PStr (s : string).

Global Instance pyval_eq_dec : EqDecision pyval.
Proof. solve_decision. Defined.

(** [str(v)]. *)
Definition py_str (v : pyval) : string :=
  match v with
  | PNone => "None"
  | PBool true => "True"
  | PBool false => "False"
  | PInt n => pretty n
  | PStr s => s
  end.

(** A [dict] with string keys, in insertion order. *)
Abbreviation dict := (list (string * pyval)).

(** [d.get(k)]: [None] when the key is absent. *)
Fixpoint dict_get (k : string) (d : dict) : option pyval :=
  match d with
  | [] => None
  | (k', v) :: d' => if decide (k' = k) then Some v else dict_get k d'
  end.

Global Arguments dict_get : simpl never.

(** [k in d]. *)
Definition dict_has (k : string) (d : dict) : bool :=
  match dict_get k d with Some _ => true | None => false end.

(** [d.get(k, default)]. *)
Definition dict_get_default (k : string) (default : pyval) (d : dict) : pyval :=
  match dict_get k d with Some v => v | None => default end.

(** [not data] for a body that is an object or is missing: true for the
    empty dict and for no dict at all. *)
Definition not_data (data : option dict) : bool :=
  match data with
  | None | Some [] => true
  | Some (_ :: _) => false
  end.

(** What [json.loads] makes of a request body: any JSON document, not
    only an object.  A number with a fraction or an exponent becomes a
    [float], of which the handlers can only observe whether it is zero.
    The members of an array and of an object are kept to the values of
    [pyval]: containers and fractions inside a container are not part of
    the model. *)
Inductive document :=
| Scalar (v : pyval)              (* null, true, false, an integer, a string *)
| Float (zero : bool)             (* 1.5, 0.0, 1e3 *)
| Array (items : list pyval)      (* [...] *)
| Object (fields : dict).         (* {...} *)

(** [type(data).__name__]. *)
Definition type_name (data : document) : string :=
  match data with
  | Scalar PNone => "NoneType"
  | Scalar (PBool _) => "bool"
  | Scalar (PInt _) => "int"
  | Scalar (PStr _) => "str"
  | Float _ => "float"
  | Array _ => "list"
  | Object _ => "dict"
  end.

(** What [k in data] tests for a string [k]: a key of a dict, a member of
    a list, a substring of a string; the other values are not containers
    and have no answer. *)
Definition member (k : string) (data : document) : option bool :=
  match data with
  | Object fields => Some (dict_has k fields)
  | Array items => Some (bool_decide (PStr k ∈ items))
  | Scalar (PStr s) => Some (Py.occurs k s)
  | _ => None
  end.

(** [bool(data)]: [None], [False], zero and the empty string, list and dict
    are false, everything else is true. *)
Definition truthy (data : document) : bool :=
  match data with
  | Scalar PNone => false
  | Scalar (PBool b) => b
  | Scalar (PInt n) => negb (n =? 0)
  | Scalar (PStr s) => match s with EmptyString => false | _ => true end
  | Float zero => negb zero
  | Array items => match items with [] => false | _ => true end
  | Object fields => match fields with [] => false | _ => true end
  end.

(** The errors with which werkzeug refuses to parse a JSON body: one that is
    not well-formed JSON, and one whose content type is not JSON. *)
Inductive http_error := BadRequest | UnsupportedMediaType.

Definition http_code (error : http_error) : Z :=
  match error with
  | BadRequest => 400
  | UnsupportedMediaType => 415
  end.

(** Exceptions carry their class and the text that [str(e)] yields.  An
    [HTTPException] of werkzeug, which is an [Exception] too, is one of the
    errors above; Flask answers with its code when nothing catches it. *)
Inductive exn :=
| Exception (exn_class exn_msg : string)
| HTTPException (error : http_error) (exn_msg : string).

(** [str(e)]. *)
Definition exn_msg (x : exn) : string :=
  match x with
  | Exception _ msg => msg
  | HTTPException _ msg => msg
  end.

Inductive outcome (A : Type) :=
| Return (a : A)
| Raise (e : exn).
Arguments Return {A} a.
Arguments Raise {A} e.

(** ** The SQLite store *)

Inductive sqlval :=
| SNull
| SInt (n : Z)
| SText (s : string).

Global Instance sqlval_eq_dec : EqDecision sqlval.
Proof. solve_decision. Defined.

(** A data column of a table: every one of them is declared [TEXT]; some are
    [NOT NULL], one is [UNIQUE]. *)
Record column := { col_name : string; not_null : bool; unique : bool }.

Global Instance column_eq_dec : EqDecision column.
Proof. solve_decision. Defined.

(** A stored row: the [INTEGER PRIMARY KEY AUTOINCREMENT] id, the data
    columns by name, and the [CURRENT_TIMESTAMP] written at insertion (in
    whole seconds, the resolution SQLite gives it). *)
Record row := { id : Z; data : list (string * sqlval); stamp : Z }.

(** A table: its data columns, its rows in rowid order, and the largest id
    it has ever handed out (the [sqlite_sequence] entry). *)
Record table := { columns : list column; rows : list row; seq : Z }.

Abbreviation database := (gmap string table).

Definition empty_table (cols : list column) : table :=
  {| columns := cols; rows := []; seq := 0 |}.

Definition col (name : string) (nn uq : bool) : column :=
  {| col_name := name; not_null := nn; unique := uq |}.

(** The five [CREATE TABLE] statements of [init_db]. *)
Definition schema : list (string * list column) :=
  [ ("image_descriptions",
      [col "filename" true false; col "description" true false]);
    ("transcriptions",
      [col "text" true false; col "source" false false]);
    ("user_preferences",
      [col "preference_key" true true; col "preference_value" true false]);
    ("saved_texts",
      [col "title" false false; col "content" true false;
       col "category" false false]);
    ("conversation_history",
      [col "session_id" true false; col "speaker" true false;
       col "message" true false; col "message_type" false false]) ].

(** [CREATE TABLE IF NOT EXISTS]. *)
Definition create_table_if_not_exists (d : database) (t : string * list column)
  : database :=
  match d !! t.1 with
  | Some _ => d
  | None => <[t.1 := empty_table t.2]> d
  end.

Definition init_db (d : database) : database :=
  foldl create_table_if_not_exists d schema.

(** The statements the handlers send, with the Python parameters bound to
    their [?] placeholders. *)
Inductive statement :=
| Insert (or_replace : bool) (tbl : string) (cols : list string)
         (params : list pyval)
| DeleteWhereId (tbl : string) (param : pyval)
| SelectRecent (tbl : string)
| SelectPreferences.

Definition is_write (s : statement) : bool :=
  match s with
  | Insert _ _ _ _ | DeleteWhereId _ _ => true
  | SelectRecent _ | SelectPreferences => false
  end.

Definition int64_max : Z := 2 ^ 63 - 1.
Definition int64_min : Z := - 2 ^ 63.

(** Binding a Python value to a placeholder.  An [int] outside the signed
    64-bit range cannot be converted and the call raises. *)
Definition bind_param (v : pyval) : outcome sqlval :=
  match v with
  | PNone => Return SNull
  | PBool b => Return (SInt (if b then 1 else 0))
  | PInt n =>
      if (int64_min <=? n) && (n <=? int64_max) then Return (SInt n)
      else Raise (Exception "OverflowError"
                    "Python int too large to convert to SQLite INTEGER")
  | PStr s => Return (SText s)
  end.

Fixpoint bind_params (vs : list pyval) : outcome (list sqlval) :=
  match vs with
  | [] => Return []
  | v :: vs' =>
      match bind_param v with
      | Raise e => Raise e
      | Return x =>
          match bind_params vs' with
          | Raise e => Raise e
          | Return xs => Return (x :: xs)
          end
      end
  end.

(** [TEXT] affinity: an integer is stored as its decimal text. *)
Definition text_affinity (v : sqlval) : sqlval :=
  match v with
  | SInt n => SText (pretty n)
  | _ => v
  end.

Definition find_column (name : string) (cols : list column) : option column :=
  List.find (fun c => bool_decide (col_name c = name)) cols.

(** The first column of the new row that is [NOT NULL] and receives NULL, or
    that the table does not have. *)
Fixpoint check_columns (tbl : string) (cols : list column)
  (new : list (string * sqlval)) : option exn :=
  match new with
  | [] => None
  | (c, v) :: new' =>
      match find_column c cols with
      | None =>
          Some (Exception "OperationalError"
                  ("table " +:+ tbl +:+ " has no column named " +:+ c))
      | Some cd =>
          if not_null cd && bool_decide (v = SNull)
          then Some (Exception "IntegrityError"
                       ("NOT NULL constraint failed: " +:+ tbl +:+ "." +:+ c))
          else check_columns tbl cols new'
      end
  end.

Definition field (name : string) (r : row) : option sqlval :=
  snd <$> List.find (fun p => bool_decide (p.1 = name)) (data r).

(** Does the stored row [r] hold, in some [UNIQUE] column, the value the new
    row brings for it? *)
Definition conflicts (cols : list column) (new : list (string * sqlval))
  (r : row) : bool :=
  existsb (fun p : string * sqlval =>
             match find_column p.1 cols with
             | Some cd =>
                 unique cd && negb (bool_decide (p.2 = SNull)) &&
                 bool_decide (field p.1 r = Some p.2)
             | None => false
             end) new.

(** [SELECT ... ORDER BY created_at DESC]: SQLite scans the table in rowid
    order and sorts stably, so rows with equal timestamps stay in rowid
    order.  [place r l] puts [r] in front of the first row of [l] that is
    not strictly more recent. *)
Fixpoint place (r : row) (l : list row) : list row :=
  match l with
  | [] => [r]
  | x :: l' => if stamp r <? stamp x then x :: place r l' else r :: x :: l'
  end.

Fixpoint order_by_created_at_desc (l : list row) : list row :=
  match l with
  | [] => []
  | r :: l' => place r (order_by_created_at_desc l')
  end.

Definition no_such_table {A} (tbl : string) : outcome A :=
  Raise (Exception "OperationalError" ("no such table: " +:+ tbl)).

(** [INSERT INTO tbl (cols) VALUES (?, ...)] and its [OR REPLACE] form, run
    at time [now]: the statement is prepared against the table, the
    parameters are bound, the constraints are checked and the row is
    appended under a fresh id.  [AUTOINCREMENT] never reuses an id: the new
    one is the successor of the largest the table has handed out.
    [OR REPLACE] first deletes the rows that clash on a [UNIQUE] column;
    without it a clash is an error. *)
Definition exec_insert (or_replace : bool) (tbl : string) (cols : list string)
  (params : list pyval) (now : Z) (d : database) : outcome database :=
  match d !! tbl with
  | None => no_such_table tbl
  | Some t =>
      match bind_params params with
      | Raise e => Raise e
      | Return vals =>
          let new := zip cols (text_affinity <$> vals) in
          match check_columns tbl (columns t) new with
          | Some e => Raise e
          | None =>
              let clash := conflicts (columns t) new in
              if or_replace || negb (existsb clash (rows t)) then
                Return (<[tbl :=
                  {| columns := columns t;
                     rows := List.filter (fun r => negb (clash r)) (rows t)
                             ++ [ {| id := seq t + 1; data := new;
                                     stamp := now |} ];
                     seq := seq t + 1 |}]> d)
              else
                Raise (Exception "IntegrityError"
                         ("UNIQUE constraint failed: " +:+ tbl))
          end
      end
  end.

(** [DELETE FROM tbl WHERE id = ?]. *)
Definition exec_delete (tbl : string) (param : pyval) (d : database)
  : outcome database :=
  match d !! tbl with
  | None => no_such_table tbl
  | Some t =>
      match bind_param param with
      | Raise e => Raise e
      | Return v =>
          Return (<[tbl :=
            {| columns := columns t;
               rows := List.filter
                         (fun r => negb (bool_decide (SInt (id r) = v)))
                         (rows t);
               seq := seq t |}]> d)
      end
  end.

(** [SELECT * FROM tbl ORDER BY created_at DESC LIMIT 50]. *)
Definition exec_select_recent (tbl : string) (d : database)
  : outcome (list row) :=
  match d !! tbl with
  | None => no_such_table tbl
  | Some t => Return (take 50 (order_by_created_at_desc (rows t)))
  end.

(** [SELECT preference_key, preference_value FROM user_preferences]. *)
Definition exec_select_preferences (d : database) : outcome (list row) :=
  match d !! "user_preferences" with
  | None => no_such_table "user_preferences"
  | Some t => Return (rows t)
  end.

(** A statement acting on a database: the new contents and the rows it
    returns. *)
Definition exec (s : statement) (now : Z) (d : database)
  : outcome (database * list row) :=
  match s with
  | Insert o tbl cols params =>
      match exec_insert o tbl cols params now d with
      | Return d' => Return (d', [])
      | Raise e => Raise e
      end
  | DeleteWhereId tbl param =>
      match exec_delete tbl param d with
      | Return d' => Return (d', [])
      | Raise e => Raise e
      end
  | SelectRecent tbl =>
      match exec_select_recent tbl d with
      | Return rs => Return (d, rs)
      | Raise e => Raise e
      end
  | SelectPreferences =>
      match exec_select_preferences d with
      | Return rs => Return (d, rs)
      | Raise e => Raise e
      end
  end.

(** ** Effects of a request *)

(** What is sent to the generative model: a prompt, or a payload with its
    MIME type ([payload] stands for the base64 text of the bytes). *)
Inductive part :=
| Prompt (text : string)
| Blob (mime_type : string) (payload : list byte).

Inductive event :=
| Connect                          (* get_db() *)
| Execute (s : statement)          (* db.execute(...) *)
| Commit                           (* db.commit() *)
| Close                            (* db.close() *)
| ReadUpload (name : string)       (* file.read() *)
| Generate (parts : list part).    (* gemini_model.generate_content(...) *)

(** The process and its surroundings during one request: the database file,
    the view of the connection the request has open (with the changes it has
    not committed yet), and the effects performed so far, oldest first. *)
Record world := { store : database; conn : option database; trace : list event }.

(** What the application does not own: the configured model (absent without
    an API key), werkzeug's [secure_filename], and the clock SQLite reads for
    [CURRENT_TIMESTAMP]. *)
Record env := {
  gemini_model : option (list part → outcome string);
  secure_filename : string → string;
  now : Z
}.

Definition M (A : Type) : Type := world → outcome A * world.

Global Instance M_ret : MRet M := λ A a w, (Return a, w).
Global Instance M_bind : MBind M := λ A B f m w,
  match m w with
  | (Return a, w') => f a w'
  | (Raise e, w') => (Raise e, w')
  end.

Definition raise {A} (e : exn) : M A := λ w, (Raise e, w).

(** [try: m  except Exception as e: h e]. *)
Definition try_except {A} (m : M A) (h : exn → M A) : M A := λ w,
  match m w with
  | (Return a, w') => (Return a, w')
  | (Raise e, w') => h e w'
  end.

Definition log (ev : event) : M unit := λ w,
  (Return (), {| store := store w; conn := conn w; trace := trace w ++ [ev] |}).

Definition get_db : M unit := λ w,
  (Return (), {| store := store w; conn := Some (store w);
                 trace := trace w ++ [Connect] |}).

Definition execute (e : env) (s : statement) : M (list row) := λ w,
  let w' := {| store := store w; conn := conn w;
               trace := trace w ++ [Execute s] |} in
  match conn w with
  | None =>
      (Raise (Exception "ProgrammingError"
                "Cannot operate on a closed database."), w')
  | Some d =>
      match exec s (now e) d with
      | Return (d', rs) =>
          (Return rs, {| store := store w; conn := Some d';
                         trace := trace w ++ [Execute s] |})
      | Raise x => (Raise x, w')
      end
  end.

Definition commit : M unit := λ w,
  let tr := trace w ++ [Commit] in
  match conn w with
  | Some d => (Return (), {| store := d; conn := Some d; trace := tr |})
  | None =>
      (Raise (Exception "ProgrammingError"
                "Cannot operate on a closed database."),
       {| store := store w; conn := None; trace := tr |})
  end.

Definition close : M unit := λ w,
  (Return (), {| store := store w; conn := None; trace := trace w ++ [Close] |}).

(** [gemini_model.generate_content(parts).text]. *)
Definition generate_content (e : env) (parts : list part) : M string := λ w,
  let w' := {| store := store w; conn := conn w;
               trace := trace w ++ [Generate parts] |} in
  match gemini_model e with
  | Some g => (g parts, w')
  | None =>
      (Raise (Exception "AttributeError"
                "'NoneType' object has no attribute 'generate_content'"), w)
  end.

(** ** Decoding uploaded bytes *)

Abbreviation unicode := (list N).

Module Codec.

Definition cont (b : N) : bool := ((128 <=? b) && (b <=? 191))%N.

(** The second byte of a three-byte and of a four-byte sequence: the
    ranges that exclude overlong forms, surrogates and code points above
    U+10FFFF. *)
Definition second3 (b0 b1 : N) : bool :=
  (if b0 =? 224 then (160 <=? b1) && (b1 <=? 191)
   else if b0 =? 237 then (128 <=? b1) && (b1 <=? 159)
   else cont b1)%N.

Definition second4 (b0 b1 : N) : bool :=
  (if b0 =? 240 then (144 <=? b1) && (b1 <=? 191)
   else if b0 =? 244 then (128 <=? b1) && (b1 <=? 143)
   else cont b1)%N.

(** Strict UTF-8: [None] where Python raises [UnicodeDecodeError]. *)
Fixpoint utf8 (bs : list N) : option unicode :=
  match bs with
  | [] => Some []
  | b0 :: t0 =>
      if (b0 <? 128)%N then cons b0 <$> utf8 t0
      else if ((194 <=? b0) && (b0 <=? 223))%N then
        match t0 with
        | b1 :: t1 =>
            if cont b1
            then cons ((b0 - 192) * 64 + (b1 - 128))%N <$> utf8 t1
            else None
        | _ => None
        end
      else if ((224 <=? b0) && (b0 <=? 239))%N then
        match t0 with
        | b1 :: b2 :: t2 =>
            if second3 b0 b1 && cont b2
            then cons ((b0 - 224) * 4096 + (b1 - 128) * 64
                       + (b2 - 128))%N <$> utf8 t2
            else None
        | _ => None
        end
      else if ((240 <=? b0) && (b0 <=? 244))%N then
        match t0 with
        | b1 :: b2 :: b3 :: t3 =>
            if second4 b0 b1 && cont b2 && cont b3
            then cons ((b0 - 240) * 262144 + (b1 - 128) * 4096
                       + (b2 - 128) * 64 + (b3 - 128))%N <$> utf8 t3
            else None
        | _ => None
        end
      else None
  end.

(** Latin-1: every byte is the code point of the same number. *)
Definition latin1 (bs : list N) : unicode := bs.

End Codec.

(** [content.decode(codec)].  The text of the decoding error is shortened:
    the handler catches the exception and never shows it. *)
Definition decode (codec : string) (content : list byte) : M unicode :=
  if decide (codec = "utf-8") then
    match Codec.utf8 (Byte.to_N <$> content) with
    | Some t => mret t
    | None =>
        raise (Exception "UnicodeDecodeError"
                 "'utf-8' codec can't decode bytes")
    end
  else if decide (codec = "latin-1") then
    mret (Codec.latin1 (Byte.to_N <$> content))
  else raise (Exception "LookupError" ("unknown encoding: " +:+ codec)).

(** ** Requests and responses *)

(** An entry of [request.files]. *)
Record upload := {
  filename : string;
  content_type : option string;
  content : list byte
}.

(** What [request.get_json()] does: it returns the parsed document, or it
    aborts the request with an [HTTPException] (415 when the content type
    is not JSON, 400 when the body cannot be parsed; [text] is what
    [str(e)] would give). *)
Inductive parsing :=
| Parsed (data : document)
| Aborted (error : http_error) (text : string).

(** The parts of a Flask request the handlers look at, as Flask has parsed
    them (a body above [MAX_CONTENT_LENGTH] is refused while parsing and
    never becomes a [request]). *)
Record request := {
  files : gmap string upload;
  form : gmap string string;
  json_body : parsing
}.

(** The body of the request when it is a JSON object. *)
Definition json (req : request) : option dict :=
  match json_body req with
  | Parsed (Object fields) => Some fields
  | _ => None
  end.

Inductive jvalue :=
| JBool (b : bool)
| JStr (s : string)
| JText (t : unicode).

Inductive tvalue :=
| TBool (b : bool)
| TRows (rs : list row).

Inductive body :=
| Json (fields : list (string * jvalue))          (* jsonify({...}) *)
| Html (template : string) (context : list (string * tvalue))
                                                   (* render_template(...) *)
| InternalServerError                             (* uncaught exception *)
| HttpError.                                      (* uncaught HTTPException *)

Record response := { status : Z; payload : body }.

Definition jsonify (fields : list (string * jvalue)) (code : Z) : response :=
  {| status := code; payload := Json fields |}.

Definition render_template (template : string)
  (context : list (string * tvalue)) : response :=
  {| status := 200; payload := Html template context |}.

(** [bool(gemini_model)]. *)
Definition gemini_available (e : env) : bool :=
  match gemini_model e with Some _ => true | None => false end.

(** [file.read()]. *)
Definition read (field : string) (file : upload) : M (list byte) :=
  log (ReadUpload field) ;; mret (content file).

(** [data[k]]. *)
Definition dict_item (k : string) (d : dict) : M pyval :=
  match dict_get k d with
  | Some v => mret v
  | None => raise (Exception "KeyError" ("'" +:+ k +:+ "'"))
  end.

(** [request.get_json()]. *)
Definition get_json (req : request) : M document :=
  match json_body req with
  | Parsed data => mret data
  | Aborted error text => raise (HTTPException error text)
  end.

(** [k in data]; a value that is no container raises. *)
Definition py_in (k : string) (data : document) : M bool :=
  match member k data with
  | Some b => mret b
  | None =>
      raise (Exception "TypeError"
               ("argument of type '" +:+ type_name data +:+ "' is not iterable"))
  end.

(** [data[k]] for a string [k]. *)
Definition py_item (k : string) (data : document) : M pyval :=
  match data with
  | Object fields => dict_item k fields
  | Array _ =>
      raise (Exception "TypeError"
               "list indices must be integers or slices, not str")
  | Scalar (PStr _) =>
      raise (Exception "TypeError" "string indices must be integers, not 'str'")
  | _ =>
      raise (Exception "TypeError"
               ("'" +:+ type_name data +:+ "' object is not subscriptable"))
  end.

(** [data.attr] for a method of [dict]: only a dict has it. *)
Definition dict_method (attr : string) (data : document) : M dict :=
  match data with
  | Object fields => mret fields
  | _ =>
      raise (Exception "AttributeError"
               ("'" +:+ type_name data +:+ "' object has no attribute '"
                +:+ attr +:+ "'"))
  end.

(** [data.get(k, default)]. *)
Definition py_get (k : string) (default : pyval) (data : document) : M pyval :=
  fields ← dict_method "get" data;
  mret (dict_get_default k default fields).

(** [data.items()]. *)
Definition py_items (data : document) : M dict := dict_method "items" data.

(** [x or y] on an optional string. *)
Definition or_str (x : option string) (y : string) : string :=
  match x with
  | Some s => if decide (s = "") then y else s
  | None => y
  end.

(** ** Request handlers *)

Definition success : list (string * jvalue) := [("success", JBool true)].

(** The [except Exception as e] clause shared by the handlers. *)
Definition server_error (x : exn) : M response :=
  mret (jsonify [("error", JStr (exn_msg x))] 500).

Definition page (e : env) (template : string) : M response :=
  mret (render_template template [("gemini_available", TBool (gemini_available e))]).

Definition index (e : env) : M response := page e "index.html".
Definition image_describer (e : env) : M response := page e "image_describer.html".
Definition speech_to_text : M response :=
  mret (render_template "speech_to_text.html" []).
Definition text_to_speech : M response :=
  mret (render_template "text_to_speech.html" []).
Definition communication_bridge : M response :=
  mret (render_template "communication_bridge.html" []).
Definition document_reader (e : env) : M response := page e "document_reader.html".

Definition saved_content (e : env) : M response :=
  get_db ;;
  descriptions ← execute e (SelectRecent "image_descriptions");
  transcriptions ← execute e (SelectRecent "transcriptions");
  saved_texts ← execute e (SelectRecent "saved_texts");
  close ;;
  mret (render_template "saved_content.html"
          [("descriptions", TRows descriptions);
           ("transcriptions", TRows transcriptions);
           ("saved_texts", TRows saved_texts)]).

Definition api_describe_image (e : env) (req : request) : M response :=
  if negb (gemini_available e) then
    mret (jsonify [("error", JStr "Gemini API not configured. Please set GEMINI_API_KEY environment variable.")] 400)
  else
  match files req !! "image" with
  | None => mret (jsonify [("error", JStr "No image provided")] 400)
  | Some file =>
      if decide (filename file = "") then
        mret (jsonify [("error", JStr "No image selected")] 400)
      else if negb (allowed_file (filename file)) then
        mret (jsonify [("error", JStr "Invalid file type")] 400)
      else
        try_except
          (image_data ← read "image" file;
           let mode := default "detailed" (form req !! "mode") in
           let prompt := describe_prompt mode in
           let image_parts :=
             [Blob (or_str (content_type file) "image/jpeg") image_data] in
           description ← generate_content e (Prompt prompt :: image_parts);
           let filename := secure_filename e (filename file) in
           get_db ;;
           execute e (Insert false "image_descriptions"
                        ["filename"; "description"]
                        [PStr filename; PStr description]) ;;
           commit ;;
           close ;;
           mret (jsonify [("success", JBool true);
                          ("description", JStr description);
                          ("mode", JStr mode)] 200))
          server_error
  end.

Definition api_save_transcription (e : env) (req : request) : M response :=
  data ← get_json req;
  if negb (truthy data) then
    mret (jsonify [("error", JStr "No text provided")] 400)
  else
  has_text ← py_in "text" data;
  if negb has_text then
    mret (jsonify [("error", JStr "No text provided")] 400)
  else
    try_except
      (get_db ;;
       text ← py_item "text" data;
       source ← py_get "source" (PStr "speech") data;
       execute e (Insert false "transcriptions" ["text"; "source"]
                    [text; source]) ;;
       commit ;;
       close ;;
       mret (jsonify success 200))
      server_error.

Definition api_save_text (e : env) (req : request) : M response :=
  data ← get_json req;
  if negb (truthy data) then
    mret (jsonify [("error", JStr "No content provided")] 400)
  else
  has_content ← py_in "content" data;
  if negb has_content then
    mret (jsonify [("error", JStr "No content provided")] 400)
  else
    try_except
      (get_db ;;
       title ← py_get "title" (PStr "Untitled") data;
       content ← py_item "content" data;
       category ← py_get "category" (PStr "general") data;
       execute e (Insert false "saved_texts" ["title"; "content"; "category"]
                    [title; content; category]) ;;
       commit ;;
       close ;;
       mret (jsonify success 200))
      server_error.

(** The extension [api_extract_document] computes from the sanitised name:
    [filename.rsplit('.', 1)[1].lower() if '.' in filename else '']. *)
Definition document_ext (sanitised : string) : string :=
  if Py.contains "."%char sanitised then
    match Py.rsplit1 "."%char sanitised with
    | Some (_, x) => Py.lower x
    | None => ""
    end
  else "".

Definition extract_prompt : string :=
  "Extract all text from this document. Preserve the structure and formatting as much as possible. If it's an image, describe any visual elements along with the text.".

Definition api_extract_document (e : env) (req : request) : M response :=
  match files req !! "document" with
  | None => mret (jsonify [("error", JStr "No document provided")] 400)
  | Some file =>
      if decide (filename file = "") then
        mret (jsonify [("error", JStr "No document selected")] 400)
      else
        try_except
          (content ← read "document" file;
           let filename := secure_filename e (filename file) in
           let ext := document_ext filename in
           if decide (ext = "txt") then
             text ← try_except (decode "utf-8" content)
                               (λ _, decode "latin-1" content);
             mret (jsonify [("success", JBool true); ("text", JText text);
                            ("method", JStr "direct")] 200)
           else if gemini_available e &&
                   bool_decide (ext ∈ ["pdf"; "png"; "jpg"; "jpeg"]) then
             let mime_type :=
               if decide (ext = "pdf") then "application/pdf"
               else "image/" +:+ ext in
             text ← generate_content e
                      [Prompt extract_prompt; Blob mime_type content];
             mret (jsonify [("success", JBool true); ("text", JStr text);
                            ("method", JStr "gemini")] 200)
           else
             mret (jsonify [("error", JStr "Unsupported file type or Gemini not available")] 400))
          server_error
  end.

Definition api_conversation (e : env) (req : request) : M response :=
  data ← get_json req;
  if negb (truthy data) then
    mret (jsonify [("error", JStr "No data provided")] 400)
  else
    try_except
      (get_db ;;
       session_id ← py_get "session_id" (PStr "default") data;
       speaker ← py_get "speaker" (PStr "unknown") data;
       message ← py_get "message" (PStr "") data;
       message_type ← py_get "message_type" (PStr "text") data;
       execute e (Insert false "conversation_history"
                    ["session_id"; "speaker"; "message"; "message_type"]
                    [session_id; speaker; message; message_type]) ;;
       commit ;;
       close ;;
       mret (jsonify success 200))
      server_error.

Definition simplify_prompt (text : string) : string :=
  "Simplify the following text for someone who is deafblind. Use:" +:+ Py.nl +:+
  Py.ind8 +:+ "- Short, clear sentences" +:+ Py.nl +:+
  Py.ind8 +:+ "- Simple vocabulary" +:+ Py.nl +:+
  Py.ind8 +:+ "- Structured format with clear sections" +:+ Py.nl +:+
  Py.ind8 +:+ "- No idioms or complex metaphors" +:+ Py.nl +:+
  Py.nl +:+
  Py.ind8 +:+ "Text to simplify:" +:+ Py.nl +:+
  Py.ind8 +:+ text.

Definition api_simplify_text (e : env) (req : request) : M response :=
  if negb (gemini_available e) then
    mret (jsonify [("error", JStr "Gemini API not available")] 400)
  else
  data ← get_json req;
  if negb (truthy data) then
    mret (jsonify [("error", JStr "No text provided")] 400)
  else
  has_text ← py_in "text" data;
  if negb has_text then
    mret (jsonify [("error", JStr "No text provided")] 400)
  else
    try_except
      (text ← py_item "text" data;
       let prompt := simplify_prompt (py_str text) in
       simplified ← generate_content e [Prompt prompt];
       mret (jsonify [("success", JBool true);
                      ("simplified", JStr simplified)] 200))
      server_error.

Inductive http_method := GET | POST.

Global Instance http_method_eq_dec : EqDecision http_method.
Proof. solve_decision. Defined.

(** [INSERT OR REPLACE INTO user_preferences ... VALUES (?, ?, CURRENT_TIMESTAMP)]
    with [(key, str(value))]. *)
Definition upsert_preference (key : string) (value : pyval) : statement :=
  Insert true "user_preferences" ["preference_key"; "preference_value"]
         [PStr key; PStr (py_str value)].

(** [for key, value in data.items(): db.execute(...)]. *)
Fixpoint upsert_all (e : env) (items : dict) : M unit :=
  match items with
  | [] => mret ()
  | (key, value) :: items' =>
      execute e (upsert_preference key value) ;; upsert_all e items'
  end.

(** [{row['preference_key']: row['preference_value'] for row in prefs}]. *)
Definition preferences_json (prefs : list row) : list (string * jvalue) :=
  omap (λ r,
          match field "preference_key" r, field "preference_value" r with
          | Some (SText k), Some (SText v) => Some (k, JStr v)
          | _, _ => None
          end) prefs.

Definition api_preferences (e : env) (method : http_method) (req : request)
  : M response :=
  get_db ;;
  match method with
  | GET =>
      prefs ← execute e SelectPreferences;
      close ;;
      mret (jsonify (preferences_json prefs) 200)
  | POST =>
      data ← get_json req;
      if negb (truthy data) then
        mret (jsonify [("error", JStr "No data provided")] 400)
      else
        items ← py_items data;
        upsert_all e items ;;
        commit ;;
        close ;;
        mret (jsonify success 200)
  end.

Definition allowed_tables : list string :=
  ["image_descriptions"; "transcriptions"; "saved_texts"].

Definition api_delete_item (e : env) (table : string) (id : N) : M response :=
  if negb (bool_decide (table ∈ allowed_tables)) then
    mret (jsonify [("error", JStr "Invalid table")] 400)
  else
    try_except
      (get_db ;;
       execute e (DeleteWhereId table (PInt (Z.of_N id))) ;;
       commit ;;
       close ;;
       mret (jsonify success 200))
      server_error.

(** ** Routing *)

Inductive route :=
| R_index
| R_image_describer
| R_speech_to_text
| R_text_to_speech
| R_communication_bridge
| R_document_reader
| R_saved_content
| R_describe_image
| R_save_transcription
| R_save_text
| R_extract_document
| R_conversation
| R_simplify_text
| R_preferences (method : http_method)
| R_delete (table : string) (id : N).

Global Instance route_eq_dec : EqDecision route.
Proof. solve_decision. Defined.

Definition dispatch (e : env) (r : route) (req : request) : M response :=
  match r with
  | R_index => index e
  | R_image_describer => image_describer e
  | R_speech_to_text => speech_to_text
  | R_text_to_speech => text_to_speech
  | R_communication_bridge => communication_bridge
  | R_document_reader => document_reader e
  | R_saved_content => saved_content e
  | R_describe_image => api_describe_image e req
  | R_save_transcription => api_save_transcription e req
  | R_save_text => api_save_text e req
  | R_extract_document => api_extract_document e req
  | R_conversation => api_conversation e req
  | R_simplify_text => api_simplify_text e req
  | R_preferences method => api_preferences e method req
  | R_delete table id => api_delete_item e table id
  end.

(** One request from start to end: the response sent, the database file
    left behind, and the effects performed. *)
Record served := { resp : response; db_after : database; effects : list event }.

(** What Flask answers when an exception escapes the handler: the page of
    an [HTTPException] under its own code, the 500 page for any other. *)
Definition handle_exception (x : exn) : response :=
  match x with
  | HTTPException error _ =>
      {| status := http_code error; payload := HttpError |}
  | Exception _ _ => {| status := 500; payload := InternalServerError |}
  end.

(** The request starts with no connection open; an exception that escapes
    the handler is answered by Flask; a connection left open is dropped
    with whatever it had not committed. *)
Definition serve (e : env) (r : route) (req : request) (d : database) : served :=
  match dispatch e r req {| store := d; conn := None; trace := [] |} with
  | (Return rsp, w) =>
      {| resp := rsp; db_after := store w; effects := trace w |}
  | (Raise x, w) =>
      {| resp := handle_exception x; db_after := store w; effects := trace w |}
  end.

(** Measures on a log of effects. *)
Definition is_generate (ev : event) : bool :=
  match ev with Generate _ => true | _ => false end.
Definition is_write_event (ev : event) : bool :=
  match ev with Execute s => is_write s | _ => false end.
Definition is_commit (ev : event) : bool :=
  match ev with Commit => true | _ => false end.
Definition is_connect (ev : event) : bool :=
  match ev with Connect => true | _ => false end.

Definition ai_calls (tr : list event) : nat := length (List.filter is_generate tr).
Definition writes (tr : list event) : nat := length (List.filter is_write_event tr).
Definition commits (tr : list event) : nat := length (List.filter is_commit tr).

(** What was sent to the model, call by call. *)
Definition generated (tr : list event) : list (list part) :=
  omap (λ ev, match ev with Generate ps => Some ps | _ => None end) tr.

Definition is_client_error (code : Z) : Prop := 400 ≤ code < 500.

(** The database after [init_db] has run: every table of the schema is
    there with its columns. *)
Definition initialised (d : database) : Prop :=
  Forall (λ t : string * list column, columns <$> d !! t.1 = Some t.2) schema.

Global Instance initialised_dec (d : database) : Decision (initialised d).
Proof. unfold initialised. apply _. Defined.

(** ** werkzeug's [secure_filename] on a POSIX host

    The function is not part of the application; the handlers take it from
    the environment.  This is the library's definition, used to run the
    handlers on concrete names: the name is normalised to NFKD and what is
    not ASCII afterwards is dropped, the path separator becomes a blank, the
    words are joined by underscores, every character outside [A-Za-z0-9_.-]
    is deleted, and dots and underscores are stripped from both ends. *)
Module Werkzeug.

Definition among (n : N) (l : list N) : bool := existsb (N.eqb n) l.

(** [unicodedata.normalize("NFKD", c).encode("ascii", "ignore")] for one
    character of the 8-bit range: an accented letter leaves its base
    letter, a superscript or a fraction its digits, a spacing accent and
    the no-break space a blank; the other characters above 127 have no
    ASCII part. *)
Definition nfkd_ascii (a : ascii) : list ascii :=
  let n := N_of_ascii a in
  let base (c : ascii) := [c] in
  if (n <? 128)%N then [a]
  else if among n [160; 168; 175; 180; 184]%N then base " "%char
  else if among n [192; 193; 194; 195; 196; 197]%N then base "A"%char
  else if among n [199]%N then base "C"%char
  else if among n [200; 201; 202; 203]%N then base "E"%char
  else if among n [204; 205; 206; 207]%N then base "I"%char
  else if among n [209]%N then base "N"%char
  else if among n [210; 211; 212; 213; 214]%N then base "O"%char
  else if among n [217; 218; 219; 220]%N then base "U"%char
  else if among n [221]%N then base "Y"%char
  else if among n [170; 224; 225; 226; 227; 228; 229]%N then base "a"%char
  else if among n [231]%N then base "c"%char
  else if among n [232; 233; 234; 235]%N then base "e"%char
  else if among n [236; 237; 238; 239]%N then base "i"%char
  else if among n [241]%N then base "n"%char
  else if among n [186; 242; 243; 244; 245; 246]%N then base "o"%char
  else if among n [249; 250; 251; 252]%N then base "u"%char
  else if among n [253; 255]%N then base "y"%char
  else if among n [185]%N then base "1"%char
  else if among n [178]%N then base "2"%char
  else if among n [179]%N then base "3"%char
  else if among n [188]%N then ["1"; "4"]%char
  else if among n [189]%N then ["1"; "2"]%char
  else if among n [190]%N then ["3"; "4"]%char
  else [].

Definition is_space (a : ascii) : bool :=
  let n := N_of_ascii a in
  (((9 <=? n) && (n <=? 13)) || ((28 <=? n) && (n <=? 32)))%N.

Definition keep (a : ascii) : bool :=
  let n := N_of_ascii a in
  (((48 <=? n) && (n <=? 57)) || ((65 <=? n) && (n <=? 90)) ||
   ((97 <=? n) && (n <=? 122)) || (n =? 95) || (n =? 46) || (n =? 45))%N.

Definition is_edge (a : ascii) : bool :=
  let n := N_of_ascii a in ((n =? 46) || (n =? 95))%N.

(** [str.split()]: the maximal runs of characters that are not blank. *)
Fixpoint split_go (cur : list ascii) (l : list ascii) : list (list ascii) :=
  match l with
  | [] => match cur with [] => [] | _ => [rev cur] end
  | a :: l' =>
      if is_space a
      then match cur with
           | [] => split_go [] l'
           | _ => rev cur :: split_go [] l'
           end
      else split_go (a :: cur) l'
  end.

Fixpoint join (sep : ascii) (ws : list (list ascii)) : list ascii :=
  match ws with
  | [] => []
  | [w] => w
  | w :: ws' => w ++ sep :: join sep ws'
  end.

Fixpoint lstrip (l : list ascii) : list ascii :=
  match l with
  | a :: l' => if is_edge a then lstrip l' else l
  | [] => []
  end.

Definition strip (l : list ascii) : list ascii := rev (lstrip (rev (lstrip l))).

Definition secure_filename (name : string) : string :=
  let l := flat_map nfkd_ascii (list_ascii_of_string name) in
  let l := map (λ a, if decide (a = "/"%char) then " "%char else a) l in
  let l := join "_"%char (split_go [] l) in
  string_of_list_ascii (strip (List.filter keep l)).

End Werkzeug.

(** ** Vocabulary of the properties *)

Definition modes : list string := ["quick"; "detailed"; "navigation"; "deafblind"].

(** The text [api_extract_document] returns for a [.txt] upload. *)
Definition decoded (content : list byte) : unicode :=
  match Codec.utf8 (Byte.to_N <$> content) with
  | Some t => t
  | None => Codec.latin1 (Byte.to_N <$> content)
  end.

(** What extract-document answers for a document it reads itself. *)
Definition direct (content : list byte) : response :=
  jsonify [("success", JBool true); ("text", JText (decoded content));
           ("method", JStr "direct")] 200.

(** The claim of C3, on the extension of the uploaded name: every upload
    whose name ends in ".txt" is decoded and answered directly, and the
    model is not called. *)
Definition txt_uploads_answered_directly : Prop :=
  ∀ e req d file,
    files req !! "document" = Some file →
    document_ext (filename file) = "txt" →
    resp (serve e R_extract_document req d) = direct (content file) ∧
    ai_calls (effects (serve e R_extract_document req d)) = 0%nat.

(** The letters of an extension that reads "txt" in lower case. *)
Definition tx (a : ascii) : bool :=
  bool_decide (a ∈ ["t"; "T"; "x"; "X"]%char).

(** A handler that checks the name of the upload in [field] against the
    allow-list before doing anything else: a name [allowed_file] refuses
    (empty, without extension, or with an extension outside the list) gets a
    client error and no effect has been performed. *)
Definition rejects_unlisted_uploads (r : route) (field : string) : Prop :=
  ∀ e req d file,
    files req !! field = Some file →
    allowed_file (filename file) = false →
    is_client_error (status (resp (serve e r req d))) ∧
    effects (serve e r req d) = [].

(** No row of [table] carries the id [i]. *)
Definition id_absent (d : database) (table : string) (i : N) : Prop :=
  ∀ t, d !! table = Some t → Forall (λ r, id r ≠ Z.of_N i) (rows t).

Definition preference_columns : list column :=
  [col "preference_key" true true; col "preference_value" true false].

(** The row an upsert of [(key, value)] writes. *)
Definition preference_row (i : Z) (key value : string) (t : Z) : row :=
  {| id := i;
     data := [("preference_key", SText key); ("preference_value", SText value)];
     stamp := t |}.

Definition has_key (key : string) (r : row) : bool :=
  bool_decide (field "preference_key" r = Some (SText key)).

(** The stored rows of [user_preferences] that carry [key]. *)
Definition preference_rows (key : string) (d : database) : list row :=
  match d !! "user_preferences" with
  | Some t => List.filter (has_key key) (rows t)
  | None => []
  end.

(** The table after [INSERT OR REPLACE] of [(key, value)] at time [now]. *)
Definition upserted (key value : string) (now : Z) (t : table) : table :=
  {| columns := columns t;
     rows := List.filter (λ r, negb (has_key key r)) (rows t)
             ++ [preference_row (seq t + 1) key value now];
     seq := seq t + 1 |}.

Definition transcription_columns : list column :=
  [col "text" true false; col "source" false false].

Definition transcription_row (i : Z) (text : string) (source : sqlval) (t : Z)
  : row :=
  {| id := i; data := [("text", SText text); ("source", source)]; stamp := t |}.

(** The table with one more row at its end. *)
Definition appended (r : row) (t : table) : table :=
  {| columns := columns t; rows := rows t ++ [r]; seq := seq t + 1 |}.

(** A handler that refuses a body whose "text" is the empty string. *)
Definition rejects_empty_text (r : route) : Prop :=
  ∀ e req d,
    json req = Some [("text", PStr "")] →
    is_client_error (status (resp (serve e r req d))).

(** A handler that answers with a client error every body in which no
    field "text" is present. *)
Definition rejects_missing_text (r : route) : Prop :=
  ∀ e req d data,
    json_body req = Parsed data →
    (∀ fields, data = Object fields → dict_has "text" fields = false) →
    is_client_error (status (resp (serve e r req d))).

Definition status_of (e : env) (r : route) (req : request) (d : database) : Z :=
  status (resp (serve e r req d)).

(** The rows a rendered page lists under [name]. *)
Definition listed (name : string) (rsp : response) : list row :=
  match payload rsp with
  | Html _ context =>
      match List.find (λ p : string * tvalue, bool_decide (p.1 = name)) context with
      | Some (_, TRows rs) => rs
      | _ => []
      end
  | _ => []
  end.

(** Every stored transcription was written at or before time [t]. *)
Definition written_by (t : Z) (d : database) : Prop :=
  ∀ tb, d !! "transcriptions" = Some tb → Forall (λ r, stamp r ≤ t) (rows tb).

(** Every stored transcription was written strictly before time [t]. *)
Definition written_before (t : Z) (d : database) : Prop :=
  ∀ tb, d !! "transcriptions" = Some tb → Forall (λ r, stamp r < t) (rows tb).

(** The text a [TEXT] column keeps for a bound value: a string as it is, a
    boolean or an integer as its decimal text; nothing for [None], which is
    stored as NULL, and for an integer that cannot be bound. *)
Definition column_text (v : pyval) : option string :=
  match bind_param v with
  | Return sv =>
      match text_affinity sv with
      | SText s => Some s
      | _ => None
      end
  | Raise _ => None
  end.

(** The claim of C9, on what is stored: a body with a "text" field and no
    "source" field adds a row whose source is "speech". *)
Definition saved_with_default_source : Prop :=
  ∀ e req d data v t,
    json req = Some data →
    dict_get "text" data = Some v →
    dict_get "source" data = None →
    d !! "transcriptions" = Some t →
    columns t = transcription_columns →
    ∃ r t',
      db_after (serve e R_save_transcription req d) !! "transcriptions"
      = Some t' ∧
      rows t' = rows t ++ [r] ∧
      field "source" r = Some (SText "speech").

(** The claim of C9, on what is listed: after saving [{"text": text}], the
    page of saved content lists the new row, with source "speech", first. *)
Definition saved_row_listed_first : Prop :=
  ∀ e e' req req' d text,
    initialised d →
    written_by (now e) d →
    now e ≤ now e' →
    json req = Some [("text", PStr text)] →
    ∃ r, head (listed "transcriptions"
                 (resp (serve e' R_saved_content req'
                          (db_after (serve e R_save_transcription req d)))))
         = Some r ∧
         field "text" r = Some (SText text) ∧
         field "source" r = Some (SText "speech").

Definition upsert_event (kv : string * pyval) : event :=
  Execute (upsert_preference kv.1 kv.2).

(** The table after the upserts of a whole body, in the order of its items. *)
Definition upserted_all (now : Z) (items : dict) (t : table) : table :=
  foldl (λ t (kv : string * pyval), upserted kv.1 (py_str kv.2) now t) t items.

(** The claim of C7: at most one call to the model and at most one write
    statement per request. *)
Definition one_call_one_write : Prop :=
  ∀ e r req d,
    (ai_calls (effects (serve e r req d)) ≤ 1)%nat ∧
    (writes (effects (serve e r req d)) ≤ 1)%nat.

(** ** Startup *)

(** [init_gemini]: with an API key in the environment, [genai.configure] and
    the construction of the model ([configure] stands for both) either yield
    the model or raise.  The result is the new value of the global
    [gemini_model] and the boolean the function returns. *)
Definition init_gemini (GEMINI_API_KEY : string)
  (configure : string → outcome (list part → outcome string))
  : option (list part → outcome string) * bool :=
  if decide (GEMINI_API_KEY = "") then (None, false)
  else
    match configure GEMINI_API_KEY with
    | Return m => (Some m, true)
    | Raise _ => (None, false)
    end.

(** ** Vocabulary of the further properties *)

(** The statements each route sends to the database. *)
Inductive permitted : route → statement → Prop :=
| permitted_recent (tbl : string) :
    tbl ∈ allowed_tables →
    permitted R_saved_content (SelectRecent tbl)
| permitted_description (name description : string) :
    permitted R_describe_image
      (Insert false "image_descriptions" ["filename"; "description"]
              [PStr name; PStr description])
| permitted_transcription (text source : pyval) :
    permitted R_save_transcription
      (Insert false "transcriptions" ["text"; "source"] [text; source])
| permitted_text (title content category : pyval) :
    permitted R_save_text
      (Insert false "saved_texts" ["title"; "content"; "category"]
              [title; content; category])
| permitted_turn (session speaker message kind : pyval) :
    permitted R_conversation
      (Insert false "conversation_history"
              ["session_id"; "speaker"; "message"; "message_type"]
              [session; speaker; message; kind])
| permitted_preferences :
    permitted (R_preferences GET) SelectPreferences
| permitted_upsert (key : string) (value : pyval) :
    permitted (R_preferences POST) (upsert_preference key value)
| permitted_delete (tbl : string) (i : N) :
    tbl ∈ allowed_tables →
    permitted (R_delete tbl i) (DeleteWhereId tbl (PInt (Z.of_N i))).

(** The table a statement works on. *)
Definition table_of (s : statement) : string :=
  match s with
  | Insert _ tbl _ _ | DeleteWhereId tbl _ | SelectRecent tbl => tbl
  | SelectPreferences => "user_preferences"
  end.

(** The one table a route may change, if any. *)
Definition target (r : route) : option string :=
  match r with
  | R_describe_image => Some "image_descriptions"
  | R_save_transcription => Some "transcriptions"
  | R_save_text => Some "saved_texts"
  | R_conversation => Some "conversation_history"
  | R_preferences POST => Some "user_preferences"
  | R_delete tbl _ =>
      if bool_decide (tbl ∈ allowed_tables) then Some tbl else None
  | _ => None
  end.

(** A computation all of whose runs relate the world before to the world
    after. *)
Definition steps {A} (R : world → world → Prop) (m : M A) : Prop :=
  ∀ w, R w (m w).2.

(** What a relation between worlds has to satisfy to hold across every
    handler of route [r]: it is a preorder and every effect the route may
    perform respects it. *)
Record sound (R : world → world → Prop) (r : route) : Prop := {
  sound_refl : ∀ w, R w w;
  sound_trans : ∀ w1 w2 w3, R w1 w2 → R w2 w3 → R w1 w3;
  sound_get_db : ∀ w, R w (get_db w).2;
  sound_execute : ∀ e s w, permitted r s → R w (execute e s w).2;
  sound_commit : ∀ w, R w (commit w).2;
  sound_close : ∀ w, R w (close w).2;
  sound_read : ∀ name w, R w (log (ReadUpload name) w).2;
  sound_generate : ∀ e ps w, R w (generate_content e ps w).2
}.

(** A property of databases that no successful run of [s] breaks. *)
Definition stable (I : database → Prop) (s : statement) : Prop :=
  ∀ t d d' rs, exec s t d = Return (d', rs) → I d → I d'.

(** The property holds of the file and of what the open connection sees. *)
Definition holds (I : database → Prop) (w : world) : Prop :=
  I (store w) ∧ ∀ d, conn w = Some d → I d.

Definition preserves (I : database → Prop) (w w' : world) : Prop :=
  holds I w → holds I w'.

(** The log grows by events that satisfy [P]. *)
Definition emits (P : event → Prop) (w w' : world) : Prop :=
  ∃ tr, trace w' = trace w ++ tr ∧ Forall P tr.

(** The ids of every table are pairwise distinct and none exceeds the
    largest id the table has handed out. *)
Definition well_numbered (d : database) : Prop :=
  ∀ name tb, d !! name = Some tb →
    NoDup (id <$> rows tb) ∧ Forall (λ r, id r ≤ seq tb) (rows tb).

(** [d'] holds no row of [d] in a changed form and reuses none of its ids:
    each of its rows is a row of [d] or carries an id above every id its
    table had handed out in [d]. *)
Definition extends (d d' : database) : Prop :=
  ∀ name tb', d' !! name = Some tb' →
    ∃ tb, d !! name = Some tb ∧ seq tb ≤ seq tb' ∧
          Forall (λ r, r ∈ rows tb ∨ seq tb < id r) (rows tb').

(** The preferences table has its two columns and holds at most one row
    for each key. *)
Definition one_row_per_key (d : database) : Prop :=
  ∀ t, d !! "user_preferences" = Some t →
    columns t = preference_columns ∧
    ∀ key, (length (List.filter (has_key key) (rows t)) ≤ 1)%nat.

(** Table [name] of [d'] holds the rows it holds in [d], in the same order,
    followed by further rows. *)
Definition grown (name : string) (d d' : database) : Prop :=
  ∀ t, d !! name = Some t →
    ∃ t' extra, d' !! name = Some t' ∧ rows t' = rows t ++ extra.

Definition description_columns : list column :=
  [col "filename" true false; col "description" true false].

Definition description_row (i : Z) (name description : string) (t : Z) : row :=
  {| id := i;
     data := [("filename", SText name); ("description", SText description)];
     stamp := t |}.

(** What describe-image sends to the model for [file] under [mode]. *)
Definition describe_parts (file : upload) (mode : string) : list part :=
  [Prompt (describe_prompt mode);
   Blob (or_str (content_type file) "image/jpeg") (content file)].

(** The MIME type extract-document announces for an extension. *)
Definition extract_mime (ext : string) : string :=
  if decide (ext = "pdf") then "application/pdf" else "image/" +:+ ext.

Definition saved_text_columns : list column :=
  [col "title" false false; col "content" true false;
   col "category" false false].

Definition saved_text_row (i : Z) (title content category : string) (t : Z)
  : row :=
  {| id := i;
     data := [("title", SText title); ("content", SText content);
              ("category", SText category)];
     stamp := t |}.

Definition conversation_columns : list column :=
  [col "session_id" true false; col "speaker" true false;
   col "message" true false; col "message_type" false false].

Definition conversation_row (i : Z) (session speaker message kind : string)
  (t : Z) : row :=
  {| id := i;
     data := [("session_id", SText session); ("speaker", SText speaker);
              ("message", SText message); ("message_type", SText kind)];
     stamp := t |}.

(** A key of a body that is either absent or bound to a string. *)
Definition optional (key : string) (value : option string) (data : dict) : Prop :=
  dict_get key data = PStr <$> value.

(** A list of rows in which none is more recent than one before it. *)
Definition newest_first (l : list row) : Prop :=
  StronglySorted (λ a b, stamp b ≤ stamp a) l.

(** [shown] is a listing of the fifty most recent of the rows [stored]:
    at most fifty of them, newest first, all of them when there are no more
    than fifty, and none left out is more recent than one shown. *)
Definition most_recent (shown stored : list row) : Prop :=
  (length shown ≤ 50)%nat ∧
  newest_first shown ∧
  shown ⊆ stored ∧
  ((length stored ≤ 50)%nat → shown ≡ₚ stored) ∧
  (∀ x y, x ∈ stored → x ∉ shown → y ∈ shown → stamp x ≤ stamp y).

(** The lists of the saved-content page and the tables they come from. *)
Definition saved_lists : list (string * string) :=
  [("descriptions", "image_descriptions");
   ("transcriptions", "transcriptions");
   ("saved_texts", "saved_texts")].

Definition is_close (ev : event) : bool :=
  match ev with Close => true | _ => false end.

Definition connects (tr : list event) : nat := length (List.filter is_connect tr).
Definition closes (tr : list event) : nat := length (List.filter is_close tr).

(** The effects that precede the work of a handler: opening the connection
    and reading the upload. *)
Definition is_setup (ev : event) : bool :=
  match ev with Connect | ReadUpload _ => true | _ => false end.

(** ** Sample inputs *)

Definition sample_model (ps : list part) : outcome string :=
  Return "A red bicycle.".

(** An environment with the model configured, and one without. *)
Definition live (t : Z) : env :=
  {| gemini_model := Some sample_model;
     secure_filename := Werkzeug.secure_filename; now := t |}.
Definition offline (t : Z) : env :=
  {| gemini_model := None;
     secure_filename := Werkzeug.secure_filename; now := t |}.

(** A model whose every call fails, and an environment around it. *)
Definition failing_model (ps : list part) : outcome string :=
  Raise (Exception "ResourceExhausted" "429 quota exceeded").
Definition failing (t : Z) : env :=
  {| gemini_model := Some failing_model;
     secure_filename := Werkzeug.secure_filename; now := t |}.

(** A request without a JSON body, as a browser sends for a page or a
    delete: [get_json()] would abort with 415. *)
Definition not_json : parsing :=
  Aborted UnsupportedMediaType
    "415 Unsupported Media Type: Did not attempt to load JSON data because the request Content-Type was not 'application/json'.".

Definition no_request : request :=
  {| files := ∅; form := ∅; json_body := not_json |}.

(** A request whose body is the JSON document [data]. *)
Definition json_document (data : document) : request :=
  {| files := ∅; form := ∅; json_body := Parsed data |}.

Definition json_request (data : dict) : request :=
  json_document (Object data).

Definition upload_request (field : string) (file : upload)
  (fields : gmap string string) : request :=
  {| files := {[ field := file ]}; form := fields; json_body := not_json |}.

Definition named (name : string) (bytes : list byte) : upload :=
  {| filename := name; content_type := None; content := bytes |}.

(** A database that already holds one transcription, saved at time 900. *)
Definition one_transcription : database :=
  db_after (serve (offline 900) R_save_transcription
              (json_request [("text", PStr "earlier")]) (init_db ∅)).

(** ** Proof automation *)

Ltac run_monad :=
  cbv beta iota delta
    [mbind M_bind mret M_ret try_except raise log get_db execute commit close
     read generate_content server_error dict_item decode
     get_json py_in py_item py_get py_items dict_method];
  simpl.

(** Case analysis on the innermost scrutinee the goal is stuck on. *)
Ltac innermost x :=
  lazymatch x with
  | context [match ?y with _ => _ end] => innermost y
  | _ => destruct x eqn:?
  end.

Ltac split_cases :=
  repeat (simpl;
          match goal with
          | |- context [match ?x with _ => _ end] => innermost x
          end).

(** Case analysis on what [request.get_json()] gives, down to the emptiness
    of the document. *)
Ltac body_cases req :=
  unfold get_json, json;
  destruct (json_body req)
    as [[[|[|]|?n|[|? ?]]|[|]|[|? ?]|[|kv data]]|[|] ?text].

(** * Properties *)

(** ** Sanity checks of the model *)

Lemma json_object (req : request) (data : dict) :
  json req = Some data → json_body req = Parsed (Object data).
Proof.
  unfold json. destruct (json_body req) as [[| | |fields]|]; try done.
  by intros [= ->].
Qed.


Example init_db_tables :
  map (fun t => bool_decide (is_Some (init_db ∅ !! t)))
      ["image_descriptions"; "transcriptions"; "user_preferences";
       "saved_texts"; "conversation_history"; "users"]
  = [true; true; true; true; true; false].
Proof. vm_compute. reflexivity. Qed.

Example secure_filename_samples :
  Werkzeug.secure_filename <$>
    ["notes.txt."; ".txt"; "_.txt"; "a b.txt"; "../../etc/passwd"; "virus.exe"]
  = ["notes.txt"; "txt"; "txt"; "a_b.txt"; "etc_passwd"; "virus.exe"].
Proof. vm_compute. reflexivity. Qed.

(** Names outside ASCII: e-acute, a-e ligature, one half and the no-break
    space in front of ".txt". *)
Example secure_filename_latin1 :
  (λ n, Werkzeug.secure_filename (String (ascii_of_N n) ".txt")) <$>
    [233; 230; 189; 160]%N
  = ["e.txt"; "txt"; "12.txt"; "txt"].
Proof. vm_compute. reflexivity. Qed.

Example bodies_of_save_transcription :
  (λ data, status (resp (serve (offline 0) R_save_transcription
                           (json_document data) (init_db ∅)))) <$>
    [Scalar PNone; Scalar (PBool true); Scalar (PInt 5); Scalar (PInt 0);
     Float false; Scalar (PStr "context"); Scalar (PStr "abc");
     Array [PStr "text"]; Array [PInt 1]; Object []; Object [("text", PStr "")]]
  = [400; 500; 500; 400; 500; 500; 400; 500; 400; 400; 200].
Proof. vm_compute. reflexivity. Qed.

Example request_without_json :
  status (resp (serve (offline 0) R_save_transcription no_request (init_db ∅)))
  = 415.
Proof. vm_compute. reflexivity. Qed.

Example allowed_file_samples :
  allowed_file <$> ["photo.PNG"; "virus.exe"; "README"; ".txt"; ""; "notes.txt."]
  = [true; false; false; true; false; false].
Proof. vm_compute. reflexivity. Qed.

Example utf8_samples :
  Codec.utf8 <$> [[104; 105]; [195; 169]; [226; 130; 172]; [255]; [192; 128];
                  [237; 160; 128]; [195]]%N
  = [Some [104; 105]; Some [233]; Some [8364]; None; None; None; None]%N.
Proof. vm_compute. reflexivity. Qed.

Example describe_image_runs :
  serve (live 1000) R_describe_image
        (upload_request "image" (named "bike.jpg" [x01]%byte)
                        {[ "mode" := "quick" ]})
        (init_db ∅)
  = {| resp := jsonify [("success", JBool true);
                        ("description", JStr "A red bicycle.");
                        ("mode", JStr "quick")] 200;
       db_after :=
         <["image_descriptions" :=
             {| columns := [col "filename" true false;
                            col "description" true false];
                rows := [ {| id := 1;
                             data := [("filename", SText "bike.jpg");
                                      ("description", SText "A red bicycle.")];
                             stamp := 1000 |} ];
                seq := 1 |}]> (init_db ∅);
       effects :=
         [ReadUpload "image";
          Generate [Prompt prompt_quick; Blob "image/jpeg" [x01]%byte];
          Connect;
          Execute (Insert false "image_descriptions"
                     ["filename"; "description"]
                     [PStr "bike.jpg"; PStr "A red bicycle."]);
          Commit; Close] |}.
Proof. vm_compute. reflexivity. Qed.

Example null_text_is_a_storage_error :
  resp (serve (offline 1000) R_save_transcription
          (json_request [("text", PNone)]) (init_db ∅))
  = jsonify [("error", JStr "NOT NULL constraint failed: transcriptions.text")]
            500.
Proof. vm_compute. reflexivity. Qed.

Example virus_exe_rejected_before_any_call :
  serve (live 1000) R_describe_image
        (upload_request "image" (named "virus.exe" [x4d; x5a]%byte) ∅)
        (init_db ∅)
  = {| resp := jsonify [("error", JStr "Invalid file type")] 400;
       db_after := init_db ∅; effects := [] |}.
Proof. vm_compute. reflexivity. Qed.

(** C1: in the describe-image operation the four modes quick, detailed,
    navigation and deafblind select four distinct, non-empty prompt
    templates; every other mode string selects the deafblind template (and
    not the detailed one), and that is the prompt the handler sends to the
    model. *)
Theorem describe_image_prompt_by_mode :
  NoDup (describe_prompt <$> modes) ∧
  Forall (λ m, describe_prompt m ≠ "") modes ∧
  prompt_deafblind ≠ prompt_detailed ∧
  (∀ mode, mode ∉ modes → describe_prompt mode = describe_prompt "deafblind") ∧
  (∀ e req d file mode,
     gemini_available e = true →
     files req !! "image" = Some file →
     filename file ≠ "" →
     allowed_file (filename file) = true →
     form req !! "mode" = Some mode →
     generated (effects (serve e R_describe_image req d))
     = [[Prompt (describe_prompt mode);
         Blob (or_str (content_type file) "image/jpeg") (content file)]]).
Proof.
  split; [|split; [|split; [|split]]].
  - refine (bool_decide_unpack _ _). vm_compute. exact I.
  - refine (bool_decide_unpack _ _). vm_compute. exact I.
  - refine (bool_decide_unpack _ _). vm_compute. exact I.
  - intros mode Hm. unfold describe_prompt, modes in *.
    repeat (destruct (decide _) as [->|?]; [set_solver|]). reflexivity.
  - intros e req d file mode He Hf Hn Ha Hm.
    unfold serve, dispatch, api_describe_image.
    unfold gemini_available in He. rewrite Hf, Ha, Hm.
    destruct (gemini_model e) as [g|] eqn:Hg; [|discriminate].
    unfold gemini_available. rewrite Hg.
    rewrite decide_False by done.
    run_monad. rewrite Hg.
    destruct (g _) as [description|x]; simpl; [|reflexivity].
    destruct (exec_insert _ _ _ _ _ _); reflexivity.
Qed.

(** ** Extension checks *)

Lemma document_ext_not_allowed (s : string) :
  allowed_file s = false → document_ext s ∉ ALLOWED_EXTENSIONS.
Proof.
  unfold allowed_file, document_ext.
  destruct (Py.contains "." s); simpl; [|intros _; by vm_compute].
  destruct (Py.rsplit1 "." s) as [[h x]|]; [|intros _; by vm_compute].
  intros H. by apply bool_decide_eq_false_1 in H.
Qed.

Lemma not_allowed_not_extractable (s : string) :
  document_ext s ∉ ALLOWED_EXTENSIONS →
  document_ext s ≠ "txt" ∧ document_ext s ∉ ["pdf"; "png"; "jpg"; "jpeg"].
Proof.
  intros H. split.
  - intros E. apply H. rewrite E. by vm_compute.
  - intros E. apply H.
    repeat (apply elem_of_cons in E as [-> | E]; [by vm_compute|]).
    by apply elem_of_nil in E.
Qed.

(** C6: for every table name outside the allow-list and every id, the
    delete endpoint answers 400 and touches no database: the stored state is
    unchanged and the handler performs no effect at all, so no connection
    is opened. *)
Theorem delete_disallowed_table_untouched
  (e : env) (table : string) (id : N) (req : request) (d : database) :
  table ∉ allowed_tables →
  serve e (R_delete table id) req d
  = {| resp := jsonify [("error", JStr "Invalid table")] 400;
       db_after := d; effects := [] |}.
Proof.
  intros H. unfold serve, dispatch, api_delete_item.
  by rewrite (bool_decide_eq_false_2 _ H).
Qed.

Lemma extract_txt (e : env) (req : request) (d : database) (file : upload) :
  files req !! "document" = Some file →
  filename file ≠ "" →
  document_ext (secure_filename e (filename file)) = "txt" →
  serve e R_extract_document req d
  = {| resp := jsonify [("success", JBool true);
                        ("text", JText (decoded (content file)));
                        ("method", JStr "direct")] 200;
       db_after := d;
       effects := [ReadUpload "document"] |}.
Proof.
  intros Hf Hn Hx. unfold serve, dispatch, api_extract_document.
  rewrite Hf, Hx. rewrite decide_False by done.
  run_monad. unfold decoded.
  by destruct (Codec.utf8 _).
Qed.

Lemma rsplit1_none (c : ascii) (s : string) :
  Py.contains c s = false → Py.rsplit1 c s = None.
Proof.
  induction s as [|a s IH]; simpl; [done|].
  destruct (decide (a = c)); [done|]. intros H. by rewrite IH.
Qed.

Lemma rsplit1_last (c : ascii) (stem ext : string) :
  Py.contains c ext = false →
  Py.rsplit1 c (stem +:+ String c ext) = Some (stem, ext).
Proof.
  intros Hext. induction stem as [|a stem IH].
  - change (Py.rsplit1 c (String c ext) = Some (EmptyString, ext)). simpl.
    rewrite (rsplit1_none c ext Hext). by rewrite decide_True.
  - change (Py.rsplit1 c (String a (stem +:+ String c ext))
            = Some (String a stem, ext)).
    simpl. by rewrite IH.
Qed.

Lemma contains_last (c : ascii) (stem ext : string) :
  Py.contains c (stem +:+ String c ext) = true.
Proof.
  induction stem as [|a stem IH].
  - change (Py.contains c (String c ext) = true). simpl. by rewrite decide_True.
  - change (Py.contains c (String a (stem +:+ String c ext)) = true). simpl.
    by destruct (decide (a = c)).
Qed.

(** What [rsplit] found: the name is the two parts around the separator,
    and the second part has none. *)
Lemma rsplit1_inv (c : ascii) (s h t : string) :
  Py.rsplit1 c s = Some (h, t) →
  s = h +:+ String c t ∧ Py.contains c t = false.
Proof.
  revert h. induction s as [|a s IH]; intros h; simpl; [done|].
  destruct (Py.rsplit1 c s) as [[h' t']|] eqn:Hr.
  - intros [= <- <-]. destruct (IH h' eq_refl) as [-> Ht]. by split.
  - destruct (decide (a = c)) as [->|]; [|done].
    intros [= <- <-]. split; [done|].
    clear IH. induction s as [|b s IH]; simpl in *; [done|].
    destruct (Py.rsplit1 c s) as [[]|]; [done|].
    destruct (decide (b = c)); [done|]. by apply IH.
Qed.

Lemma lower_txt (ext : string) :
  Py.lower ext = "txt" →
  ∃ a b c, ext = String a (String b (String c EmptyString)) ∧
           tx a = true ∧ tx b = true ∧ tx c = true.
Proof.
  destruct ext as [|a [|b [|c [|]]]]; simpl; try done.
  intros [= Ha Hb Hc]. exists a, b, c. split; [done|].
  repeat split.
  - clear Hb Hc.
    destruct a as [[][][][][][][][]]; vm_compute in Ha |- *; congruence.
  - clear Ha Hc.
    destruct b as [[][][][][][][][]]; vm_compute in Hb |- *; congruence.
  - clear Ha Hb.
    destruct c as [[][][][][][][][]]; vm_compute in Hc |- *; congruence.
Qed.

Lemma list_ascii_of_string_app (s1 s2 : string) :
  list_ascii_of_string (s1 +:+ s2)
  = list_ascii_of_string s1 ++ list_ascii_of_string s2.
Proof. induction s1 as [|a s1 IH]; simpl; [done|]. by rewrite IH. Qed.

Lemma string_of_list_ascii_app (l1 l2 : list ascii) :
  string_of_list_ascii (l1 ++ l2)
  = string_of_list_ascii l1 +:+ string_of_list_ascii l2.
Proof. induction l1 as [|a l1 IH]; simpl; [done|]. by rewrite IH. Qed.

(** *** The steps of [secure_filename] on a name that ends in kept characters *)

Lemma keep_plain (a : ascii) :
  Werkzeug.keep a = true →
  Werkzeug.nfkd_ascii a = [a] ∧ Werkzeug.is_space a = false ∧ a ≠ "/"%char.
Proof. destruct a as [[][][][][][][][]]; vm_compute; intros; try done. Qed.

Lemma tx_keep (a : ascii) :
  tx a = true →
  Werkzeug.keep a = true ∧ Werkzeug.is_edge a = false ∧ a ≠ "."%char.
Proof. destruct a as [[][][][][][][][]]; vm_compute; intros; try done. Qed.

Lemma flat_map_nfkd_kept (l t : list ascii) :
  Forall (λ a, Werkzeug.keep a = true) t →
  flat_map Werkzeug.nfkd_ascii (l ++ t) = flat_map Werkzeug.nfkd_ascii l ++ t.
Proof.
  intros Ht. rewrite flat_map_app. f_equal.
  induction Ht as [|a t Ha _ IH]; simpl; [done|].
  by rewrite (proj1 (keep_plain a Ha)), IH.
Qed.

Lemma map_slash_kept (l t : list ascii) :
  Forall (λ a, Werkzeug.keep a = true) t →
  map (λ a, if decide (a = "/"%char) then " "%char else a) (l ++ t)
  = map (λ a, if decide (a = "/"%char) then " "%char else a) l ++ t.
Proof.
  intros Ht. rewrite map_app. f_equal.
  induction Ht as [|a t Ha _ IH]; simpl; [done|].
  rewrite decide_False by (by apply keep_plain). by rewrite IH.
Qed.

(** A tail without blanks stays at the end of the last word. *)
Lemma split_go_tail (cur t : list ascii) :
  t ≠ [] → Forall (λ a, Werkzeug.keep a = true) t →
  Werkzeug.split_go cur t = [rev cur ++ t].
Proof.
  intros Hne Ht. revert cur.
  induction Ht as [|a t Ha Ht IH]; intros cur; [done|].
  simpl. rewrite (proj1 (proj2 (keep_plain a Ha))).
  destruct t as [|b t].
  - done.
  - rewrite IH by done. simpl. by rewrite <- app_assoc.
Qed.

Lemma join_split_tail (cur l t : list ascii) :
  t ≠ [] → Forall (λ a, Werkzeug.keep a = true) t →
  ∃ j, Werkzeug.join "_"%char (Werkzeug.split_go cur (l ++ t)) = j ++ t.
Proof.
  intros Hne Ht. revert cur. induction l as [|a l IH]; intros cur.
  - simpl app. rewrite split_go_tail by done. by exists (rev cur).
  - simpl. destruct (Werkzeug.is_space a).
    + destruct cur as [|c cur]; [apply IH|].
      destruct (IH []) as [j Hj].
      destruct (Werkzeug.split_go [] (l ++ t)) as [|w ws] eqn:Hs.
      { simpl in Hj. destruct j, t; done. }
      exists (rev (c :: cur) ++ "_"%char :: j).
      change (Werkzeug.join "_"%char (rev (c :: cur) :: w :: ws))
        with (rev (c :: cur) ++ "_"%char :: Werkzeug.join "_"%char (w :: ws)).
      rewrite Hj. by rewrite <- app_assoc.
    + apply IH.
Qed.

Lemma filter_keep_tail (j t : list ascii) :
  Forall (λ a, Werkzeug.keep a = true) t →
  List.filter Werkzeug.keep (j ++ t) = List.filter Werkzeug.keep j ++ t.
Proof.
  intros Ht. rewrite List.filter_app. f_equal.
  induction Ht as [|a t Ha _ IH]; simpl; [done|]. by rewrite Ha, IH.
Qed.

(** Stripping the left end of [f ++ "." :: e] leaves the extension alone or
    keeps its dot. *)
Lemma lstrip_before_ext (f e : list ascii) (a : ascii) (e' : list ascii) :
  e = a :: e' → Werkzeug.is_edge a = false →
  Werkzeug.lstrip (f ++ "."%char :: e) = e ∨
  ∃ x, Werkzeug.lstrip (f ++ "."%char :: e) = x ++ "."%char :: e.
Proof.
  intros -> Ha. induction f as [|c f IH]; simpl.
  - left. by rewrite Ha.
  - destruct (Werkzeug.is_edge c); [exact IH|]. right. by exists (c :: f).
Qed.

Lemma strip_ends_plain (l : list ascii) (z : ascii) :
  Werkzeug.is_edge z = false →
  Werkzeug.strip (l ++ [z]) = Werkzeug.lstrip (l ++ [z]).
Proof.
  intros Hz. unfold Werkzeug.strip.
  assert (∃ m, Werkzeug.lstrip (l ++ [z]) = m ++ [z]) as [m Hm].
  { induction l as [|c l IH]; simpl.
    - rewrite Hz. by exists [].
    - destruct (Werkzeug.is_edge c); [exact IH|]. by exists (c :: l). }
  rewrite Hm, rev_app_distr. simpl. rewrite Hz. simpl.
  by rewrite rev_involutive.
Qed.

(** werkzeug's sanitiser keeps an extension "txt" or leaves no extension at
    all: the three letters stay, and with them the dot in front unless
    nothing is left of the stem. *)
Lemma secure_filename_txt (name : string) :
  document_ext name = "txt" →
  document_ext (Werkzeug.secure_filename name) = "txt" ∨
  Py.contains "." (Werkzeug.secure_filename name) = false.
Proof.
  unfold document_ext at 1.
  destruct (Py.contains "." name); [|done].
  destruct (Py.rsplit1 "." name) as [[stem ext]|] eqn:Hr; [|done].
  intros Hlow. apply rsplit1_inv in Hr as [-> Hdot].
  destruct (lower_txt ext Hlow) as (a & b & c & -> & Ha & Hb & Hc).
  destruct (tx_keep a Ha) as (Hka & Hea & Hda).
  destruct (tx_keep b Hb) as (Hkb & _ & Hdb).
  destruct (tx_keep c Hc) as (Hkc & Hec & Hdc).
  assert (Forall (λ x, Werkzeug.keep x = true) ["."%char; a; b; c]) as Hk
    by (by repeat constructor).
  unfold Werkzeug.secure_filename.
  rewrite list_ascii_of_string_app.
  change (list_ascii_of_string (String "." (String a (String b (String c "")))))
    with ["."%char; a; b; c].
  rewrite flat_map_nfkd_kept, map_slash_kept by done.
  match goal with |- context [Werkzeug.split_go [] (?l ++ _)] =>
    destruct (join_split_tail [] l ["."%char; a; b; c]) as [j ->];
      [done|done|] end.
  rewrite filter_keep_tail by done.
  change (List.filter Werkzeug.keep j ++ ["."%char; a; b; c])
    with (List.filter Werkzeug.keep j ++ ["."%char; a; b] ++ [c]).
  rewrite app_assoc, strip_ends_plain by done.
  rewrite <- app_assoc.
  change (["."%char; a; b] ++ [c]) with ("."%char :: [a; b; c]).
  assert (Py.contains "." (String a (String b (String c ""))) = false) as Hno.
  { simpl. by rewrite !decide_False. }
  destruct (lstrip_before_ext (List.filter Werkzeug.keep j)
              [a; b; c] a [b; c] eq_refl Hea) as [->|[x ->]].
  - right. exact Hno.
  - left. rewrite string_of_list_ascii_app.
    change (string_of_list_ascii ("."%char :: [a; b; c]))
      with (String "." (String a (String b (String c "")))).
    unfold document_ext. by rewrite contains_last, rsplit1_last.
Qed.

(** A document whose sanitised name has no dot is read and refused. *)
Lemma extract_without_extension (e : env) (req : request) (d : database)
  (file : upload) :
  files req !! "document" = Some file →
  filename file ≠ "" →
  Py.contains "." (secure_filename e (filename file)) = false →
  serve e R_extract_document req d
  = {| resp := jsonify [("error", JStr "Unsupported file type or Gemini not available")] 400;
       db_after := d;
       effects := [ReadUpload "document"] |}.
Proof.
  intros Hf Hn Hx. unfold serve, dispatch, api_extract_document.
  rewrite Hf. rewrite decide_False by done.
  unfold document_ext. rewrite Hx. run_monad.
  by rewrite andb_false_r.
Qed.

(** The claim C3 as stated does not hold: the handler takes the extension
    from the sanitised name, not from the uploaded one.  An upload named
    "_.txt" has the extension "txt"; [secure_filename] strips the
    underscore and the dot, "txt" has no extension, and the handler answers
    400. *)
Lemma sanitised_name_without_extension : ¬ txt_uploads_answered_directly.
Proof.
  intros H.
  pose (file := {| filename := "_.txt"; content_type := Some "text/plain";
                   content := [x68; x69]%byte |}).
  destruct (H {| gemini_model := None;
                 secure_filename := Werkzeug.secure_filename; now := 0 |}
              {| files := {[ "document" := file ]}; form := ∅;
                 json_body := not_json |}
              (init_db ∅) file) as [Hr _].
  - by vm_compute.
  - by vm_compute.
  - vm_compute in Hr. discriminate.
Qed.

(** C3, amended: for every uploaded file whose extension is "txt",
    extract-document never calls the model, whether or not it is
    configured.  It decodes the bytes itself and answers with method
    "direct" whenever the sanitised name still has the extension "txt";
    under werkzeug's [secure_filename] the only other case is a name of
    which sanitising leaves no extension, which is answered 400. *)
Theorem extract_txt_never_calls_model
  (e : env) (req : request) (d : database) (file : upload) :
  files req !! "document" = Some file →
  let r := serve e R_extract_document req d in
  (filename file ≠ "" →
   document_ext (secure_filename e (filename file)) = "txt" →
   resp r = direct (content file) ∧
   ai_calls (effects r) = 0%nat ∧
   generated (effects r) = []) ∧
  (secure_filename e = Werkzeug.secure_filename →
   document_ext (filename file) = "txt" →
   ai_calls (effects r) = 0%nat ∧
   generated (effects r) = [] ∧
   (resp r = direct (content file) ∨
    Py.contains "." (secure_filename e (filename file)) = false ∧
    resp r = jsonify [("error", JStr "Unsupported file type or Gemini not available")] 400)).
Proof.
  intros Hf. simpl. split.
  - intros Hn Hx. by rewrite (extract_txt e req d file Hf Hn Hx).
  - intros He Hraw.
    assert (Hn : filename file ≠ "") by (by intros E; rewrite E in Hraw).
    destruct (secure_filename_txt (filename file) Hraw) as [Hx|Hx];
      rewrite <- He in Hx.
    + rewrite (extract_txt e req d file Hf Hn Hx). simpl. by auto.
    + rewrite (extract_without_extension e req d file Hf Hn Hx). simpl.
      by auto.
Qed.

Lemma latin1_length (bs : list N) : length (Codec.latin1 bs) = length bs.
Proof. reflexivity. Qed.

(** C10: for every byte sequence uploaded as a .txt document the decoding
    step is total: when strict UTF-8 decoding fails the handler falls back
    to Latin-1, which maps any byte sequence to one code point per byte, so
    the direct branch raises no decode error and always answers 200 with
    method "direct". *)
Theorem extract_txt_decoding_total
  (e : env) (req : request) (d : database) (file : upload) :
  files req !! "document" = Some file →
  filename file ≠ "" →
  document_ext (secure_filename e (filename file)) = "txt" →
  let bytes := Byte.to_N <$> content file in
  ∃ text,
    try_except (decode "utf-8" (content file))
               (λ _, decode "latin-1" (content file))
               {| store := d; conn := None; trace := [] |}
    = (Return text, {| store := d; conn := None; trace := [] |}) ∧
    (∀ t, Codec.utf8 bytes = Some t → text = t) ∧
    (Codec.utf8 bytes = None →
       text = bytes ∧ length text = length (content file) ∧
       Forall (λ c, (c < 256)%N) text) ∧
    resp (serve e R_extract_document req d)
    = jsonify [("success", JBool true); ("text", JText text);
               ("method", JStr "direct")] 200.
Proof.
  intros Hf Hn Hx bytes. exists (decoded (content file)).
  rewrite (extract_txt e req d file Hf Hn Hx). simpl.
  unfold decoded, try_except, decode; simpl. fold bytes.
  destruct (Codec.utf8 bytes) as [t|] eqn:Hu; simpl.
  - repeat split; try done. by intros t' [= ->].
  - repeat split; try done.
    + unfold Codec.latin1, bytes. by rewrite length_fmap.
    + unfold Codec.latin1, bytes. apply Forall_fmap, Forall_forall.
      intros b _. simpl. by destruct b; vm_compute.
Qed.

(** ** Validation of uploads *)

Lemma client_error_400 : is_client_error 400.
Proof. unfold is_client_error. lia. Qed.

(** The claim C2 as stated does not hold: [api_extract_document] never
    consults the allow-list.  A document named "notes.txt." has an empty
    extension, which [allowed_file] refuses; the handler reads it, derives
    "txt" from the sanitised name and answers 200. *)
Lemma extract_document_skips_allow_list :
  ¬ (rejects_unlisted_uploads R_describe_image "image" ∧
     rejects_unlisted_uploads R_extract_document "document").
Proof.
  intros [_ H].
  pose (file := {| filename := "notes.txt."; content_type := Some "text/plain";
                   content := [x68; x69]%byte |}).
  destruct (H {| gemini_model := None;
                 secure_filename := Werkzeug.secure_filename; now := 0 |}
              {| files := {[ "document" := file ]}; form := ∅; json_body := not_json |}
              (init_db ∅) file) as [_ Heff].
  - by vm_compute.
  - by vm_compute.
  - vm_compute in Heff. discriminate.
Qed.

(** C2, amended: describe-image checks the uploaded name against the
    allow-list before any processing and answers 400 when the name is empty
    or its extension is missing or not listed.  Extract-document answers 400
    for an empty name before any processing; otherwise it reads the upload
    first and then answers 400 whenever the extension of the sanitised name
    is missing or outside the allow-list, without calling the model or the
    database. *)
Theorem upload_validation
  (e : env) (req : request) (d : database) (file : upload) :
  (files req !! "image" = Some file →
   allowed_file (filename file) = false →
   status (resp (serve e R_describe_image req d)) = 400 ∧
   db_after (serve e R_describe_image req d) = d ∧
   effects (serve e R_describe_image req d) = []) ∧
  (files req !! "document" = Some file →
   filename file = "" →
   status (resp (serve e R_extract_document req d)) = 400 ∧
   db_after (serve e R_extract_document req d) = d ∧
   effects (serve e R_extract_document req d) = []) ∧
  (files req !! "document" = Some file →
   filename file ≠ "" →
   allowed_file (secure_filename e (filename file)) = false →
   status (resp (serve e R_extract_document req d)) = 400 ∧
   db_after (serve e R_extract_document req d) = d ∧
   effects (serve e R_extract_document req d) = [ReadUpload "document"]).
Proof.
  split; [|split].
  - intros Hf Ha. unfold serve, dispatch, api_describe_image.
    rewrite Hf, Ha. destruct (gemini_available e); simpl; [|done].
    by destruct (decide _).
  - intros Hf Hn. unfold serve, dispatch, api_extract_document.
    rewrite Hf. by rewrite decide_True.
  - intros Hf Hn Ha.
    apply document_ext_not_allowed, not_allowed_not_extractable in Ha
      as [Htxt Hai].
    unfold serve, dispatch, api_extract_document.
    rewrite Hf. rewrite decide_False by done.
    rewrite (bool_decide_eq_false_2 _ Hai), andb_false_r.
    run_monad. by rewrite decide_False.
Qed.

(** ** Deleting by id *)

Lemma initialised_lookup (d : database) (name : string) (cols : list column) :
  initialised d → (name, cols) ∈ schema →
  ∃ t, d !! name = Some t ∧ columns t = cols.
Proof.
  intros Hd Hin. unfold initialised in Hd.
  rewrite Forall_forall in Hd. specialize (Hd _ Hin). simpl in Hd.
  destruct (d !! name) as [t|]; [|discriminate].
  exists t. split; [done|]. by injection Hd.
Qed.

Lemma initialised_allowed_table (d : database) (table : string) :
  initialised d → table ∈ allowed_tables → ∃ t, d !! table = Some t.
Proof.
  intros Hd Hin. unfold allowed_tables in Hin.
  rewrite !elem_of_cons, elem_of_nil in Hin.
  assert (∃ cols, (table, cols) ∈ schema) as [cols Hs].
  { destruct Hin as [->|[->|[->|[]]]]; eexists; unfold schema;
      eauto 6 using list_elem_of_here, list_elem_of_further. }
  destruct (initialised_lookup d table cols Hd Hs) as (t & Ht & _).
  by exists t.
Qed.

Lemma filter_keeps_all {A} (f : A → bool) (l : list A) :
  Forall (λ x, f x = true) l → List.filter f l = l.
Proof.
  induction 1 as [|x l Hx _ IH]; simpl; [done|]. by rewrite Hx, IH.
Qed.

Lemma table_eta (t : table) :
  {| columns := columns t; rows := rows t; seq := seq t |} = t.
Proof. by destruct t. Qed.

Lemma exec_delete_absent (d : database) (tbl : string) (i : N) (t : table) :
  d !! tbl = Some t →
  id_absent d tbl i →
  Z.of_N i ≤ int64_max →
  exec_delete tbl (PInt (Z.of_N i)) d = Return d.
Proof.
  intros Ht Habs Hi. unfold exec_delete, bind_param. rewrite Ht.
  assert ((int64_min <=? Z.of_N i) && (Z.of_N i <=? int64_max) = true) as ->.
  { apply andb_true_intro. split; apply Z.leb_le; [|done].
    unfold int64_min. lia. }
  rewrite filter_keeps_all.
  - by rewrite table_eta, insert_id.
  - eapply Forall_impl; [exact (Habs t Ht)|]. intros r Hr. simpl in Hr.
    apply negb_true_iff, bool_decide_eq_false_2. congruence.
Qed.

(** The claim C5 as stated does not hold for every id: the route accepts
    any decimal number, and one that does not fit SQLite's signed 64-bit
    INTEGER cannot be bound, so deleting the (necessarily absent) id 2^63
    answers 500. *)
Lemma delete_huge_id_is_an_error :
  ¬ (∀ e table i req d,
       initialised d → table ∈ allowed_tables → id_absent d table i →
       resp (serve e (R_delete table i) req d) = jsonify success 200 ∧
       db_after (serve e (R_delete table i) req d) = d).
Proof.
  intros H.
  destruct (H {| gemini_model := None; secure_filename := λ s, s; now := 0 |}
              "transcriptions" (2 ^ 63)%N
              {| files := ∅; form := ∅; json_body := not_json |} (init_db ∅))
    as [Hresp _].
  - refine (bool_decide_unpack _ _). vm_compute. exact I.
  - apply list_elem_of_further, list_elem_of_here.
  - intros t Ht. vm_compute in Ht. injection Ht as <-. constructor.
  - vm_compute in Hresp. discriminate.
Qed.

(** C5, amended: for every allowed table and every id that fits SQLite's
    signed 64-bit INTEGER, deleting an id that is not present in the table
    answers success and leaves the database as it was: one statement is
    executed and committed, and no row is affected. *)
Theorem delete_absent_id_succeeds
  (e : env) (table : string) (i : N) (req : request) (d : database) :
  initialised d →
  table ∈ allowed_tables →
  id_absent d table i →
  Z.of_N i ≤ int64_max →
  serve e (R_delete table i) req d
  = {| resp := jsonify success 200;
       db_after := d;
       effects := [Connect; Execute (DeleteWhereId table (PInt (Z.of_N i)));
                   Commit; Close] |}.
Proof.
  intros Hd Hin Habs Hi.
  destruct (initialised_allowed_table d table Hd Hin) as [t Ht].
  unfold serve, dispatch, api_delete_item.
  rewrite (bool_decide_eq_true_2 _ Hin). run_monad.
  by rewrite (exec_delete_absent d table i t Ht Habs Hi).
Qed.

(** ** Preferences *)

Lemma conflicts_preference (key value : string) (r : row) :
  conflicts preference_columns
    (zip ["preference_key"; "preference_value"]
         (text_affinity <$> [SText key; SText value])) r
  = has_key key r.
Proof.
  unfold conflicts, has_key. simpl.
  by destruct (bool_decide (field "preference_key" r = Some (SText key))).
Qed.

Lemma exec_upsert (key : string) (value : pyval) (now : Z) (d : database)
  (t : table) :
  d !! "user_preferences" = Some t →
  columns t = preference_columns →
  exec_insert true "user_preferences" ["preference_key"; "preference_value"]
    [PStr key; PStr (py_str value)] now d
  = Return (<["user_preferences" := upserted key (py_str value) now t]> d).
Proof.
  intros Ht Hc. unfold exec_insert.
  rewrite Ht, Hc. simpl bind_params. cbv iota beta.
  change (check_columns _ _ _) with (@None exn). cbv iota beta.
  simpl orb. cbv iota. unfold upserted, preference_row. rewrite Hc.
  do 3 f_equal.
  - f_equal. apply List.filter_ext. intros r. f_equal.
    apply conflicts_preference.
Qed.

Lemma filter_negb_disjoint {A} (f : A → bool) (l : list A) :
  List.filter f (List.filter (λ x, negb (f x)) l) = [].
Proof.
  induction l as [|x l IH]; simpl; [done|].
  destruct (f x) eqn:Hx; simpl; [done|]. by rewrite Hx.
Qed.

Lemma filter_filter_implied {A} (f g : A → bool) (l : list A) :
  (∀ x, f x = true → g x = true) →
  List.filter f (List.filter g l) = List.filter f l.
Proof.
  intros Hfg. induction l as [|x l IH]; simpl; [done|].
  destruct (g x) eqn:Hg; simpl.
  - by rewrite IH.
  - destruct (f x) eqn:Hf; [|done]. apply Hfg in Hf. congruence.
Qed.

Lemma has_key_preference_row (i : Z) (key key' value : string) (t : Z) :
  has_key key (preference_row i key' value t) = bool_decide (key' = key).
Proof.
  unfold has_key, field. simpl.
  destruct (decide (key' = key)) as [->|Hne].
  - by rewrite !bool_decide_eq_true_2.
  - rewrite !bool_decide_eq_false_2; [done|done|]. intros [=]. congruence.
Qed.

Lemma has_key_functional (key key' : string) (r : row) :
  key' ≠ key → has_key key r = true → negb (has_key key' r) = true.
Proof.
  unfold has_key. intros Hne H%bool_decide_eq_true_1.
  apply negb_true_iff, bool_decide_eq_false_2. rewrite H. intros [=]. congruence.
Qed.

(** An upsert of [key] leaves one row for [key], the new one. *)
Lemma upserted_rows_of_key (key value : string) (now : Z) (t : table) :
  List.filter (has_key key) (rows (upserted key value now t))
  = [preference_row (seq t + 1) key value now].
Proof.
  unfold upserted. simpl. rewrite List.filter_app, filter_negb_disjoint.
  simpl. rewrite has_key_preference_row. by rewrite bool_decide_eq_true_2.
Qed.

(** An upsert of another key leaves the rows of [key] as they are. *)
Lemma upserted_rows_of_other (key key' value : string) (now : Z) (t : table) :
  key' ≠ key →
  List.filter (has_key key) (rows (upserted key' value now t))
  = List.filter (has_key key) (rows t).
Proof.
  intros Hne. unfold upserted. simpl. rewrite List.filter_app. simpl.
  rewrite has_key_preference_row, (bool_decide_eq_false_2 _ Hne), app_nil_r.
  apply filter_filter_implied. intros r. by apply has_key_functional.
Qed.

Lemma upserted_all_columns (now : Z) (items : dict) (t : table) :
  columns (upserted_all now items t) = columns t.
Proof.
  revert t. induction items as [|[k v] items IH]; intros t; [done|].
  simpl. by rewrite IH.
Qed.

Lemma upserted_all_rows_of_other (key : string) (now : Z) (items : dict)
  (t : table) :
  key ∉ items.*1 →
  List.filter (has_key key) (rows (upserted_all now items t))
  = List.filter (has_key key) (rows t).
Proof.
  revert t. induction items as [|[k v] items IH]; intros t Hk; [done|].
  simpl in *. apply not_elem_of_cons in Hk as [Hne Hk].
  rewrite IH by done. by apply upserted_rows_of_other.
Qed.

(** The upserts of a body in which [key] occurs once leave one row for
    [key], holding the text of the value the body gives it. *)
Lemma upserted_all_rows_of_key (key : string) (v : pyval) (now : Z)
  (items : dict) (t : table) :
  NoDup items.*1 →
  dict_get key items = Some v →
  ∃ i, List.filter (has_key key) (rows (upserted_all now items t))
       = [preference_row i key (py_str v) now].
Proof.
  revert t. induction items as [|[k x] items IH]; intros t Hnd Hget.
  - discriminate.
  - apply NoDup_cons in Hnd as [Hk Hnd]. unfold dict_get in Hget.
    fold dict_get in Hget. simpl.
    destruct (decide (k = key)) as [->|Hne].
    + injection Hget as ->. exists (seq t + 1).
      rewrite upserted_all_rows_of_other by done.
      apply upserted_rows_of_key.
    + by apply IH.
Qed.

(** With the table in place no statement of the loop fails: it executes
    one upsert per item, in order. *)
Lemma upsert_all_runs (e : env) (items : dict) (w : world) (d : database)
  (t : table) :
  conn w = Some d →
  d !! "user_preferences" = Some t →
  columns t = preference_columns →
  upsert_all e items w
  = (Return (),
     {| store := store w;
        conn := Some (<["user_preferences" := upserted_all (now e) items t]> d);
        trace := trace w ++ (upsert_event <$> items) |}).
Proof.
  revert w d t. induction items as [|[key value] items IH]; intros w d t Hw Ht Hc.
  - simpl. rewrite app_nil_r, insert_id by done. unfold mret, M_ret.
    destruct w; simpl in *. by subst.
  - simpl upsert_all. unfold mbind, M_bind, execute. rewrite Hw. simpl.
    rewrite (exec_upsert key value (now e) d t Ht Hc).
    erewrite IH; [|reflexivity|apply lookup_insert_eq|done].
    simpl. by rewrite insert_insert_eq, <- app_assoc.
Qed.

(** A POST to /api/preferences with a non-empty body. *)
Lemma post_preferences (e : env) (req : request) (d : database)
  (data : dict) (t : table) :
  json req = Some data →
  data ≠ [] →
  d !! "user_preferences" = Some t →
  columns t = preference_columns →
  serve e (R_preferences POST) req d
  = {| resp := jsonify success 200;
       db_after := <["user_preferences" := upserted_all (now e) data t]> d;
       effects := Connect :: (upsert_event <$> data) ++ [Commit; Close] |}.
Proof.
  intros Hj Hne Ht Hc. apply json_object in Hj.
  unfold serve, dispatch, api_preferences, get_json.
  rewrite Hj. destruct data as [|kv data]; [done|].
  cbv beta iota delta [mbind M_bind mret M_ret truthy negb py_items dict_method].
  remember (kv :: data) as items eqn:Hi. clear Hi Hne Hj. run_monad.
  match goal with |- context [upsert_all e items ?w1] =>
    rewrite (upsert_all_runs e items w1 d t eq_refl Ht Hc) end.
  simpl. by rewrite <- app_assoc.
Qed.

(** C4: for every preference key, an upsert of the key with one value
    followed by an upsert of the same key with a second value leaves exactly
    one stored row for that key, and that row holds the second value (as its
    text): insert-or-replace, last write wins.  The two upserts arrive in
    two POSTs to /api/preferences, whose bodies may set other keys too. *)
Theorem preference_last_write_wins
  (e1 e2 : env) (req1 req2 : request) (d : database) (data1 data2 : dict)
  (key : string) (v1 v2 : pyval) :
  initialised d →
  json req1 = Some data1 → dict_get key data1 = Some v1 →
  json req2 = Some data2 → dict_get key data2 = Some v2 →
  NoDup data2.*1 →
  let r1 := serve e1 (R_preferences POST) req1 d in
  let r2 := serve e2 (R_preferences POST) req2 (db_after r1) in
  resp r1 = jsonify success 200 ∧
  resp r2 = jsonify success 200 ∧
  ∃ r, preference_rows key (db_after r2) = [r] ∧
       field "preference_key" r = Some (SText key) ∧
       field "preference_value" r = Some (SText (py_str v2)).
Proof.
  intros Hd Hj1 Hk1 Hj2 Hk2 Hnd.
  destruct (initialised_lookup d "user_preferences" preference_columns Hd)
    as (t & Ht & Hc).
  { unfold schema. eauto 6 using list_elem_of_here, list_elem_of_further. }
  assert (data1 ≠ []) as Hne1 by (by intros ->).
  assert (data2 ≠ []) as Hne2 by (by intros ->).
  simpl. rewrite (post_preferences e1 req1 d data1 t Hj1 Hne1 Ht Hc). simpl.
  set (t1 := upserted_all (now e1) data1 t).
  rewrite (post_preferences e2 req2 _ data2 t1 Hj2 Hne2
             (lookup_insert_eq _ _ _)); [|by unfold t1; rewrite upserted_all_columns].
  simpl. split; [done|]. split; [done|].
  destruct (upserted_all_rows_of_key key v2 (now e2) data2 t1 Hnd Hk2)
    as [i Hi].
  exists (preference_row i key (py_str v2) (now e2)).
  unfold preference_rows. rewrite lookup_insert_eq. by rewrite Hi.
Qed.

(** ** Saving and listing transcriptions *)

Lemma existsb_never {A} (f : A → bool) (l : list A) :
  (∀ x, f x = false) → existsb f l = false.
Proof. intros H. induction l as [|x l IH]; simpl; [done|]. by rewrite H, IH. Qed.

Lemma exec_insert_transcription (value source : pyval) (text : string)
  (v : sqlval) (now : Z) (d : database) (t : table) :
  d !! "transcriptions" = Some t →
  columns t = transcription_columns →
  column_text value = Some text →
  bind_param source = Return v →
  exec_insert false "transcriptions" ["text"; "source"] [value; source] now d
  = Return (<["transcriptions" :=
       appended (transcription_row (seq t + 1) text (text_affinity v) now) t]> d).
Proof.
  intros Ht Hc Hx Hv. unfold column_text in Hx.
  destruct (bind_param value) as [sv|] eqn:Hb; [|done].
  destruct (text_affinity sv) as [| |s0] eqn:Ha; try done.
  injection Hx as ->.
  unfold exec_insert. rewrite Ht, Hc.
  simpl bind_params. rewrite Hb, Hv. cbv iota beta.
  cbn [fmap list_fmap]. rewrite Ha.
  change (check_columns _ _ _) with (@None exn). cbv iota beta.
  assert (∀ r, conflicts transcription_columns
                 (zip ["text"; "source"] [SText text; text_affinity v]) r
               = false) as Hno by done.
  rewrite (existsb_never _ _ Hno). simpl.
  rewrite filter_keeps_all.
  - unfold appended, transcription_row. by rewrite Hc.
  - by apply Forall_forall.
Qed.

(** A body that carries the key "text" with a value the column can keep is
    stored, whatever the value. *)
Lemma save_transcription_stores (e : env) (req : request) (d : database)
  (data : dict) (value : pyval) (text : string) (v : sqlval) (t : table) :
  json req = Some data →
  dict_get "text" data = Some value →
  column_text value = Some text →
  bind_param (dict_get_default "source" (PStr "speech") data) = Return v →
  d !! "transcriptions" = Some t →
  columns t = transcription_columns →
  serve e R_save_transcription req d
  = {| resp := jsonify success 200;
       db_after :=
         <["transcriptions" :=
             appended (transcription_row (seq t + 1) text (text_affinity v)
                         (now e)) t]> d;
       effects :=
         [Connect;
          Execute (Insert false "transcriptions" ["text"; "source"]
                     [value; dict_get_default "source" (PStr "speech") data]);
          Commit; Close] |}.
Proof.
  intros Hj Hx Hs Hv Ht Hc. apply json_object in Hj.
  unfold serve, dispatch, api_save_transcription, get_json.
  rewrite Hj. destruct data as [|kv data]; [discriminate|].
  run_monad. unfold dict_has. rewrite Hx. simpl.
  by rewrite (exec_insert_transcription value _ text v (now e) d t Ht Hc Hs Hv).
Qed.

(** ** Required fields *)

(** The claim C8 as stated does not hold: the handlers test that the key is
    there, not that its value is non-empty.  A body with an empty "text" is
    stored by save-transcription and sent to the model by simplify-text, and
    both answer 200.  Nor is every body without the field a client error:
    the test [not data or 'text' not in data] raises on the body [5], which
    is no container, and Flask answers 500. *)
Lemma empty_text_is_processed :
  ¬ rejects_empty_text R_save_transcription ∧
  ¬ rejects_empty_text R_simplify_text ∧
  ¬ rejects_missing_text R_save_transcription.
Proof.
  pose (req := json_request [("text", PStr "")]).
  pose (e := {| gemini_model := Some (λ _, Return "ok");
                secure_filename := λ s, s; now := 0 |}).
  split; [|split].
  - intros H. destruct (H e req (init_db ∅) eq_refl) as [H400 _].
    vm_compute in H400. by apply H400.
  - intros H. destruct (H e req (init_db ∅) eq_refl) as [H400 _].
    vm_compute in H400. by apply H400.
  - intros H.
    destruct (H e (json_document (Scalar (PInt 5))) (init_db ∅)
                (Scalar (PInt 5)) eq_refl) as [_ H500]; [done|].
    vm_compute in H500. discriminate.
Qed.

(** C8, amended: every handler answers 400 when its input is missing: a
    JSON body that is null or otherwise empty (false, zero, the empty
    string, array or object), a JSON object without the required key
    ("text" for save-transcription and simplify-text, "content" for
    save-text), a request without the file part or with an empty file
    name; a request whose body [get_json()] refuses is answered with the
    code of that refusal.  Presence is all that is checked: a required key
    whose value is a string, the empty string included, is processed and
    answered 200. *)
Theorem required_fields_presence_only
  (e : env) (req : request) (d : database) :
  (∀ data, json_body req = Parsed data → truthy data = false →
   status_of e R_save_transcription req d = 400 ∧
   status_of e R_save_text req d = 400 ∧
   status_of e R_conversation req d = 400 ∧
   status_of e R_simplify_text req d = 400 ∧
   status_of e (R_preferences POST) req d = 400) ∧
  (∀ fields, json_body req = Parsed (Object fields) →
     (dict_has "text" fields = false →
      status_of e R_save_transcription req d = 400 ∧
      status_of e R_simplify_text req d = 400) ∧
     (dict_has "content" fields = false →
      status_of e R_save_text req d = 400)) ∧
  (∀ error text, json_body req = Aborted error text →
   status_of e R_save_transcription req d = http_code error ∧
   status_of e R_save_text req d = http_code error ∧
   status_of e R_conversation req d = http_code error ∧
   status_of e R_simplify_text req d
   = (if gemini_available e then http_code error else 400) ∧
   status_of e (R_preferences POST) req d = http_code error) ∧
  (files req !! "image" = None → status_of e R_describe_image req d = 400) ∧
  (files req !! "document" = None →
   status_of e R_extract_document req d = 400) ∧
  (∀ file, filename file = "" →
     (files req !! "image" = Some file →
      status_of e R_describe_image req d = 400) ∧
     (files req !! "document" = Some file →
      status_of e R_extract_document req d = 400)) ∧
  (∀ data text v t,
     json req = Some data →
     dict_get "text" data = Some (PStr text) →
     bind_param (dict_get_default "source" (PStr "speech") data) = Return v →
     d !! "transcriptions" = Some t →
     columns t = transcription_columns →
     resp (serve e R_save_transcription req d) = jsonify success 200 ∧
     db_after (serve e R_save_transcription req d) !! "transcriptions"
     = Some (appended (transcription_row (seq t + 1) text (text_affinity v)
                         (now e)) t)) ∧
  (∀ data text g out,
     json req = Some data →
     dict_get "text" data = Some (PStr text) →
     gemini_model e = Some g →
     g [Prompt (simplify_prompt text)] = Return out →
     resp (serve e R_simplify_text req d)
     = jsonify [("success", JBool true); ("simplified", JStr out)] 200 ∧
     generated (effects (serve e R_simplify_text req d))
     = [[Prompt (simplify_prompt text)]]).
Proof.
  unfold status_of, serve, dispatch.
  split; [|split; [|split; [|split; [|split; [|split; [|split]]]]]].
  - intros data Hb Hn. unfold api_save_transcription, api_save_text,
      api_conversation, api_simplify_text, api_preferences, get_json.
    rewrite Hb. run_monad. rewrite Hn.
    by destruct (gemini_available e).
  - intros fields Hb. unfold api_save_transcription, api_save_text,
      api_simplify_text, get_json. rewrite Hb.
    split; intros Hk; run_monad; rewrite Hk;
      destruct (gemini_available e); by destruct fields.
  - intros error text Hb. unfold api_save_transcription, api_save_text,
      api_conversation, api_simplify_text, api_preferences, get_json.
    rewrite Hb. run_monad. by destruct (gemini_available e).
  - intros Hf. unfold api_describe_image. rewrite Hf.
    by destruct (gemini_available e).
  - intros Hf. unfold api_extract_document. by rewrite Hf.
  - intros file Hn. unfold api_describe_image, api_extract_document.
    split; intros ->; rewrite decide_True by done;
      by destruct (gemini_available e).
  - intros data text v t Hj Hx Hv Ht Hc.
    pose proof (save_transcription_stores e req d data (PStr text) text v t
                  Hj Hx eq_refl Hv Ht Hc) as Hs.
    unfold serve, dispatch in Hs. rewrite Hs. simpl.
    by rewrite lookup_insert_eq.
  - intros data text g out Hj Hx Hg Hout. apply json_object in Hj.
    unfold api_simplify_text, get_json.
    unfold gemini_available. rewrite Hg, Hj. simpl.
    destruct data as [|kv data]; [discriminate|].
    run_monad. unfold dict_has. rewrite Hx. simpl. rewrite Hg. simpl.
    by rewrite Hout.
Qed.

(** ** Newest first *)

(** The claim C9 as stated does not hold.  A body whose "text" is null has
    the field, but the column is [NOT NULL] and nothing is stored.  And
    [created_at] has a resolution of one second while the query orders by
    it alone: of two transcriptions saved within the same second, the one
    saved last is not listed first. *)
Lemma null_text_and_same_second_rows :
  ¬ saved_with_default_source ∧ ¬ saved_row_listed_first.
Proof.
  pose (e := {| gemini_model := None; secure_filename := λ s, s; now := 100 |}).
  split.
  - intros H.
    destruct (H e (json_request [("text", PNone)]) (init_db ∅)
                [("text", PNone)] PNone (empty_table transcription_columns)
                eq_refl eq_refl eq_refl)
      as (r & t' & Ht' & Hrows & _).
    + vm_compute. reflexivity.
    + reflexivity.
    + vm_compute in Ht'. injection Ht' as <-. simpl in Hrows. discriminate.
  - intros H.
    pose (body text := json_request [("text", PStr text)]).
    pose (d := db_after (serve e R_save_transcription (body "earlier")
                           (init_db ∅))).
    destruct (H e e (body "hello") (body "") d "hello") as (r & Hr & Ht & _).
    + refine (bool_decide_unpack _ _). vm_compute. exact I.
    + intros tb Htb. vm_compute in Htb. injection Htb as <-.
      repeat constructor. by vm_compute.
    + done.
    + done.
    + vm_compute in Hr. injection Hr as <-. vm_compute in Ht. discriminate.
Qed.

Lemma order_newest_last (l : list row) (r : row) :
  Forall (λ x, stamp x < stamp r) l →
  order_by_created_at_desc (l ++ [r]) = r :: order_by_created_at_desc l.
Proof.
  induction 1 as [|x l Hx _ IH]; simpl; [done|].
  rewrite IH. simpl. by rewrite (proj2 (Z.ltb_lt _ _) Hx).
Qed.

(** C9, amended: saving a transcription whose body is an object with a
    "text" the column can keep (a string, a boolean or an integer within 64
    bits) and no "source" stores a row whose source is "speech", and the
    listing of recent transcriptions shows that row first whenever every
    other stored transcription has a strictly earlier [created_at]. *)
Theorem saved_transcription_defaults_and_order
  (e e' : env) (req req' : request) (d : database) (data : dict)
  (value : pyval) (text : string) :
  initialised d →
  written_before (now e) d →
  json req = Some data →
  dict_get "text" data = Some value →
  column_text value = Some text →
  dict_get "source" data = None →
  let r1 := serve e R_save_transcription req d in
  let r2 := serve e' R_saved_content req' (db_after r1) in
  resp r1 = jsonify success 200 ∧
  ∃ t new,
    d !! "transcriptions" = Some t ∧
    new = transcription_row (seq t + 1) text (SText "speech") (now e) ∧
    db_after r1 = <["transcriptions" := appended new t]> d ∧
    head (listed "transcriptions" (resp r2)) = Some new.
Proof.
  intros Hd Hold Hj Hx Hv Hs.
  destruct (initialised_lookup d "transcriptions" transcription_columns Hd)
    as (t & Ht & Hc).
  { unfold schema. eauto 6 using list_elem_of_here, list_elem_of_further. }
  destruct (initialised_lookup d "image_descriptions" _ Hd
              (list_elem_of_here _ _)) as (ti & Hti & _).
  destruct (initialised_lookup d "saved_texts"
              [col "title" false false; col "content" true false;
               col "category" false false] Hd) as (ts & Hts & _).
  { unfold schema. eauto 6 using list_elem_of_here, list_elem_of_further. }
  simpl.
  rewrite (save_transcription_stores e req d data value text (SText "speech") t
             Hj Hx Hv); [|by unfold dict_get_default; rewrite Hs|done|done].
  simpl. split; [done|].
  exists t, (transcription_row (seq t + 1) text (SText "speech") (now e)).
  do 3 (split; [done|]).
  unfold serve, dispatch, saved_content. run_monad.
  unfold exec_select_recent.
  rewrite lookup_insert_ne, Hti by done. simpl.
  rewrite lookup_insert_eq. simpl.
  rewrite lookup_insert_ne, Hts by done. simpl.
  unfold listed. simpl.
  rewrite order_newest_last; [done|]. exact (Hold t Ht).
Qed.

(** ** Effects per request *)

Lemma ai_calls_app (l1 l2 : list event) :
  ai_calls (l1 ++ l2) = (ai_calls l1 + ai_calls l2)%nat.
Proof. unfold ai_calls. by rewrite List.filter_app, length_app. Qed.

Lemma writes_app (l1 l2 : list event) :
  writes (l1 ++ l2) = (writes l1 + writes l2)%nat.
Proof. unfold writes. by rewrite List.filter_app, length_app. Qed.

Lemma commits_app (l1 l2 : list event) :
  commits (l1 ++ l2) = (commits l1 + commits l2)%nat.
Proof. unfold commits. by rewrite List.filter_app, length_app. Qed.

(** The loop of [api_preferences] only executes statements, at most one per
    item of the body, and stops at the first that fails. *)
Lemma upsert_all_effects (e : env) (items : dict) (w : world) :
  ∃ tr, trace (upsert_all e items w).2 = trace w ++ tr ∧
        ai_calls tr = 0%nat ∧ commits tr = 0%nat ∧
        (writes tr ≤ length items)%nat.
Proof.
  revert w. induction items as [|[key value] items IH]; intros w.
  - exists []. simpl. by rewrite app_nil_r.
  - simpl upsert_all. unfold mbind, M_bind, execute.
    destruct (conn w) as [d|]; simpl.
    + destruct (exec_insert _ _ _ _ _ _) as [d'|x]; simpl.
      * match goal with |- context [upsert_all e items ?w1] =>
          destruct (IH w1) as (tr & Htr & Hg & Hc & Hw) end.
        exists (Execute (upsert_preference key value) :: tr).
        rewrite Htr. simpl. rewrite <- app_assoc. simpl.
        repeat split; [done|done|].
        change (writes (?x :: tr)) with (S (writes tr)). lia.
      * exists [Execute (upsert_preference key value)].
        repeat split; try done. cbn. lia.
    + exists [Execute (upsert_preference key value)].
      repeat split; try done. cbn. lia.
Qed.

(** The claim C7 as stated does not hold: a POST to /api/preferences
    executes one [INSERT OR REPLACE] per key of the body. *)
Lemma preferences_post_writes_per_key : ¬ one_call_one_write.
Proof.
  intros H.
  destruct (H {| gemini_model := None; secure_filename := λ s, s; now := 0 |}
              (R_preferences POST)
              {| files := ∅; form := ∅;
                 json_body := Parsed (Object [("theme", PStr "dark"); ("font", PStr "large")]) |}
              (init_db ∅)) as [_ Hw].
  vm_compute in Hw. lia.
Qed.

Lemma single_effects (e : env) (r : route) (req : request) (d : database) :
  r ≠ R_preferences POST →
  (ai_calls (effects (serve e r req d)) ≤ 1)%nat ∧
  (writes (effects (serve e r req d)) ≤ 1)%nat ∧
  (commits (effects (serve e r req d)) ≤ 1)%nat.
Proof.
  intros Hr. unfold serve, dispatch.
  destruct r as [| | | | | | | | | | | | |[]|tbl i]; try done.
  - cbn. lia.
  - cbn. lia.
  - cbn. lia.
  - cbn. lia.
  - cbn. lia.
  - cbn. lia.
  - unfold saved_content. run_monad. split_cases; cbn; lia.
  - unfold api_describe_image. run_monad. split_cases; cbn; lia.
  - unfold api_save_transcription. run_monad. split_cases; cbn; lia.
  - unfold api_save_text. run_monad. split_cases; cbn; lia.
  - unfold api_extract_document. run_monad. split_cases; cbn; lia.
  - unfold api_conversation. run_monad. split_cases; cbn; lia.
  - unfold api_simplify_text. run_monad. split_cases; cbn; lia.
  - unfold api_preferences. run_monad. split_cases; cbn; lia.
  - unfold api_delete_item. run_monad. split_cases; cbn; lia.
Qed.

Lemma preferences_post_effects (e : env) (req : request) (d : database) :
  let tr := effects (serve e (R_preferences POST) req d) in
  ai_calls tr = 0%nat ∧ (commits tr ≤ 1)%nat ∧
  (writes tr ≤ length (default [] (json req)))%nat.
Proof.
  unfold serve, dispatch, api_preferences.
  body_cases req; try (run_monad; split_cases; cbn; lia).
  cbv beta iota delta [mbind M_bind mret M_ret truthy negb py_items dict_method].
  simpl default. remember (kv :: data) as items eqn:Hitems.
  destruct items as [|kv' items']; [discriminate|].
  remember (kv' :: items') as items eqn:Hi. clear Hi Hitems. run_monad.
  match goal with |- context [upsert_all e items ?w1] =>
    destruct (upsert_all_effects e items w1) as (tr & Htr & Hg & Hc & Hw);
    destruct (upsert_all e items w1) as [[[]|x] w2] end;
    simpl in Htr.
  - split_cases; rewrite Htr; unfold ai_calls, commits, writes in *; simpl;
      rewrite ?List.filter_app, ?length_app; simpl; lia.
  - simpl. rewrite Htr. unfold ai_calls, commits, writes in *. simpl. lia.
Qed.

Lemma preferences_post_writes (e : env) (req : request) (d : database) :
  initialised d →
  writes (effects (serve e (R_preferences POST) req d))
  = length (default [] (json req)).
Proof.
  intros Hd.
  destruct (initialised_lookup d "user_preferences" preference_columns Hd)
    as (t & Ht & Hc).
  { unfold schema. eauto 6 using list_elem_of_here, list_elem_of_further. }
  unfold serve, dispatch, api_preferences.
  body_cases req; try (run_monad; split_cases; done).
  cbv beta iota delta [mbind M_bind mret M_ret truthy negb py_items dict_method].
  simpl default. remember (kv :: data) as items eqn:Hitems.
  destruct items as [|kv' items']; [discriminate|].
  remember (kv' :: items') as items eqn:Hi. clear Hi Hitems. run_monad.
  match goal with |- context [upsert_all e items ?w1] =>
    rewrite (upsert_all_runs e items w1 d t eq_refl Ht Hc) end.
  simpl. change (writes (Connect :: ?l)) with (writes l).
  rewrite !writes_app. cbn. rewrite !Nat.add_0_r.
  unfold writes. clear.
  induction items as [|[k v] l IH]; simpl; [done|]. f_equal. exact IH.
Qed.

(** C7, amended: every request calls the model at most once and commits at
    most once.  Every request other than a POST to /api/preferences executes
    at most one write statement; a POST to /api/preferences executes at most
    one upsert per key of its body (exactly one per key once the tables
    exist), all of them under a single commit. *)
Theorem effects_per_request
  (e : env) (r : route) (req : request) (d : database) :
  let tr := effects (serve e r req d) in
  (ai_calls tr ≤ 1)%nat ∧
  (commits tr ≤ 1)%nat ∧
  (r ≠ R_preferences POST → (writes tr ≤ 1)%nat) ∧
  (r = R_preferences POST →
   (writes tr ≤ length (default [] (json req)))%nat ∧
   (initialised d → writes tr = length (default [] (json req)))).
Proof.
  simpl. destruct (decide (r = R_preferences POST)) as [->|Hr].
  - pose proof (preferences_post_effects e req d) as (Hg & Hc & Hw).
    simpl in Hg, Hc, Hw.
    split; [lia|]. split; [done|]. split; [done|]. intros _.
    split; [done|]. apply preferences_post_writes.
  - pose proof (single_effects e r req d Hr) as (Hg & Hw & Hc).
    split; [done|]. split; [done|]. split; [done|]. intros E. by destruct Hr.
Qed.

(** ** The properties at concrete requests *)

Lemma initialised_fresh : initialised (init_db ∅).
Proof. refine (bool_decide_unpack _ _). vm_compute. exact I. Defined.

Lemma initialised_one_transcription : initialised one_transcription.
Proof. refine (bool_decide_unpack _ _). vm_compute. exact I. Defined.

(** C1 on the mode "verbose" and on an upload sent with that mode. *)
Lemma describe_image_prompt_by_mode_witness :
  ("verbose" ∉ modes) ∧
  describe_prompt "verbose" = describe_prompt "deafblind" ∧
  generated (effects (serve (live 1000) R_describe_image
                        (upload_request "image" (named "bike.jpg" [x01]%byte)
                                        {[ "mode" := "verbose" ]})
                        (init_db ∅)))
  = [[Prompt (describe_prompt "verbose"); Blob "image/jpeg" [x01]%byte]].
Proof.
  assert (Hm : "verbose" ∉ modes).
  { refine (bool_decide_unpack _ _). vm_compute. exact I. }
  destruct describe_image_prompt_by_mode as (_ & _ & _ & Hfall & Hsent).
  split; [exact Hm|]. split; [exact (Hfall "verbose" Hm)|].
  apply (Hsent (live 1000) _ (init_db ∅) (named "bike.jpg" [x01]%byte) "verbose").
  - reflexivity.
  - vm_compute. reflexivity.
  - discriminate.
  - vm_compute. reflexivity.
  - vm_compute. reflexivity.
Defined.

(** C2 on an executable sent to both upload handlers and on a document
    without a name. *)
Lemma upload_validation_witness :
  let exe := named "virus.exe" [x4d; x5a]%byte in
  let anon := named "" [] in
  (allowed_file (filename exe) = false ∧
   status (resp (serve (live 0) R_describe_image
                   (upload_request "image" exe ∅) (init_db ∅))) = 400 ∧
   effects (serve (live 0) R_describe_image
              (upload_request "image" exe ∅) (init_db ∅)) = []) ∧
  (filename exe ≠ "" ∧
   allowed_file (Werkzeug.secure_filename (filename exe)) = false ∧
   status (resp (serve (live 0) R_extract_document
                   (upload_request "document" exe ∅) (init_db ∅))) = 400 ∧
   effects (serve (live 0) R_extract_document
              (upload_request "document" exe ∅) (init_db ∅))
   = [ReadUpload "document"]) ∧
  (filename anon = "" ∧
   status (resp (serve (live 0) R_extract_document
                   (upload_request "document" anon ∅) (init_db ∅))) = 400).
Proof.
  intros exe anon.
  assert (Ha : allowed_file (filename exe) = false) by (vm_compute; reflexivity).
  assert (Hn : filename exe ≠ "") by discriminate.
  assert (Hs : allowed_file (Werkzeug.secure_filename (filename exe)) = false)
    by (vm_compute; reflexivity).
  split; [|split].
  - destruct (upload_validation (live 0) (upload_request "image" exe ∅)
                (init_db ∅) exe) as (H1 & _ & _).
    destruct (H1 ltac:(vm_compute; reflexivity) Ha) as (Hst & _ & Heff).
    split; [exact Ha|]. split; [exact Hst|exact Heff].
  - destruct (upload_validation (live 0) (upload_request "document" exe ∅)
                (init_db ∅) exe) as (_ & _ & H3).
    destruct (H3 ltac:(vm_compute; reflexivity) Hn Hs) as (Hst & _ & Heff).
    split; [exact Hn|]. split; [exact Hs|]. split; [exact Hst|exact Heff].
  - destruct (upload_validation (live 0) (upload_request "document" anon ∅)
                (init_db ∅) anon) as (_ & H2 & _).
    destruct (H2 ltac:(vm_compute; reflexivity) eq_refl) as (Hst & _).
    split; [reflexivity|exact Hst].
Defined.

(** C3 on an upload named "notes.txt", answered directly, and on one named
    "_.txt", of which sanitising leaves no extension. *)
Lemma extract_txt_never_calls_model_witness :
  let file := named "notes.txt" [x68; x69]%byte in
  let req := upload_request "document" file ∅ in
  let bare := named "_.txt" [x68; x69]%byte in
  let req' := upload_request "document" bare ∅ in
  (filename file ≠ "" ∧
   document_ext (secure_filename (live 0) (filename file)) = "txt" ∧
   resp (serve (live 0) R_extract_document req (init_db ∅))
   = jsonify [("success", JBool true); ("text", JText [104; 105]%N);
              ("method", JStr "direct")] 200 ∧
   generated (effects (serve (live 0) R_extract_document req (init_db ∅))) = []) ∧
  (document_ext (filename bare) = "txt" ∧
   secure_filename (live 0) (filename bare) = "txt" ∧
   status (resp (serve (live 0) R_extract_document req' (init_db ∅))) = 400 ∧
   generated (effects (serve (live 0) R_extract_document req' (init_db ∅))) = []).
Proof.
  intros file req bare req'. split.
  - assert (Hf : files req !! "document" = Some file)
      by (vm_compute; reflexivity).
    assert (Hn : filename file ≠ "") by discriminate.
    assert (Hx : document_ext (secure_filename (live 0) (filename file)) = "txt")
      by (vm_compute; reflexivity).
    destruct (extract_txt_never_calls_model (live 0) req (init_db ∅) file Hf)
      as [Hdirect _].
    destruct (Hdirect Hn Hx) as (Hr & _ & Hg).
    split; [exact Hn|]. split; [exact Hx|]. split; [exact Hr|exact Hg].
  - assert (Hf : files req' !! "document" = Some bare)
      by (vm_compute; reflexivity).
    assert (Hraw : document_ext (filename bare) = "txt")
      by (vm_compute; reflexivity).
    destruct (extract_txt_never_calls_model (live 0) req' (init_db ∅) bare Hf)
      as [_ Hany].
    destruct (Hany eq_refl Hraw) as (_ & Hg & _).
    split; [exact Hraw|]. split; [vm_compute; reflexivity|].
    split; [vm_compute; reflexivity|exact Hg].
Defined.

(** C10 on bytes that are not valid UTF-8. *)
Lemma extract_txt_decoding_total_witness :
  let file := named "notes.txt" [xff; x68]%byte in
  let req := upload_request "document" file ∅ in
  files req !! "document" = Some file ∧
  filename file ≠ "" ∧
  document_ext (secure_filename (offline 0) (filename file)) = "txt" ∧
  ∃ text,
    (Codec.utf8 (Byte.to_N <$> content file) = None → text = [255; 104]%N) ∧
    resp (serve (offline 0) R_extract_document req (init_db ∅))
    = jsonify [("success", JBool true); ("text", JText text);
               ("method", JStr "direct")] 200.
Proof.
  intros file req.
  assert (Hf : files req !! "document" = Some file) by (vm_compute; reflexivity).
  assert (Hn : filename file ≠ "") by discriminate.
  assert (Hx : document_ext (secure_filename (offline 0) (filename file)) = "txt")
    by (vm_compute; reflexivity).
  destruct (extract_txt_decoding_total (offline 0) req (init_db ∅) file Hf Hn Hx)
    as (text & _ & _ & Hl & Hr).
  split; [exact Hf|]. split; [exact Hn|]. split; [exact Hx|].
  exists text. split; [|exact Hr].
  intros Hnone. exact (proj1 (Hl Hnone)).
Defined.

(** C4 on the key "theme", set to "dark" and then, along with a font, to
    "light". *)
Lemma preference_last_write_wins_witness :
  let data1 := [("theme", PStr "dark")] in
  let data2 := [("font", PStr "large"); ("theme", PStr "light")] in
  let r1 := serve (offline 10) (R_preferences POST) (json_request data1)
              (init_db ∅) in
  let r2 := serve (offline 20) (R_preferences POST) (json_request data2)
              (db_after r1) in
  initialised (init_db ∅) ∧
  dict_get "theme" data1 = Some (PStr "dark") ∧
  dict_get "theme" data2 = Some (PStr "light") ∧
  NoDup data2.*1 ∧
  ∃ r, preference_rows "theme" (db_after r2) = [r] ∧
       field "preference_value" r = Some (SText "light").
Proof.
  intros data1 data2 r1 r2.
  assert (Hnd : NoDup data2.*1).
  { refine (bool_decide_unpack _ _). vm_compute. exact I. }
  destruct (preference_last_write_wins (offline 10) (offline 20)
              (json_request data1) (json_request data2) (init_db ∅)
              data1 data2 "theme" (PStr "dark") (PStr "light")
              initialised_fresh eq_refl eq_refl eq_refl eq_refl Hnd)
    as (_ & _ & r & Hr & _ & Hv).
  split; [exact initialised_fresh|]. split; [reflexivity|].
  split; [reflexivity|]. split; [exact Hnd|].
  exists r. split; [exact Hr|exact Hv].
Defined.

(** C5 on an id that no stored transcription has. *)
Lemma delete_absent_id_succeeds_witness :
  initialised one_transcription ∧
  ("transcriptions" ∈ allowed_tables) ∧
  id_absent one_transcription "transcriptions" 7 ∧
  Z.of_N 7 ≤ int64_max ∧
  resp (serve (offline 0) (R_delete "transcriptions" 7) no_request
          one_transcription) = jsonify success 200 ∧
  db_after (serve (offline 0) (R_delete "transcriptions" 7) no_request
              one_transcription) = one_transcription.
Proof.
  assert (Hin : "transcriptions" ∈ allowed_tables).
  { refine (bool_decide_unpack _ _). vm_compute. exact I. }
  assert (Habs : id_absent one_transcription "transcriptions" 7).
  { intros t Ht. vm_compute in Ht. injection Ht as <-.
    constructor; [discriminate|constructor]. }
  assert (Hi : Z.of_N 7 ≤ int64_max) by (vm_compute; discriminate).
  pose proof (delete_absent_id_succeeds (offline 0) "transcriptions" 7
                no_request one_transcription initialised_one_transcription
                Hin Habs Hi) as H.
  split; [exact initialised_one_transcription|]. split; [exact Hin|].
  split; [exact Habs|]. split; [exact Hi|].
  rewrite H. split; reflexivity.
Defined.

(** C6 on the table "users". *)
Lemma delete_disallowed_table_untouched_witness :
  ("users" ∉ allowed_tables) ∧
  serve (offline 0) (R_delete "users" 1) no_request one_transcription
  = {| resp := jsonify [("error", JStr "Invalid table")] 400;
       db_after := one_transcription; effects := [] |}.
Proof.
  assert (H : "users" ∉ allowed_tables).
  { refine (bool_decide_unpack _ _). vm_compute. exact I. }
  split; [exact H|].
  exact (delete_disallowed_table_untouched (offline 0) "users" 1 no_request
           one_transcription H).
Defined.

(** C7 on a full describe-image request and on a POST of two preferences. *)
Lemma effects_per_request_witness :
  let describe := upload_request "image" (named "bike.jpg" [x01]%byte) ∅ in
  let prefs := json_request [("theme", PStr "dark"); ("font", PStr "large")] in
  (R_describe_image ≠ R_preferences POST ∧
   (ai_calls (effects (serve (live 0) R_describe_image describe (init_db ∅)))
    ≤ 1)%nat ∧
   (writes (effects (serve (live 0) R_describe_image describe (init_db ∅)))
    ≤ 1)%nat) ∧
  (initialised (init_db ∅) ∧
   (commits (effects (serve (live 0) (R_preferences POST) prefs (init_db ∅)))
    ≤ 1)%nat ∧
   writes (effects (serve (live 0) (R_preferences POST) prefs (init_db ∅)))
   = 2%nat).
Proof.
  intros describe prefs. split.
  - assert (Hr : R_describe_image ≠ R_preferences POST) by discriminate.
    destruct (effects_per_request (live 0) R_describe_image describe (init_db ∅))
      as (Hg & _ & Hw & _).
    split; [exact Hr|]. split; [exact Hg|exact (Hw Hr)].
  - destruct (effects_per_request (live 0) (R_preferences POST) prefs (init_db ∅))
      as (_ & Hc & _ & Hp).
    destruct (Hp eq_refl) as [_ Hn].
    split; [exact initialised_fresh|]. split; [exact Hc|].
    exact (Hn initialised_fresh).
Defined.

(** C8 on a request without a body and on a body whose "text" is empty. *)
Lemma required_fields_presence_only_witness :
  let null := json_document (Scalar PNone) in
  let empty := json_request [("text", PStr "")] in
  (truthy (Scalar PNone) = false ∧
   status_of (offline 0) R_save_transcription null (init_db ∅) = 400 ∧
   status_of (offline 0) R_simplify_text null (init_db ∅) = 400) ∧
  (dict_get "text" [("text", PStr "")] = Some (PStr "") ∧
   resp (serve (live 5) R_save_transcription empty (init_db ∅))
   = jsonify success 200 ∧
   (rows <$> db_after (serve (live 5) R_save_transcription empty (init_db ∅))
              !! "transcriptions")
   = Some [transcription_row 1 "" (SText "speech") 5]) ∧
  (sample_model [Prompt (simplify_prompt "")] = Return "A red bicycle." ∧
   resp (serve (live 5) R_simplify_text empty (init_db ∅))
   = jsonify [("success", JBool true); ("simplified", JStr "A red bicycle.")]
             200).
Proof.
  intros null empty. split; [|split].
  - destruct (required_fields_presence_only (offline 0) null (init_db ∅))
      as (Hmissing & _).
    destruct (Hmissing (Scalar PNone) eq_refl eq_refl) as (H1 & _ & _ & H4 & _).
    split; [reflexivity|]. split; [exact H1|exact H4].
  - destruct (required_fields_presence_only (live 5) empty (init_db ∅))
      as (_ & _ & _ & _ & _ & _ & Hsave & _).
    destruct (Hsave [("text", PStr "")] "" (SText "speech")
                (empty_table transcription_columns) eq_refl eq_refl eq_refl
                ltac:(vm_compute; reflexivity) eq_refl) as (Hr & Hdb).
    split; [reflexivity|]. split; [exact Hr|]. rewrite Hdb. reflexivity.
  - destruct (required_fields_presence_only (live 5) empty (init_db ∅))
      as (_ & _ & _ & _ & _ & _ & _ & Hsimplify).
    destruct (Hsimplify [("text", PStr "")] "" sample_model "A red bicycle."
                eq_refl eq_refl eq_refl eq_refl) as (Hr & _).
    split; [reflexivity|exact Hr].
Defined.

(** C9 on a save made a hundred seconds after the only stored row. *)
Lemma saved_transcription_defaults_and_order_witness :
  let req := json_request [("text", PInt 42)] in
  let r1 := serve (offline 1000) R_save_transcription req one_transcription in
  let r2 := serve (offline 1000) R_saved_content no_request (db_after r1) in
  initialised one_transcription ∧
  written_before 1000 one_transcription ∧
  column_text (PInt 42) = Some "42" ∧
  dict_get "source" [("text", PInt 42)] = None ∧
  head (listed "transcriptions" (resp r2))
  = Some (transcription_row 2 "42" (SText "speech") 1000).
Proof.
  intros req r1 r2.
  assert (Hold : written_before 1000 one_transcription).
  { intros t Ht. vm_compute in Ht. injection Ht as <-.
    constructor; [reflexivity|constructor]. }
  assert (Hv : column_text (PInt 42) = Some "42") by (vm_compute; reflexivity).
  destruct (saved_transcription_defaults_and_order (offline 1000) (offline 1000)
              req no_request one_transcription [("text", PInt 42)] (PInt 42)
              "42" initialised_one_transcription Hold eq_refl eq_refl Hv
              eq_refl)
    as (_ & t & new & Ht & -> & _ & Hhead).
  split; [exact initialised_one_transcription|]. split; [exact Hold|].
  split; [exact Hv|]. split; [reflexivity|].
  vm_compute in Ht. injection Ht as <-. exact Hhead.
Defined.

(** * Further properties *)

(** ** Relations that hold across a handler *)

Section Steps.

Context (R : world → world → Prop) (r : route) (HR : sound R r).

Lemma steps_ret {A} (a : A) : steps R (mret a).
Proof. intros w. apply (sound_refl R r HR). Qed.

Lemma steps_raise {A} (x : exn) : steps R (@raise A x).
Proof. intros w. apply (sound_refl R r HR). Qed.

Lemma steps_bind {A B} (m : M A) (f : A → M B) :
  steps R m → (∀ a, steps R (f a)) → steps R (m ≫= f).
Proof.
  intros Hm Hf w. unfold mbind, M_bind.
  specialize (Hm w). destruct (m w) as [[a|x] w1]; simpl in *; [|done].
  eapply (sound_trans R r HR); [exact Hm|]. apply Hf.
Qed.

Lemma steps_try {A} (m : M A) (h : exn → M A) :
  steps R m → (∀ x, steps R (h x)) → steps R (try_except m h).
Proof.
  intros Hm Hh w. unfold try_except.
  specialize (Hm w). destruct (m w) as [[a|x] w1]; simpl in *; [done|].
  eapply (sound_trans R r HR); [exact Hm|]. apply Hh.
Qed.

Lemma steps_get_db : steps R get_db.
Proof. intros w. apply (sound_get_db R r HR). Qed.

Lemma steps_execute (e : env) (s : statement) :
  permitted r s → steps R (execute e s).
Proof. intros Hs w. by apply (sound_execute R r HR). Qed.

Lemma steps_commit : steps R commit.
Proof. intros w. apply (sound_commit R r HR). Qed.

Lemma steps_close : steps R close.
Proof. intros w. apply (sound_close R r HR). Qed.

Lemma steps_read (name : string) (file : upload) : steps R (read name file).
Proof.
  apply steps_bind; [|intros; apply steps_ret].
  intros w. apply (sound_read R r HR).
Qed.

Lemma steps_generate (e : env) (ps : list part) : steps R (generate_content e ps).
Proof. intros w. apply (sound_generate R r HR). Qed.

Lemma steps_decode (codec : string) (content : list byte) :
  steps R (decode codec content).
Proof.
  unfold decode. repeat case_match; apply steps_ret || apply steps_raise.
Qed.

Lemma steps_dict_item (k : string) (d : dict) : steps R (dict_item k d).
Proof. unfold dict_item. case_match; apply steps_ret || apply steps_raise. Qed.

Lemma steps_get_json (req : request) : steps R (get_json req).
Proof. unfold get_json. case_match; apply steps_ret || apply steps_raise. Qed.

Lemma steps_py_in (k : string) (data : document) : steps R (py_in k data).
Proof. unfold py_in. case_match; apply steps_ret || apply steps_raise. Qed.

Lemma steps_py_item (k : string) (data : document) : steps R (py_item k data).
Proof.
  unfold py_item.
  repeat case_match;
    apply steps_ret || apply steps_raise || apply steps_dict_item.
Qed.

Lemma steps_dict_method (attr : string) (data : document) :
  steps R (dict_method attr data).
Proof.
  unfold dict_method. repeat case_match; apply steps_ret || apply steps_raise.
Qed.

Lemma steps_py_get (k : string) (v : pyval) (data : document) :
  steps R (py_get k v data).
Proof.
  unfold py_get. apply steps_bind; [apply steps_dict_method|].
  intros fields. apply steps_ret.
Qed.

End Steps.

Ltac step_through HR :=
  repeat first
    [ apply (steps_ret _ _ HR)
    | apply (steps_raise _ _ HR)
    | apply (steps_get_db _ _ HR)
    | apply (steps_commit _ _ HR)
    | apply (steps_close _ _ HR)
    | apply (steps_read _ _ HR)
    | apply (steps_generate _ _ HR)
    | apply (steps_decode _ _ HR)
    | apply (steps_dict_item _ _ HR)
    | apply (steps_get_json _ _ HR)
    | apply (steps_py_in _ _ HR)
    | apply (steps_py_item _ _ HR)
    | apply (steps_py_get _ _ HR)
    | apply (steps_dict_method _ _ HR)
    | apply (steps_execute _ _ HR); constructor
    | apply (steps_bind _ _ HR); [|intros ?]
    | apply (steps_try _ _ HR); [|intros ?]
    | progress cbv zeta
    | match goal with
      | |- steps _ (if ?b then _ else _) => destruct b eqn:?
      | |- steps _ (match ?x with _ => _ end) => destruct x eqn:?
      end ].

Lemma steps_upsert_all (R : world → world → Prop) (e : env) (items : dict) :
  sound R (R_preferences POST) → steps R (upsert_all e items).
Proof.
  intros HR. induction items as [|[key value] items IH]; simpl.
  - apply (steps_ret _ _ HR).
  - apply (steps_bind _ _ HR); [|intros _; exact IH].
    apply (steps_execute _ _ HR). constructor.
Qed.

(** Whatever holds across the effects a route may perform holds across the
    whole handler of the route. *)
Lemma dispatch_steps (R : world → world → Prop) (r : route) (e : env)
  (req : request) :
  sound R r → steps R (dispatch e r req).
Proof.
  intros HR. destruct r as [| | | | | | | | | | | | |[]|tbl i]; simpl.
  - step_through HR.
  - step_through HR.
  - step_through HR.
  - step_through HR.
  - step_through HR.
  - step_through HR.
  - unfold saved_content. step_through HR; set_solver.
  - unfold api_describe_image. step_through HR.
  - unfold api_save_transcription. step_through HR.
  - unfold api_save_text. step_through HR.
  - unfold api_extract_document. step_through HR.
  - unfold api_conversation. step_through HR.
  - unfold api_simplify_text. step_through HR.
  - unfold api_preferences. step_through HR.
  - unfold api_preferences, py_items. step_through HR.
    apply steps_upsert_all, HR.
  - unfold api_delete_item.
    destruct (bool_decide (tbl ∈ allowed_tables)) eqn:Hin; simpl.
    + apply bool_decide_eq_true_1 in Hin. step_through HR. exact Hin.
    + step_through HR.
Qed.

Lemma preserves_sound (I : database → Prop) (r : route) :
  (∀ s, permitted r s → stable I s) → sound (preserves I) r.
Proof.
  intros Hst. split; unfold preserves, holds.
  - done.
  - auto.
  - intros w [Hs _]. simpl. split; [done|]. by intros d [= <-].
  - intros e s w Hp [Hs Hc]. unfold execute.
    destruct (conn w) as [d|] eqn:Hw; simpl; [|by split].
    destruct (exec s (now e) d) as [[d' rs]|x] eqn:He; simpl.
    + split; [done|]. intros ? [= <-].
      exact (Hst s Hp (now e) d d' rs He (Hc d eq_refl)).
    + split; [done|]. intros ? [= <-]. by apply Hc.
  - intros w [Hs Hc]. unfold commit.
    destruct (conn w) as [d|] eqn:Hw; simpl.
    + split; [by apply Hc|]. intros ? [= <-]. by apply Hc.
    + by split.
  - intros w [Hs _]. simpl. by split.
  - intros name w H. exact H.
  - intros e ps w H. unfold generate_content.
    by destruct (gemini_model e).
Qed.

(** A property of databases that the statements of a route keep is kept by
    every request to the route. *)
Lemma serve_preserves (I : database → Prop) (e : env) (r : route)
  (req : request) (d : database) :
  (∀ s, permitted r s → stable I s) →
  I d → I (db_after (serve e r req d)).
Proof.
  intros Hst Hd.
  pose proof (dispatch_steps (preserves I) r e req (preserves_sound I r Hst)
                {| store := d; conn := None; trace := [] |}) as H.
  unfold serve. unfold preserves, holds in H. simpl in H.
  assert (I d ∧ ∀ d0 : database, None = Some d0 → I d0) as H0 by (by split).
  apply H in H0 as [H0 _]. clear H.
  by destruct (dispatch e r req _) as [[rsp|x] w].
Qed.

Lemma emits_sound (P : event → Prop) (r : route) :
  P Connect → P Commit → P Close →
  (∀ name, P (ReadUpload name)) →
  (∀ ps, P (Generate ps)) →
  (∀ s, permitted r s → P (Execute s)) →
  sound (emits P) r.
Proof.
  intros Hconnect Hcommit Hclose Hread Hgen Hexec.
  assert (∀ w w' ev, trace w' = trace w ++ [ev] → P ev → emits P w w') as one.
  { intros w w' ev Ht Hev. exists [ev]. split; [done|]. by constructor. }
  split.
  - intros w. exists []. by rewrite app_nil_r.
  - intros w1 w2 w3 (t1 & H1 & P1) (t2 & H2 & P2). exists (t1 ++ t2).
    rewrite H2, H1, app_assoc. split; [done|]. by apply Forall_app.
  - intros w. by eapply one.
  - intros e s w Hp. eapply one; [|by apply Hexec].
    unfold execute. destruct (conn w); [|done].
    by destruct (exec s (now e) _) as [[d' rs]|x].
  - intros w. eapply one; [|exact Hcommit]. unfold commit.
    by destruct (conn w).
  - intros w. by eapply one.
  - intros name w. by eapply one.
  - intros e ps w. unfold generate_content. destruct (gemini_model e).
    + by eapply one.
    + exists []. by rewrite app_nil_r.
Qed.

(** What holds of every effect a route may perform holds of every effect a
    request to the route performs. *)
Lemma serve_emits (P : event → Prop) (e : env) (r : route) (req : request)
  (d : database) :
  P Connect → P Commit → P Close →
  (∀ name, P (ReadUpload name)) →
  (∀ ps, P (Generate ps)) →
  (∀ s, permitted r s → P (Execute s)) →
  Forall P (effects (serve e r req d)).
Proof.
  intros H1 H2 H3 H4 H5 H6.
  destruct (dispatch_steps (emits P) r e req (emits_sound P r H1 H2 H3 H4 H5 H6)
              {| store := d; conn := None; trace := [] |}) as (tr & Ht & HP).
  unfold serve. destruct (dispatch e r req _) as [[rsp|x] w]; simpl in *;
    by rewrite Ht.
Qed.

(** ** What a statement does to the database *)

Lemma exec_read_only (s : statement) (t : Z) (d d' : database) (rs : list row) :
  is_write s = false → exec s t d = Return (d', rs) → d' = d.
Proof.
  destruct s; simpl; try discriminate; intros _.
  - destruct (exec_select_recent _ _); by intros [= <- _].
  - destruct (exec_select_preferences _); by intros [= <- _].
Qed.

(** A write keeps some of the rows of its table and adds at most one row,
    numbered after the largest id the table has handed out; the columns stay
    and the other tables are not touched. *)
Lemma exec_write_shape (s : statement) (t : Z) (d d' : database)
  (rs : list row) :
  is_write s = true → exec s t d = Return (d', rs) →
  ∃ tb f extra,
    d !! table_of s = Some tb ∧
    d' = <[table_of s :=
            {| columns := columns tb;
               rows := List.filter f (rows tb) ++ extra;
               seq := seq tb + Z.of_nat (length extra) |}]> d ∧
    Forall (λ r, id r = seq tb + 1) extra ∧
    (length extra ≤ 1)%nat.
Proof.
  destruct s as [o tbl cols params|tbl param| |]; simpl; try discriminate;
    intros _.
  - unfold exec_insert. destruct (d !! tbl) as [tb|] eqn:Htb; [|discriminate].
    destruct (bind_params params) as [vals|]; [|discriminate].
    destruct (check_columns _ _ _); [discriminate|].
    destruct (o || negb _); [|discriminate]. intros [= <- _].
    eexists tb, _, [_]. split; [done|]. split; [reflexivity|].
    split; [by repeat constructor|done].
  - unfold exec_delete. destruct (d !! tbl) as [tb|] eqn:Htb; [|discriminate].
    destruct (bind_param param) as [v|]; [|discriminate]. intros [= <- _].
    eexists tb, _, []. split; [done|]. simpl.
    rewrite app_nil_r, Z.add_0_r. split; [reflexivity|]. split; [constructor|lia].
Qed.

Lemma exec_frame (s : statement) (t : Z) (d d' : database) (rs : list row)
  (name : string) :
  exec s t d = Return (d', rs) → name ≠ table_of s → d' !! name = d !! name.
Proof.
  intros He Hne. destruct (is_write s) eqn:Hw.
  - destruct (exec_write_shape s t d d' rs Hw He) as (tb & f & extra & _ & -> & _).
    by rewrite lookup_insert_ne.
  - by rewrite (exec_read_only s t d d' rs Hw He).
Qed.

Lemma permitted_target (r : route) (s : statement) :
  permitted r s → is_write s = true → target r = Some (table_of s).
Proof.
  destruct 1 as [| | | | | | |tbl i Hin]; simpl; try done.
  intros _. by rewrite (bool_decide_eq_true_2 _ Hin).
Qed.

(** The statements a route may execute touch no table but its own. *)
Lemma serve_frame (e : env) (r : route) (req : request) (d : database)
  (name : string) :
  target r ≠ Some name → db_after (serve e r req d) !! name = d !! name.
Proof.
  intros Hne.
  apply (serve_preserves (λ d', d' !! name = d !! name)); [|done].
  intros s Hp t d1 d2 rs He Hd1. rewrite <- Hd1.
  destruct (is_write s) eqn:Hw.
  - apply (exec_frame s t d1 d2 rs name He). intros ->.
    apply Hne. by apply permitted_target.
  - by rewrite (exec_read_only s t d1 d2 rs Hw He).
Qed.

(** X1: a request changes at most the one table of its route: every other
    table is left exactly as it was, and a route without a table (the
    pages, extract-document, simplify-text, GET /api/preferences, a delete
    on a table outside the allow-list) leaves the whole database as it was. *)
Theorem request_changes_only_its_table
  (e : env) (r : route) (req : request) (d : database) :
  (∀ name, target r ≠ Some name →
     db_after (serve e r req d) !! name = d !! name) ∧
  (target r = None → db_after (serve e r req d) = d).
Proof.
  split; [apply serve_frame|].
  intros Hnone. apply map_eq. intros name. apply serve_frame. by rewrite Hnone.
Qed.

(** X1 on a saved transcription, which leaves the preferences alone, and on
    an extraction, which leaves everything alone. *)
Lemma request_changes_only_its_table_witness :
  target R_save_transcription ≠ Some "user_preferences" ∧
  db_after (serve (offline 5) R_save_transcription
              (json_request [("text", PStr "hello")]) (init_db ∅))
    !! "user_preferences"
  = init_db ∅ !! "user_preferences" ∧
  target R_extract_document = None ∧
  db_after (serve (live 5) R_extract_document
              (upload_request "document" (named "scan.pdf" [x25]%byte) ∅)
              one_transcription)
  = one_transcription.
Proof.
  assert (H1 : target R_save_transcription ≠ Some "user_preferences")
    by discriminate.
  split; [exact H1|]. split.
  - exact (proj1 (request_changes_only_its_table (offline 5)
                    R_save_transcription _ (init_db ∅)) "user_preferences" H1).
  - split; [reflexivity|].
    exact (proj2 (request_changes_only_its_table (live 5) R_extract_document
                    _ one_transcription) eq_refl).
Defined.

(** ** Schema, ids and rows across requests *)

Lemma Forall_list_filter {A} (P : A → Prop) (f : A → bool) (l : list A) :
  Forall P l → Forall P (List.filter f l).
Proof.
  induction 1 as [|x l Hx _ IH]; simpl; [constructor|].
  destruct (f x); [by constructor|done].
Qed.

Lemma elem_of_list_filter {A} (f : A → bool) (l : list A) (x : A) :
  x ∈ List.filter f l → x ∈ l.
Proof.
  induction l as [|y l IH]; simpl; [done|].
  destruct (f y); rewrite ?elem_of_cons; intuition.
Qed.

Lemma NoDup_fmap_list_filter {A B} (g : A → B) (f : A → bool) (l : list A) :
  NoDup (g <$> l) → NoDup (g <$> List.filter f l).
Proof.
  induction l as [|x l IH]; simpl; [done|].
  rewrite NoDup_cons. intros [Hx Hl]. destruct (f x); simpl; [|by apply IH].
  apply NoDup_cons. split; [|by apply IH].
  intros (y & Hy & Hin)%list_elem_of_fmap. apply Hx.
  apply list_elem_of_fmap. exists y. split; [done|].
  by apply elem_of_list_filter in Hin.
Qed.

(** X2: no request creates, drops or alters a table: every table name has
    the same columns after the request as before, so a database that
    [init_db] has set up stays set up. *)
Theorem schema_is_fixed (e : env) (r : route) (req : request) (d : database) :
  (∀ name, columns <$> db_after (serve e r req d) !! name
           = columns <$> d !! name) ∧
  (initialised d → initialised (db_after (serve e r req d))).
Proof.
  assert (∀ name, columns <$> db_after (serve e r req d) !! name
                  = columns <$> d !! name) as Hcols.
  { intros name.
    apply (serve_preserves (λ d', columns <$> d' !! name = columns <$> d !! name));
      [|done].
    intros s _ t d1 d2 rs He Hd1. rewrite <- Hd1.
    destruct (is_write s) eqn:Hw.
    - destruct (exec_write_shape s t d1 d2 rs Hw He)
        as (tb & f & extra & Htb & -> & _).
      destruct (decide (table_of s = name)) as [<-|Hne].
      + by rewrite lookup_insert_eq, Htb.
      + by rewrite lookup_insert_ne.
    - by rewrite (exec_read_only s t d1 d2 rs Hw He). }
  split; [exact Hcols|].
  unfold initialised. rewrite !Forall_forall. intros Hd x Hx.
  rewrite Hcols. by apply Hd.
Qed.

(** X2 on a fresh database after a delete. *)
Lemma schema_is_fixed_witness :
  initialised (init_db ∅) ∧
  initialised (db_after (serve (offline 0) (R_delete "transcriptions" 3)
                           no_request (init_db ∅))).
Proof.
  split; [exact initialised_fresh|].
  exact (proj2 (schema_is_fixed (offline 0) (R_delete "transcriptions" 3)
                  no_request (init_db ∅)) initialised_fresh).
Defined.

Lemma well_numbered_stable (s : statement) : stable well_numbered s.
Proof.
  intros t d1 d2 rs He Hd1. destruct (is_write s) eqn:Hw.
  - destruct (exec_write_shape s t d1 d2 rs Hw He)
      as (tb & f & extra & Htb & -> & Hid & Hlen).
    intros name tb'. destruct (decide (table_of s = name)) as [<-|Hne].
    + rewrite lookup_insert_eq. intros [= <-]. simpl.
      destruct (Hd1 _ _ Htb) as [Hnd Hle]. split.
      * rewrite fmap_app. apply NoDup_app. split; [|split].
        -- by apply NoDup_fmap_list_filter.
        -- intros i (x & -> & Hx)%list_elem_of_fmap (y & Hy & Hin)%list_elem_of_fmap.
           apply elem_of_list_filter in Hx.
           rewrite Forall_forall in Hle, Hid.
           specialize (Hle x Hx). specialize (Hid y Hin). lia.
        -- destruct extra as [|x [|y extra]]; simpl in *; [constructor| |lia].
           apply NoDup_singleton.
      * apply Forall_app. split.
        -- apply Forall_list_filter. eapply Forall_impl; [exact Hle|].
           simpl. intros. lia.
        -- destruct extra as [|x [|y extra]]; simpl in *; [constructor| |lia].
           constructor; [|constructor]. apply Forall_inv in Hid. lia.
    + rewrite lookup_insert_ne by done. apply Hd1.
  - by rewrite (exec_read_only s t d1 d2 rs Hw He).
Qed.

(** X3: the numbering of rows is an invariant of every request: if the ids
    of each table are pairwise distinct and bounded by the table's counter
    before the request, they are so after it. *)
Theorem ids_stay_distinct (e : env) (r : route) (req : request) (d : database) :
  well_numbered d → well_numbered (db_after (serve e r req d)).
Proof.
  apply serve_preserves. intros s _. apply well_numbered_stable.
Qed.

Lemma create_table_lookup (d : database) (x : string * list column)
  (name : string) :
  create_table_if_not_exists d x !! name
  = match d !! name with
    | Some t => Some t
    | None => if decide (x.1 = name) then Some (empty_table x.2) else None
    end.
Proof.
  unfold create_table_if_not_exists.
  destruct (d !! x.1) as [t|] eqn:Hx.
  - destruct (d !! name) as [t'|] eqn:Hn; [done|].
    case_decide; [congruence|done].
  - destruct (decide (x.1 = name)) as [<-|Hne].
    + by rewrite lookup_insert_eq, Hx.
    + rewrite lookup_insert_ne by done. by destruct (d !! name).
Qed.

(** After the [CREATE TABLE IF NOT EXISTS] statements of [l], a table that
    was there is there unchanged, and a name that was free holds the empty
    table of the first statement of [l] that names it. *)
Lemma create_tables_lookup (l : list (string * list column)) (d : database)
  (name : string) :
  foldl create_table_if_not_exists d l !! name
  = match d !! name with
    | Some t => Some t
    | None =>
        (λ x : string * list column, empty_table x.2)
          <$> List.find (λ x, bool_decide (x.1 = name)) l
    end.
Proof.
  revert d. induction l as [|x l IH]; intros d; simpl.
  - by destruct (d !! name).
  - rewrite IH, create_table_lookup.
    destruct (d !! name) as [t|]; [done|].
    destruct (decide (x.1 = name)) as [Heq|Hne].
    + by rewrite (bool_decide_eq_true_2 _ Heq).
    + by rewrite (bool_decide_eq_false_2 _ Hne).
Qed.

Lemma well_numbered_fresh : well_numbered (init_db ∅).
Proof.
  intros name tb Hn. unfold init_db in Hn.
  rewrite create_tables_lookup, lookup_empty in Hn.
  destruct (List.find _ schema) as [x|]; [|discriminate].
  injection Hn as <-. split; constructor.
Defined.

(** X3 on a fresh database after a save. *)
Lemma ids_stay_distinct_witness :
  well_numbered (init_db ∅) ∧ well_numbered one_transcription.
Proof.
  split; [exact well_numbered_fresh|].
  exact (ids_stay_distinct (offline 900) R_save_transcription
           (json_request [("text", PStr "earlier")]) (init_db ∅)
           well_numbered_fresh).
Defined.

Lemma extends_refl (d : database) : extends d d.
Proof.
  intros name tb Htb. exists tb. split; [done|]. split; [lia|].
  apply Forall_forall. intros r Hr. by left.
Qed.

Lemma extends_stable (d : database) (s : statement) : stable (extends d) s.
Proof.
  intros t d1 d2 rs He Hd1. destruct (is_write s) eqn:Hw.
  - destruct (exec_write_shape s t d1 d2 rs Hw He)
      as (tb1 & f & extra & Htb1 & -> & Hid & Hlen).
    intros name tb'. destruct (decide (table_of s = name)) as [<-|Hne].
    + rewrite lookup_insert_eq. intros [= <-]. simpl.
      destruct (Hd1 _ _ Htb1) as (tb & Htb & Hseq & Hrows).
      exists tb. split; [done|]. split; [lia|].
      apply Forall_app. split; [by apply Forall_list_filter|].
      eapply Forall_impl; [exact Hid|]. simpl. intros r Hr. right. lia.
    + rewrite lookup_insert_ne by done. apply Hd1.
  - by rewrite (exec_read_only s t d1 d2 rs Hw He).
Qed.

(** X4: stored rows are immutable and ids are never reused: after any
    request, every row of every table is a row that was there before,
    unchanged, or carries an id above every id the table had handed out
    before the request. *)
Theorem rows_are_never_rewritten
  (e : env) (r : route) (req : request) (d : database) :
  extends d (db_after (serve e r req d)).
Proof.
  apply (serve_preserves (extends d)); [|apply extends_refl].
  intros s _. apply extends_stable.
Qed.

(** ** [init_db] *)

Lemma find_schema (name : string) (cols : list column) :
  (name, cols) ∈ schema →
  List.find (λ x : string * list column, bool_decide (x.1 = name)) schema
  = Some (name, cols).
Proof.
  unfold schema. rewrite !elem_of_cons, elem_of_nil.
  intros [H|[H|[H|[H|[H|[]]]]]]; injection H as -> ->; by vm_compute.
Qed.

(** X5: [init_db] is safe to run on every start: it keeps every table that
    exists exactly as it is, rows included; running it twice is running it
    once; and when no existing table of a schema name has other columns,
    the result has all five tables with their columns. *)
Theorem init_db_is_idempotent_and_keeps_data (d : database) :
  (∀ name t, d !! name = Some t → init_db d !! name = Some t) ∧
  init_db (init_db d) = init_db d ∧
  ((∀ name cols t, (name, cols) ∈ schema → d !! name = Some t →
                   columns t = cols) →
   initialised (init_db d)).
Proof.
  split; [|split].
  - intros name t Ht. unfold init_db. by rewrite create_tables_lookup, Ht.
  - apply map_eq. intros name. unfold init_db.
    rewrite (create_tables_lookup schema (foldl _ d schema)).
    destruct (foldl _ d schema !! name) as [t|] eqn:Hn; [done|].
    rewrite create_tables_lookup in Hn.
    destruct (d !! name); [discriminate|].
    by destruct (List.find _ schema).
  - intros Hcols. unfold initialised. apply Forall_forall.
    intros [name cols] Hin. cbn [fst snd]. unfold init_db.
    rewrite create_tables_lookup.
    destruct (d !! name) as [t|] eqn:Hn.
    + simpl. f_equal. by eapply Hcols.
    + by rewrite (find_schema name cols Hin).
Qed.

(** X5 on a database that holds one transcription. *)
Lemma init_db_is_idempotent_and_keeps_data_witness :
  (rows <$> init_db one_transcription !! "transcriptions")
  = Some [transcription_row 1 "earlier" (SText "speech") 900] ∧
  initialised (init_db one_transcription).
Proof.
  destruct (init_db_is_idempotent_and_keeps_data one_transcription)
    as (Hkeep & _ & Hinit).
  split.
  - rewrite (Hkeep "transcriptions"
               (appended (transcription_row 1 "earlier" (SText "speech") 900)
                         (empty_table transcription_columns))).
    + reflexivity.
    + vm_compute. reflexivity.
  - apply Hinit. intros name cols t Hin Ht.
    pose proof (initialised_lookup one_transcription name cols
                  initialised_one_transcription Hin) as (t' & Ht' & Hc).
    rewrite Ht in Ht'. by injection Ht' as ->.
Defined.

(** ** The constraints of the tables across requests *)

Lemma exec_upsert_inv (key : string) (value : pyval) (t : Z) (d d' : database)
  (rs : list row) :
  exec (upsert_preference key value) t d = Return (d', rs) →
  (∀ tb, d !! "user_preferences" = Some tb → columns tb = preference_columns) →
  ∃ tb, d !! "user_preferences" = Some tb ∧
        d' = <["user_preferences" := upserted key (py_str value) t tb]> d.
Proof.
  intros He Hc. unfold upsert_preference, exec in He.
  destruct (d !! "user_preferences") as [tb|] eqn:Htb.
  - rewrite (exec_upsert key value t d tb Htb (Hc tb eq_refl)) in He.
    injection He as <- _. by exists tb.
  - unfold exec_insert in He. by rewrite Htb in He.
Qed.

Lemma preferences_not_in_allow_list : "user_preferences" ∉ allowed_tables.
Proof. refine (bool_decide_unpack _ _). vm_compute. exact I. Qed.

Lemma one_row_per_key_stable (r : route) (s : statement) :
  permitted r s → stable one_row_per_key s.
Proof.
  intros Hp t d1 d2 rs He Hd1.
  assert (table_of s ≠ "user_preferences" → one_row_per_key d2) as Hother.
  { intros Hne tb. rewrite (exec_frame s t d1 d2 rs _ He); [apply Hd1|done]. }
  destruct Hp as [tbl Hin| | | | | |key value|tbl i Hin];
    try (apply Hother; discriminate).
  - apply Hother. simpl. intros ->. by apply preferences_not_in_allow_list.
  - by rewrite (exec_read_only SelectPreferences t d1 d2 rs eq_refl He).
  - destruct (exec_upsert_inv key value t d1 d2 rs He) as (tb & Htb & ->).
    { intros tb Htb. by apply Hd1. }
    intros tb'. rewrite lookup_insert_eq. intros [= <-].
    destruct (Hd1 tb Htb) as [Hc Hone]. split; [done|]. intros key'.
    destruct (decide (key = key')) as [<-|Hne].
    + by rewrite upserted_rows_of_key.
    + rewrite upserted_rows_of_other by done. apply Hone.
  - apply Hother. simpl. intros ->. by apply preferences_not_in_allow_list.
Qed.

(** X6: the uniqueness of preference keys is an invariant of every request:
    if the preferences table holds at most one row per key before the
    request, it does so after it, whatever the route and the body. *)
Theorem preference_keys_stay_unique
  (e : env) (r : route) (req : request) (d : database) :
  one_row_per_key d → one_row_per_key (db_after (serve e r req d)).
Proof. apply serve_preserves. apply one_row_per_key_stable. Qed.

Lemma one_row_per_key_fresh : one_row_per_key (init_db ∅).
Proof.
  intros t Ht. vm_compute in Ht. injection Ht as <-. split; [reflexivity|].
  intros key. simpl. lia.
Defined.

(** X6 on a fresh database after a POST that sets two keys. *)
Lemma preference_keys_stay_unique_witness :
  one_row_per_key (init_db ∅) ∧
  one_row_per_key
    (db_after (serve (offline 0) (R_preferences POST)
                 (json_request [("theme", PStr "dark"); ("font", PStr "large")])
                 (init_db ∅))).
Proof.
  split; [exact one_row_per_key_fresh|].
  exact (preference_keys_stay_unique (offline 0) (R_preferences POST) _
           (init_db ∅) one_row_per_key_fresh).
Defined.

(** X7: every write statement a request executes names the one table of its
    route; in particular a DELETE is only ever executed by the delete route,
    on one of the three tables of the allow-list, with the id of the URL. *)
Theorem writes_name_the_table_of_the_route
  (e : env) (r : route) (req : request) (d : database) (s : statement) :
  Execute s ∈ effects (serve e r req d) →
  is_write s = true →
  target r = Some (table_of s) ∧
  (∀ tbl p, s = DeleteWhereId tbl p →
     tbl ∈ allowed_tables ∧ ∃ i, r = R_delete tbl i ∧ p = PInt (Z.of_N i)).
Proof.
  intros Hin Hw.
  assert (permitted r s) as Hp.
  { pose proof (serve_emits
                  (λ ev, ∀ s', ev = Execute s' → permitted r s') e r req d) as H.
    rewrite Forall_forall in H. eapply H; try done.
    intros s' Hs' ? [= <-]. exact Hs'. }
  split; [by apply permitted_target|].
  intros tbl p ->. inversion Hp; subst. split; [done|]. by eexists.
Qed.

(** X7 on a delete of transcription 7. *)
Lemma writes_name_the_table_of_the_route_witness :
  let s := DeleteWhereId "transcriptions" (PInt 7) in
  Execute s ∈ effects (serve (offline 0) (R_delete "transcriptions" 7)
                         no_request one_transcription) ∧
  is_write s = true ∧
  target (R_delete "transcriptions" 7) = Some "transcriptions".
Proof.
  intros s.
  assert (Hin : Execute s ∈ effects (serve (offline 0)
                  (R_delete "transcriptions" 7) no_request one_transcription)).
  { vm_compute. apply list_elem_of_further, list_elem_of_here. }
  split; [exact Hin|]. split; [reflexivity|].
  exact (proj1 (writes_name_the_table_of_the_route (offline 0)
                  (R_delete "transcriptions" 7) no_request one_transcription
                  s Hin eq_refl)).
Defined.

Lemma list_filter_none {A} (f : A → bool) (l : list A) :
  existsb f l = false → List.filter (λ x, negb (f x)) l = l.
Proof.
  induction l as [|x l IH]; simpl; [done|].
  intros [Hx Hl]%orb_false_elim. by rewrite Hx, IH.
Qed.

(** A plain [INSERT] that succeeds appends one row to its table. *)
Lemma exec_insert_appends (tbl : string) (cols : list string)
  (params : list pyval) (t : Z) (d d' : database) :
  exec_insert false tbl cols params t d = Return d' →
  ∃ tb new, d !! tbl = Some tb ∧
            d' = <[tbl := {| columns := columns tb; rows := rows tb ++ [new];
                             seq := seq tb + 1 |}]> d.
Proof.
  unfold exec_insert. destruct (d !! tbl) as [tb|]; [|discriminate].
  destruct (bind_params params) as [vals|]; [|discriminate].
  destruct (check_columns _ _ _); [discriminate|]. simpl.
  destruct (existsb _ (rows tb)) eqn:Hex; [discriminate|]. simpl.
  intros [= <-]. rewrite (list_filter_none _ _ Hex). by eexists _, _.
Qed.

Lemma grown_stable (name : string) (d : database) (r : route) (s : statement) :
  name ≠ "user_preferences" →
  (∀ i, r ≠ R_delete name i) →
  permitted r s → stable (grown name d) s.
Proof.
  intros Hup Hdel Hp t d1 d2 rs He Hd1.
  assert (table_of s ≠ name → grown name d d2) as Hother.
  { intros Hne tb Htb. destruct (Hd1 tb Htb) as (t' & extra & Ht' & Hrows).
    exists t', extra. split; [|done].
    by rewrite (exec_frame s t d1 d2 rs name He). }
  assert (∀ tbl cols params, s = Insert false tbl cols params →
            grown name d d2) as Hins.
  { intros tbl cols params ->.
    destruct (decide (tbl = name)) as [->|Hne]; [|by apply Hother].
    simpl in He. destruct (exec_insert _ _ _ _ _ _) as [d'|] eqn:Hi;
      [|discriminate]. injection He as -> _.
    destruct (exec_insert_appends _ _ _ _ _ _ Hi) as (tb & new & Htb & ->).
    intros t0 Ht0. destruct (Hd1 t0 Ht0) as (t' & extra & Ht' & Hrows).
    rewrite Htb in Ht'. injection Ht' as <-.
    eexists _, (extra ++ [new]). rewrite lookup_insert_eq. split; [done|].
    simpl. by rewrite Hrows, app_assoc. }
  destruct Hp as [tbl Hin| | | | | |key value|tbl i Hin];
    try (by eapply Hins).
  - by rewrite (exec_read_only (SelectRecent tbl) t d1 d2 rs eq_refl He).
  - by rewrite (exec_read_only SelectPreferences t d1 d2 rs eq_refl He).
  - apply Hother. simpl. congruence.
  - apply Hother. simpl. intros ->. by apply (Hdel i).
Qed.

(** X8: rows leave a table only through the delete route or an upsert: for
    every table other than the preferences, a request that is not a delete
    on that table keeps all its rows, in order, and at most adds rows after
    them.  The conversation history, which no delete can name, is
    append-only. *)
Theorem rows_only_leave_by_delete
  (e : env) (r : route) (req : request) (d : database) :
  (∀ name, name ≠ "user_preferences" → (∀ i, r ≠ R_delete name i) →
     grown name d (db_after (serve e r req d))) ∧
  grown "conversation_history" d (db_after (serve e r req d)).
Proof.
  assert (∀ name, name ≠ "user_preferences" → (∀ i, r ≠ R_delete name i) →
            grown name d (db_after (serve e r req d))) as H.
  { intros name Hup Hdel.
    apply (serve_preserves (grown name d)).
    - intros s. by apply grown_stable.
    - intros t Ht. exists t, []. by rewrite app_nil_r. }
  split; [exact H|].
  destruct (decide (target r = Some "conversation_history")) as [Ht|Ht].
  - apply H; [done|]. intros i ->. simpl in Ht. discriminate.
  - intros t Hl. exists t, []. rewrite app_nil_r. split; [|done].
    by rewrite (serve_frame e r req d).
Qed.

(** X8 on a save into a table that holds a row. *)
Lemma rows_only_leave_by_delete_witness :
  "transcriptions" ≠ "user_preferences" ∧
  (∀ i, R_save_transcription ≠ R_delete "transcriptions" i) ∧
  grown "transcriptions" one_transcription
    (db_after (serve (offline 950) R_save_transcription
                 (json_request [("text", PStr "hello")]) one_transcription)).
Proof.
  assert (H1 : "transcriptions" ≠ "user_preferences") by discriminate.
  assert (H2 : ∀ i, R_save_transcription ≠ R_delete "transcriptions" i)
    by discriminate.
  split; [exact H1|]. split; [exact H2|].
  exact (proj1 (rows_only_leave_by_delete (offline 950) R_save_transcription
                  (json_request [("text", PStr "hello")]) one_transcription)
               "transcriptions" H1 H2).
Defined.

(** ** Failed requests *)

Lemma upsert_all_store (e : env) (items : dict) (w : world) :
  store (upsert_all e items w).2 = store w.
Proof.
  revert w. induction items as [|[key value] items IH]; intros w; [done|].
  simpl upsert_all. unfold mbind, M_bind, execute.
  destruct (conn w); simpl; [|done].
  destruct (exec_insert _ _ _ _ _ _); simpl; [|done].
  by rewrite IH.
Qed.

(** X9: a request that is not answered 200 leaves the database exactly as
    it was: client errors and server errors never change stored data. *)
Theorem failed_requests_change_nothing
  (e : env) (r : route) (req : request) (d : database) :
  status (resp (serve e r req d)) ≠ 200 →
  db_after (serve e r req d) = d.
Proof.
  unfold serve, dispatch.
  destruct r as [| | | | | | | | | | | | |[]|tbl i]; try done.
  - unfold saved_content. run_monad. split_cases; simpl; done.
  - unfold api_describe_image. run_monad. split_cases; simpl; done.
  - unfold api_save_transcription. run_monad. split_cases; simpl; done.
  - unfold api_save_text. run_monad. split_cases; simpl; done.
  - unfold api_extract_document. run_monad. split_cases; simpl; done.
  - unfold api_conversation. run_monad. split_cases; simpl; done.
  - unfold api_simplify_text. run_monad. split_cases; simpl; done.
  - unfold api_preferences. run_monad. split_cases; simpl; done.
  - unfold api_preferences.
    body_cases req; try (run_monad; split_cases; simpl; done).
    cbv beta iota delta
      [mbind M_bind mret M_ret truthy negb py_items dict_method].
    remember (kv :: data) as items eqn:Hi. clear Hi. run_monad.
    match goal with |- context [upsert_all e items ?w1] =>
      pose proof (upsert_all_store e items w1) as Hs;
      destruct (upsert_all e items w1) as [[[]|x] w2] end;
      simpl in Hs; [|done].
    split_cases; simpl; done.
  - unfold api_delete_item. run_monad. split_cases; simpl; done.
Qed.

(** X9 on a body whose text is null, which the store refuses. *)
Lemma failed_requests_change_nothing_witness :
  status (resp (serve (offline 0) R_save_transcription
                  (json_request [("text", PNone)]) one_transcription)) ≠ 200 ∧
  db_after (serve (offline 0) R_save_transcription
              (json_request [("text", PNone)]) one_transcription)
  = one_transcription.
Proof.
  assert (H : status (resp (serve (offline 0) R_save_transcription
                (json_request [("text", PNone)]) one_transcription)) ≠ 200).
  { vm_compute. discriminate. }
  split; [exact H|].
  exact (failed_requests_change_nothing (offline 0) R_save_transcription
           (json_request [("text", PNone)]) one_transcription H).
Defined.

(** ** Describing an image *)

Lemma exec_insert_description (name description : string) (t : Z)
  (d : database) (tb : table) :
  d !! "image_descriptions" = Some tb →
  columns tb = description_columns →
  exec_insert false "image_descriptions" ["filename"; "description"]
    [PStr name; PStr description] t d
  = Return (<["image_descriptions" :=
       appended (description_row (seq tb + 1) name description t) tb]> d).
Proof.
  intros Ht Hc. unfold exec_insert. rewrite Ht, Hc.
  simpl bind_params. cbv iota beta.
  change (check_columns _ _ _) with (@None exn). cbv iota beta.
  assert (∀ r, conflicts description_columns
                 (zip ["filename"; "description"]
                      (text_affinity <$> [SText name; SText description])) r
               = false) as Hno by done.
  rewrite (existsb_never _ _ Hno). simpl.
  rewrite filter_keeps_all.
  - unfold appended, description_row. by rewrite Hc.
  - by apply Forall_forall.
Qed.

(** X10: a describe-image request that passes the checks reads the upload,
    calls the model once with the prompt of the mode (the form field, or
    "detailed" without one) and the image, stores the sanitised file name
    with the description in one committed insert, and answers 200 with the
    description and the mode. *)
Theorem describe_image_stores_what_it_returns
  (e : env) (req : request) (d : database) (file : upload)
  (g : list part → outcome string) (description : string) (tb : table) :
  gemini_model e = Some g →
  files req !! "image" = Some file →
  allowed_file (filename file) = true →
  let mode := default "detailed" (form req !! "mode") in
  g (describe_parts file mode) = Return description →
  d !! "image_descriptions" = Some tb →
  columns tb = description_columns →
  serve e R_describe_image req d
  = {| resp := jsonify [("success", JBool true);
                        ("description", JStr description);
                        ("mode", JStr mode)] 200;
       db_after :=
         <["image_descriptions" :=
             appended (description_row (seq tb + 1)
                         (secure_filename e (filename file)) description
                         (now e)) tb]> d;
       effects :=
         [ReadUpload "image"; Generate (describe_parts file mode); Connect;
          Execute (Insert false "image_descriptions"
                     ["filename"; "description"]
                     [PStr (secure_filename e (filename file));
                      PStr description]);
          Commit; Close] |}.
Proof.
  intros Hg Hf Ha mode Hd Ht Hc.
  assert (filename file ≠ "") as Hn by (intros E; by rewrite E in Ha).
  unfold serve, dispatch, api_describe_image, gemini_available.
  rewrite Hg, Hf, Ha. simpl. rewrite decide_False by done.
  run_monad. rewrite Hg. fold mode. unfold describe_parts in Hd. rewrite Hd.
  simpl. by rewrite (exec_insert_description _ _ _ d tb Ht Hc).
Qed.

(** X11: when the call to the model fails, describe-image answers 500 with
    the text of the error; nothing is stored and no connection to the
    database is opened. *)
Theorem describe_image_upstream_failure
  (e : env) (req : request) (d : database) (file : upload)
  (g : list part → outcome string) (x : exn) :
  gemini_model e = Some g →
  files req !! "image" = Some file →
  allowed_file (filename file) = true →
  let mode := default "detailed" (form req !! "mode") in
  g (describe_parts file mode) = Raise x →
  serve e R_describe_image req d
  = {| resp := jsonify [("error", JStr (exn_msg x))] 500;
       db_after := d;
       effects := [ReadUpload "image"; Generate (describe_parts file mode)] |}.
Proof.
  intros Hg Hf Ha mode Hd.
  assert (filename file ≠ "") as Hn by (intros E; by rewrite E in Ha).
  unfold serve, dispatch, api_describe_image, gemini_available.
  rewrite Hg, Hf, Ha. simpl. rewrite decide_False by done.
  run_monad. rewrite Hg. fold mode. unfold describe_parts in Hd.
  by rewrite Hd.
Qed.

(** X10 on a photograph sent with mode "quick". *)
Lemma describe_image_stores_what_it_returns_witness :
  let file := named "my bike.jpg" [x01]%byte in
  let req := upload_request "image" file {[ "mode" := "quick" ]} in
  allowed_file (filename file) = true ∧
  sample_model (describe_parts file "quick") = Return "A red bicycle." ∧
  resp (serve (live 7) R_describe_image req (init_db ∅))
  = jsonify [("success", JBool true); ("description", JStr "A red bicycle.");
             ("mode", JStr "quick")] 200 ∧
  (rows <$> db_after (serve (live 7) R_describe_image req (init_db ∅))
            !! "image_descriptions")
  = Some [description_row 1 "my_bike.jpg" "A red bicycle." 7].
Proof.
  intros file req.
  assert (Ha : allowed_file (filename file) = true) by (vm_compute; reflexivity).
  pose proof (describe_image_stores_what_it_returns (live 7) req (init_db ∅)
                file sample_model "A red bicycle."
                (empty_table description_columns) eq_refl
                ltac:(vm_compute; reflexivity) Ha eq_refl
                ltac:(vm_compute; reflexivity) eq_refl) as H.
  split; [exact Ha|]. split; [reflexivity|]. rewrite H. split.
  - vm_compute. reflexivity.
  - simpl. rewrite lookup_insert_eq. vm_compute. reflexivity.
Defined.

(** X11 on a model that is out of quota. *)
Lemma describe_image_upstream_failure_witness :
  let file := named "bike.jpg" [x01]%byte in
  let req := upload_request "image" file ∅ in
  allowed_file (filename file) = true ∧
  failing_model (describe_parts file "detailed")
  = Raise (Exception "ResourceExhausted" "429 quota exceeded") ∧
  serve (failing 7) R_describe_image req one_transcription
  = {| resp := jsonify [("error", JStr "429 quota exceeded")] 500;
       db_after := one_transcription;
       effects := [ReadUpload "image";
                   Generate (describe_parts file "detailed")] |}.
Proof.
  intros file req.
  assert (Ha : allowed_file (filename file) = true) by (vm_compute; reflexivity).
  split; [exact Ha|]. split; [reflexivity|].
  exact (describe_image_upstream_failure (failing 7) req one_transcription file
           failing_model (Exception "ResourceExhausted" "429 quota exceeded")
           eq_refl ltac:(vm_compute; reflexivity) Ha eq_refl).
Defined.

(** ** Without a model *)

(** X12: [init_gemini] returns True exactly when it has set the model.
    When it returns False (no API key, or the configuration raised), the
    describe-image and simplify-text endpoints answer 400 to every request
    without any effect, and extract-document answers 400 to every document
    that is not a text file, after reading it and without touching the
    database. *)
Theorem without_model_ai_endpoints_answer_400
  (key : string) (configure : string → outcome (list part → outcome string))
  (sanitise : string → string) (t : Z) (req : request) (d : database) :
  let e := {| gemini_model := (init_gemini key configure).1;
              secure_filename := sanitise; now := t |} in
  ((init_gemini key configure).2 = gemini_available e) ∧
  (init_gemini "" configure = (None, false)) ∧
  ((init_gemini key configure).2 = false →
   serve e R_describe_image req d
   = {| resp := jsonify [("error", JStr "Gemini API not configured. Please set GEMINI_API_KEY environment variable.")] 400;
        db_after := d; effects := [] |} ∧
   serve e R_simplify_text req d
   = {| resp := jsonify [("error", JStr "Gemini API not available")] 400;
        db_after := d; effects := [] |} ∧
   (∀ file, files req !! "document" = Some file →
      filename file ≠ "" →
      document_ext (sanitise (filename file)) ≠ "txt" →
      serve e R_extract_document req d
      = {| resp := jsonify [("error", JStr "Unsupported file type or Gemini not available")] 400;
           db_after := d; effects := [ReadUpload "document"] |})).
Proof.
  intros e. split; [|split].
  - unfold e, gemini_available, init_gemini. simpl.
    destruct (decide (key = "")); [done|]. by destruct (configure key).
  - done.
  - intros Hfalse.
    assert (gemini_model e = None) as Hnone.
    { unfold e, init_gemini in *. simpl in *.
      destruct (decide (key = "")); [done|]. by destruct (configure key). }
    split; [|split].
    + unfold serve, dispatch, api_describe_image, gemini_available.
      by rewrite Hnone.
    + unfold serve, dispatch, api_simplify_text, gemini_available.
      by rewrite Hnone.
    + intros file Hf Hn Hx.
      unfold serve, dispatch, api_extract_document, gemini_available.
      rewrite Hf, Hnone. rewrite decide_False by done. run_monad.
      by rewrite decide_False.
Qed.

(** X12 on a configuration that raises, with a PDF to extract. *)
Lemma without_model_ai_endpoints_answer_400_witness :
  let configure := λ _ : string,
    @Raise (list part → outcome string) (Exception "ValueError" "bad key") in
  let e := {| gemini_model := (init_gemini "k-123" configure).1;
              secure_filename := Werkzeug.secure_filename; now := 0 |} in
  let file := named "scan.pdf" [x25]%byte in
  (init_gemini "k-123" configure).2 = false ∧
  status (resp (serve e R_describe_image
                  (upload_request "image" (named "bike.jpg" []) ∅) (init_db ∅)))
  = 400 ∧
  filename file ≠ "" ∧
  document_ext (Werkzeug.secure_filename (filename file)) ≠ "txt" ∧
  status (resp (serve e R_extract_document
                  (upload_request "document" file ∅) (init_db ∅))) = 400.
Proof.
  intros configure e file.
  assert (H0 : (init_gemini "k-123" configure).2 = false) by reflexivity.
  assert (Hn : filename file ≠ "") by discriminate.
  assert (Hx : document_ext (Werkzeug.secure_filename (filename file)) ≠ "txt")
    by (vm_compute; discriminate).
  split; [exact H0|]. split; [|split; [exact Hn|split; [exact Hx|]]].
  - destruct (without_model_ai_endpoints_answer_400 "k-123" configure
                Werkzeug.secure_filename 0
                (upload_request "image" (named "bike.jpg" []) ∅) (init_db ∅))
      as (_ & _ & H). destruct (H H0) as (Hd & _).
    exact (f_equal (λ r, status (resp r)) Hd).
  - destruct (without_model_ai_endpoints_answer_400 "k-123" configure
                Werkzeug.secure_filename 0
                (upload_request "document" file ∅) (init_db ∅))
      as (_ & _ & H). destruct (H H0) as (_ & _ & Hdoc).
    exact (f_equal (λ r, status (resp r))
             (Hdoc file ltac:(vm_compute; reflexivity) Hn Hx)).
Defined.

(** ** Extracting a document through the model *)

(** X13: for a document whose sanitised name ends in pdf, png, jpg or jpeg,
    with the model configured, extract-document reads the upload and calls
    the model once with the extraction prompt and the bytes, announced as
    application/pdf for a PDF and as image/ followed by the extension
    otherwise.  It answers 200 with the model's text and method "gemini",
    or 500 with the error text when the call fails; the database is not
    touched either way. *)
Theorem extract_document_through_model
  (e : env) (req : request) (d : database) (file : upload)
  (g : list part → outcome string) :
  gemini_model e = Some g →
  files req !! "document" = Some file →
  filename file ≠ "" →
  let ext := document_ext (secure_filename e (filename file)) in
  let parts := [Prompt extract_prompt; Blob (extract_mime ext) (content file)] in
  ext ∈ ["pdf"; "png"; "jpg"; "jpeg"] →
  serve e R_extract_document req d
  = {| resp :=
         match g parts with
         | Return text =>
             jsonify [("success", JBool true); ("text", JStr text);
                      ("method", JStr "gemini")] 200
         | Raise x => jsonify [("error", JStr (exn_msg x))] 500
         end;
       db_after := d;
       effects := [ReadUpload "document"; Generate parts] |}.
Proof.
  intros Hg Hf Hn ext parts Hext.
  assert (ext ≠ "txt") as Htxt.
  { intros E. rewrite E in Hext. revert Hext.
    refine (bool_decide_unpack _ _). vm_compute. exact I. }
  unfold serve, dispatch, api_extract_document, gemini_available.
  rewrite Hf, Hg. rewrite decide_False by done. run_monad.
  fold ext. rewrite (decide_False (P := ext = "txt")) by done.
  rewrite (bool_decide_eq_true_2 _ Hext). simpl. rewrite Hg.
  unfold parts, extract_mime. by destruct (g _).
Qed.

(** X13 on a scan sent as JPG. *)
Lemma extract_document_through_model_witness :
  let file := named "Scan 01.JPG" [xff; xd8]%byte in
  let req := upload_request "document" file ∅ in
  filename file ≠ "" ∧
  document_ext (Werkzeug.secure_filename (filename file))
    ∈ ["pdf"; "png"; "jpg"; "jpeg"] ∧
  serve (live 0) R_extract_document req one_transcription
  = {| resp := jsonify [("success", JBool true); ("text", JStr "A red bicycle.");
                        ("method", JStr "gemini")] 200;
       db_after := one_transcription;
       effects := [ReadUpload "document";
                   Generate [Prompt extract_prompt;
                             Blob "image/jpg" [xff; xd8]%byte]] |}.
Proof.
  intros file req.
  assert (Hn : filename file ≠ "") by discriminate.
  assert (Hx : document_ext (Werkzeug.secure_filename (filename file))
               ∈ ["pdf"; "png"; "jpg"; "jpeg"]).
  { refine (bool_decide_unpack _ _). vm_compute. exact I. }
  split; [exact Hn|]. split; [exact Hx|].
  exact (extract_document_through_model (live 0) req one_transcription file
           sample_model eq_refl ltac:(vm_compute; reflexivity) Hn Hx).
Defined.

(** ** Saved texts and conversation turns *)

Lemma dict_get_default_optional (key fallback : string) (value : option string)
  (data : dict) :
  optional key value data →
  dict_get_default key (PStr fallback) data = PStr (default fallback value).
Proof. unfold optional, dict_get_default. intros ->. by destruct value. Qed.

Lemma exec_insert_saved_text (title content category : string) (t : Z)
  (d : database) (tb : table) :
  d !! "saved_texts" = Some tb →
  columns tb = saved_text_columns →
  exec_insert false "saved_texts" ["title"; "content"; "category"]
    [PStr title; PStr content; PStr category] t d
  = Return (<["saved_texts" :=
       appended (saved_text_row (seq tb + 1) title content category t) tb]> d).
Proof.
  intros Ht Hc. unfold exec_insert. rewrite Ht, Hc.
  simpl bind_params. cbv iota beta.
  change (check_columns _ _ _) with (@None exn). cbv iota beta.
  assert (∀ r, conflicts saved_text_columns
                 (zip ["title"; "content"; "category"]
                      (text_affinity <$>
                         [SText title; SText content; SText category])) r
               = false) as Hno by done.
  rewrite (existsb_never _ _ Hno). simpl.
  rewrite filter_keeps_all.
  - unfold appended, saved_text_row. by rewrite Hc.
  - by apply Forall_forall.
Qed.

Lemma exec_insert_conversation (session speaker message kind : string) (t : Z)
  (d : database) (tb : table) :
  d !! "conversation_history" = Some tb →
  columns tb = conversation_columns →
  exec_insert false "conversation_history"
    ["session_id"; "speaker"; "message"; "message_type"]
    [PStr session; PStr speaker; PStr message; PStr kind] t d
  = Return (<["conversation_history" :=
       appended (conversation_row (seq tb + 1) session speaker message kind t)
                tb]> d).
Proof.
  intros Ht Hc. unfold exec_insert. rewrite Ht, Hc.
  simpl bind_params. cbv iota beta.
  change (check_columns _ _ _) with (@None exn). cbv iota beta.
  assert (∀ r, conflicts conversation_columns
                 (zip ["session_id"; "speaker"; "message"; "message_type"]
                      (text_affinity <$>
                         [SText session; SText speaker; SText message;
                          SText kind])) r
               = false) as Hno by done.
  rewrite (existsb_never _ _ Hno). simpl.
  rewrite filter_keeps_all.
  - unfold appended, conversation_row. by rewrite Hc.
  - by apply Forall_forall.
Qed.

(** X14: for an object body whose "content" is a string and whose "title"
    and "category" are each absent or a string, save-text appends one row
    under the next id of the table, with that content, the title or
    "Untitled" when the body has none, and the category or "general" when
    the body has none, and answers 200. *)
Theorem save_text_defaults
  (e : env) (req : request) (d : database) (data : dict) (content : string)
  (title category : option string) (tb : table) :
  json req = Some data →
  dict_get "content" data = Some (PStr content) →
  optional "title" title data →
  optional "category" category data →
  d !! "saved_texts" = Some tb →
  columns tb = saved_text_columns →
  resp (serve e R_save_text req d) = jsonify success 200 ∧
  db_after (serve e R_save_text req d)
  = <["saved_texts" :=
        appended (saved_text_row (seq tb + 1) (default "Untitled" title)
                    content (default "general" category) (now e)) tb]> d.
Proof.
  intros Hj Hx Ht Hc Htb Hcols. apply json_object in Hj.
  unfold serve, dispatch, api_save_text, get_json.
  rewrite Hj. destruct data as [|kv data]; [discriminate|].
  run_monad. unfold dict_has. rewrite Hx. simpl.
  rewrite (dict_get_default_optional "title" "Untitled" title _ Ht).
  rewrite (dict_get_default_optional "category" "general" category _ Hc).
  by rewrite (exec_insert_saved_text _ _ _ _ d tb Htb Hcols).
Qed.

(** X15: the conversation endpoint requires no particular field: for a
    non-empty object body in which each of "session_id", "speaker",
    "message" and "message_type" is absent or a string, it appends one row
    under the next id of the table, with "default", "unknown", the empty
    message and "text" for the ones the body does not have, and answers
    200. *)
Theorem conversation_defaults
  (e : env) (req : request) (d : database) (data : dict)
  (session speaker message kind : option string) (tb : table) :
  json req = Some data →
  data ≠ [] →
  optional "session_id" session data →
  optional "speaker" speaker data →
  optional "message" message data →
  optional "message_type" kind data →
  d !! "conversation_history" = Some tb →
  columns tb = conversation_columns →
  resp (serve e R_conversation req d) = jsonify success 200 ∧
  db_after (serve e R_conversation req d)
  = <["conversation_history" :=
        appended (conversation_row (seq tb + 1) (default "default" session)
                    (default "unknown" speaker) (default "" message)
                    (default "text" kind) (now e)) tb]> d.
Proof.
  intros Hj Hne H1 H2 H3 H4 Htb Hcols. apply json_object in Hj.
  unfold serve, dispatch, api_conversation, get_json.
  rewrite Hj. destruct data as [|kv data]; [done|]. run_monad.
  rewrite (dict_get_default_optional "session_id" "default" session _ H1).
  rewrite (dict_get_default_optional "speaker" "unknown" speaker _ H2).
  rewrite (dict_get_default_optional "message" "" message _ H3).
  rewrite (dict_get_default_optional "message_type" "text" kind _ H4).
  by rewrite (exec_insert_conversation _ _ _ _ _ d tb Htb Hcols).
Qed.

Lemma fresh_saved_texts :
  init_db ∅ !! "saved_texts" = Some (empty_table saved_text_columns).
Proof. vm_compute. reflexivity. Defined.

Lemma fresh_conversation_history :
  init_db ∅ !! "conversation_history" = Some (empty_table conversation_columns).
Proof. vm_compute. reflexivity. Defined.

(** X14 on a body with a title and no category. *)
Lemma save_text_defaults_witness :
  let data := [("content", PStr "Gate B12"); ("title", PStr "Flight")] in
  dict_get "content" data = Some (PStr "Gate B12") ∧
  optional "title" (Some "Flight") data ∧
  optional "category" None data ∧
  (rows <$> db_after (serve (offline 3) R_save_text (json_request data)
                        (init_db ∅)) !! "saved_texts")
  = Some [saved_text_row 1 "Flight" "Gate B12" "general" 3].
Proof.
  intros data.
  destruct (save_text_defaults (offline 3) (json_request data) (init_db ∅) data
              "Gate B12" (Some "Flight") None (empty_table saved_text_columns)
              eq_refl eq_refl eq_refl eq_refl fresh_saved_texts
              eq_refl) as [_ Hdb].
  split; [reflexivity|]. split; [reflexivity|]. split; [reflexivity|].
  rewrite Hdb, lookup_insert_eq. reflexivity.
Defined.

(** X15 on a body that only names the speaker. *)
Lemma conversation_defaults_witness :
  let data := [("speaker", PStr "deaf")] in
  data ≠ [] ∧
  optional "session_id" None data ∧ optional "speaker" (Some "deaf") data ∧
  optional "message" None data ∧ optional "message_type" None data ∧
  (rows <$> db_after (serve (offline 3) R_conversation (json_request data)
                        (init_db ∅)) !! "conversation_history")
  = Some [conversation_row 1 "default" "deaf" "" "text" 3].
Proof.
  intros data.
  assert (Hne : data ≠ []) by discriminate.
  destruct (conversation_defaults (offline 3) (json_request data) (init_db ∅)
              data None (Some "deaf") None None
              (empty_table conversation_columns) eq_refl Hne
              eq_refl eq_refl eq_refl eq_refl fresh_conversation_history
              eq_refl) as [_ Hdb].
  split; [exact Hne|]. do 4 (split; [reflexivity|]).
  rewrite Hdb, lookup_insert_eq. reflexivity.
Defined.

(** ** Reading preferences back *)

Lemma get_preferences (e : env) (req : request) (d : database) (tb : table) :
  d !! "user_preferences" = Some tb →
  serve e (R_preferences GET) req d
  = {| resp := jsonify (preferences_json (rows tb)) 200;
       db_after := d;
       effects := [Connect; Execute SelectPreferences; Close] |}.
Proof.
  intros Htb. unfold serve, dispatch, api_preferences. run_monad.
  unfold exec_select_preferences. by rewrite Htb.
Qed.

(** The entries of the returned object under [key] come from the rows that
    carry [key]. *)
Lemma preferences_json_of_key (key : string) (rs : list row) :
  List.filter (λ p : string * jvalue, bool_decide (p.1 = key))
              (preferences_json rs)
  = preferences_json (List.filter (has_key key) rs).
Proof.
  unfold preferences_json, has_key.
  induction rs as [|r rs IH]; [done|]. simpl.
  destruct (field "preference_key" r) as [[|n|k]|] eqn:Hk; simpl;
    try exact IH.
  destruct (decide (k = key)) as [->|Hne].
  - rewrite (bool_decide_eq_true_2 (Some (SText key) = Some (SText key)))
      by done. simpl. rewrite Hk.
    destruct (field "preference_value" r) as [[|n|v]|]; simpl; try done.
    rewrite bool_decide_eq_true_2 by done. f_equal. exact IH.
  - rewrite (bool_decide_eq_false_2 (Some (SText k) = Some (SText key)))
      by congruence.
    destruct (field "preference_value" r) as [[|n|v]|]; simpl; try done.
    rewrite bool_decide_eq_false_2 by done. exact IH.
Qed.

(** X16: what POST /api/preferences stores, GET /api/preferences returns:
    after a POST whose body binds [key] to a value, the object a GET returns
    has exactly one entry for [key], the text ([str]) of that value; the GET
    itself answers 200, writes nothing and leaves the database as it is. *)
Theorem preferences_round_trip
  (e1 e2 : env) (req1 req2 : request) (d : database) (data : dict)
  (key : string) (v : pyval) :
  initialised d →
  json req1 = Some data →
  NoDup data.*1 →
  dict_get key data = Some v →
  let d1 := db_after (serve e1 (R_preferences POST) req1 d) in
  let got := serve e2 (R_preferences GET) req2 d1 in
  ∃ fields,
    resp got = jsonify fields 200 ∧
    List.filter (λ p : string * jvalue, bool_decide (p.1 = key)) fields
    = [(key, JStr (py_str v))] ∧
    db_after got = d1 ∧
    writes (effects got) = 0%nat.
Proof.
  intros Hd Hj Hnd Hk.
  destruct (initialised_lookup d "user_preferences" preference_columns Hd)
    as (t & Ht & Hc).
  { unfold schema. eauto 6 using list_elem_of_here, list_elem_of_further. }
  assert (data ≠ []) as Hne by (by intros ->).
  simpl. rewrite (post_preferences e1 req1 d data t Hj Hne Ht Hc). simpl.
  rewrite (get_preferences e2 req2 _ _ (lookup_insert_eq _ _ _)). simpl.
  eexists. split; [reflexivity|]. split; [|done].
  rewrite preferences_json_of_key.
  destruct (upserted_all_rows_of_key key v (now e1) data t Hnd Hk) as [i ->].
  done.
Qed.

(** X16 on a POST of a theme and a font size. *)
Lemma preferences_round_trip_witness :
  let data := [("theme", PStr "dark"); ("font_size", PInt 18)] in
  let d1 := db_after (serve (offline 1) (R_preferences POST)
                        (json_request data) (init_db ∅)) in
  NoDup data.*1 ∧
  dict_get "font_size" data = Some (PInt 18) ∧
  resp (serve (offline 2) (R_preferences GET) no_request d1)
  = jsonify [("theme", JStr "dark"); ("font_size", JStr "18")] 200.
Proof.
  intros data d1.
  assert (Hnd : NoDup data.*1).
  { refine (bool_decide_unpack _ _). vm_compute. exact I. }
  destruct (preferences_round_trip (offline 1) (offline 2) (json_request data)
              no_request (init_db ∅) data "font_size" (PInt 18)
              initialised_fresh eq_refl Hnd eq_refl) as (fields & _ & _ & _ & _).
  split; [exact Hnd|]. split; [reflexivity|]. vm_compute. reflexivity.
Defined.

(** ** Deleting a stored row *)

Lemma delete_serve (e : env) (tbl : string) (i : N) (req : request)
  (d : database) (tb : table) :
  tbl ∈ allowed_tables →
  d !! tbl = Some tb →
  Z.of_N i ≤ int64_max →
  serve e (R_delete tbl i) req d
  = {| resp := jsonify success 200;
       db_after :=
         <[tbl := {| columns := columns tb;
                     rows := List.filter
                               (λ r, negb (bool_decide
                                             (SInt (id r) = SInt (Z.of_N i))))
                               (rows tb);
                     seq := seq tb |}]> d;
       effects := [Connect; Execute (DeleteWhereId tbl (PInt (Z.of_N i)));
                   Commit; Close] |}.
Proof.
  intros Hin Htb Hi. unfold serve, dispatch, api_delete_item.
  rewrite (bool_decide_eq_true_2 _ Hin). run_monad.
  unfold exec_delete, bind_param. rewrite Htb.
  assert ((int64_min <=? Z.of_N i) && (Z.of_N i <=? int64_max) = true) as ->.
  { apply andb_true_intro. split; apply Z.leb_le; [|done].
    unfold int64_min. lia. }
  done.
Qed.

Lemma list_filter_idempotent {A} (f : A → bool) (l : list A) :
  List.filter f (List.filter f l) = List.filter f l.
Proof. apply filter_filter_implied. auto. Qed.

(** X17: deleting an id from an allowed table removes the rows with that id
    and no other: the rows left are exactly the rows with another id, the
    table's id counter is kept, and repeating the request succeeds again
    and changes nothing more. *)
Theorem delete_removes_exactly_that_id
  (e e' : env) (tbl : string) (i : N) (req req' : request) (d : database)
  (tb : table) :
  tbl ∈ allowed_tables →
  d !! tbl = Some tb →
  Z.of_N i ≤ int64_max →
  let r1 := serve e (R_delete tbl i) req d in
  let r2 := serve e' (R_delete tbl i) req' (db_after r1) in
  resp r1 = jsonify success 200 ∧
  (∃ tb', db_after r1 = <[tbl := tb']> d ∧
          seq tb' = seq tb ∧
          ∀ r, r ∈ rows tb' ↔ r ∈ rows tb ∧ id r ≠ Z.of_N i) ∧
  resp r2 = jsonify success 200 ∧
  db_after r2 = db_after r1.
Proof.
  intros Hin Htb Hi. simpl.
  rewrite (delete_serve e tbl i req d tb Hin Htb Hi). simpl.
  split; [done|]. split.
  - eexists. split; [reflexivity|]. split; [reflexivity|]. simpl.
    intros r. rewrite list_elem_of_In, filter_In, <- list_elem_of_In.
    rewrite negb_true_iff, bool_decide_eq_false. split.
    + intros [Hr Hne]. split; [done|]. congruence.
    + intros [Hr Hne]. split; [done|]. congruence.
  - rewrite (delete_serve e' tbl i req' _ _ Hin (lookup_insert_eq _ _ _) Hi).
    simpl. split; [done|].
    by rewrite list_filter_idempotent, insert_insert_eq.
Qed.

(** X17 on the one stored transcription. *)
Lemma delete_removes_exactly_that_id_witness :
  let r1 := serve (offline 0) (R_delete "transcriptions" 1) no_request
              one_transcription in
  ("transcriptions" ∈ allowed_tables) ∧
  Z.of_N 1 ≤ int64_max ∧
  resp r1 = jsonify success 200 ∧
  (rows <$> db_after r1 !! "transcriptions") = Some [] ∧
  (seq <$> db_after r1 !! "transcriptions") = Some 1.
Proof.
  intros r1.
  assert (Hin : "transcriptions" ∈ allowed_tables).
  { refine (bool_decide_unpack _ _). vm_compute. exact I. }
  assert (Hi : Z.of_N 1 ≤ int64_max) by (vm_compute; discriminate).
  destruct (delete_removes_exactly_that_id (offline 0) (offline 0)
              "transcriptions" 1 no_request no_request one_transcription
              (appended (transcription_row 1 "earlier" (SText "speech") 900)
                        (empty_table transcription_columns))
              Hin ltac:(vm_compute; reflexivity) Hi) as (Hr & _).
  split; [exact Hin|]. split; [exact Hi|]. split; [exact Hr|].
  split; vm_compute; reflexivity.
Defined.

(** ** Commits *)

Lemma upsert_all_commits (e : env) (items : dict) (w : world) :
  commits (trace (upsert_all e items w).2) = commits (trace w).
Proof.
  destruct (upsert_all_effects e items w) as (tr & -> & _ & Hc & _).
  rewrite commits_app. lia.
Qed.

Lemma upsert_all_conn (e : env) (items : dict) (w : world) :
  is_Some (conn w) → is_Some (conn (upsert_all e items w).2).
Proof.
  revert w. induction items as [|[key value] items IH]; intros w Hw; [done|].
  simpl upsert_all. unfold mbind, M_bind, execute.
  destruct (conn w) as [d|] eqn:Hc; simpl; [|by destruct Hw].
  destruct (exec_insert _ _ _ _ _ _); simpl; [|by eexists].
  apply IH. by eexists.
Qed.

Ltac count_commits :=
  repeat match goal with error : http_error |- _ => destruct error end;
  simpl;
  first [ done
        | rewrite decide_True by done; done
        | rewrite decide_False by (by intros [? _]); done
        | rewrite decide_False by (by intros [_ ?]); done ].

(** X18: a request commits exactly once when it is a request to a writing
    route that is answered 200, and never otherwise: no read, no rejected
    request and no failed request commits anything. *)
Theorem commit_exactly_on_success
  (e : env) (r : route) (req : request) (d : database) :
  commits (effects (serve e r req d))
  = if decide (status (resp (serve e r req d)) = 200 ∧ target r ≠ None)
    then 1%nat else 0%nat.
Proof.
  unfold serve, dispatch.
  destruct r as [| | | | | | | | | | | | |[]|tbl i];
    try (by rewrite decide_False by (intros [_ H]; by apply H)).
  - rewrite decide_False by (intros [_ H]; by apply H).
    unfold saved_content. run_monad. split_cases; count_commits.
  - unfold api_describe_image. run_monad. split_cases; count_commits.
  - unfold api_save_transcription. run_monad. split_cases; count_commits.
  - unfold api_save_text. run_monad. split_cases; count_commits.
  - rewrite decide_False by (intros [_ H]; by apply H).
    unfold api_extract_document. run_monad. split_cases; count_commits.
  - unfold api_conversation. run_monad. split_cases; count_commits.
  - rewrite decide_False by (intros [_ H]; by apply H).
    unfold api_simplify_text. run_monad. split_cases; count_commits.
  - rewrite decide_False by (intros [_ H]; by apply H).
    unfold api_preferences. run_monad. split_cases; count_commits.
  - unfold api_preferences.
    body_cases req; try (run_monad; split_cases; simpl; count_commits).
    cbv beta iota delta
      [mbind M_bind mret M_ret truthy negb py_items dict_method].
    remember (kv :: data) as items eqn:Hi. clear Hi. run_monad.
    match goal with |- context [upsert_all e items ?w1] =>
      pose proof (upsert_all_commits e items w1) as Hs;
      pose proof (upsert_all_conn e items w1 ltac:(by eexists)) as [d' Hd'];
      destruct (upsert_all e items w1) as [[[]|x] w2] end;
      simpl in Hs, Hd'.
    + rewrite Hd'. simpl. unfold commits in *.
      rewrite ?List.filter_app, ?length_app, Hs. count_commits.
    + destruct x as [cls msg|[] msg]; simpl; rewrite Hs; count_commits.
  - unfold api_delete_item, target. run_monad. split_cases; count_commits.
Qed.

(** ** The saved-content page *)

Lemma place_perm (r : row) (l : list row) : place r l ≡ₚ r :: l.
Proof.
  induction l as [|x l IH]; simpl; [done|].
  destruct (stamp r <? stamp x); [|done].
  rewrite IH. apply perm_swap.
Qed.

Lemma order_perm (l : list row) : order_by_created_at_desc l ≡ₚ l.
Proof.
  induction l as [|r l IH]; simpl; [done|]. by rewrite place_perm, IH.
Qed.

Lemma place_newest_first (r : row) (l : list row) :
  newest_first l → newest_first (place r l).
Proof.
  unfold newest_first. induction l as [|x l IH]; simpl; intros Hl.
  - repeat constructor.
  - apply StronglySorted_cons in Hl as [Hx Hl].
    destruct (stamp r <? stamp x) eqn:Hlt.
    + apply Z.ltb_lt in Hlt. apply StronglySorted_cons. split; [|by apply IH].
      rewrite place_perm. constructor; [lia|done].
    + apply Z.ltb_ge in Hlt. apply StronglySorted_cons. split.
      * constructor; [done|]. eapply Forall_impl; [exact Hx|].
        simpl. intros. lia.
      * by apply StronglySorted_cons.
Qed.

Lemma order_newest_first (l : list row) :
  newest_first (order_by_created_at_desc l).
Proof.
  induction l as [|r l IH]; simpl; [constructor|]. by apply place_newest_first.
Qed.

Lemma take_most_recent (l : list row) :
  most_recent (take 50 (order_by_created_at_desc l)) l.
Proof.
  pose proof (order_newest_first l) as Hs. unfold newest_first in Hs.
  rewrite <- (take_drop 50 (order_by_created_at_desc l)) in Hs.
  apply StronglySorted_app in Hs as (Hcross & Htake & _).
  split; [|split; [|split; [|split]]].
  - rewrite length_take. lia.
  - exact Htake.
  - intros x Hx. apply subseteq_take in Hx. by rewrite order_perm in Hx.
  - intros Hlen. rewrite take_ge; [apply order_perm|].
    by rewrite order_perm.
  - intros x y Hx Hnot Hy.
    rewrite <- order_perm, <- (take_drop 50 (order_by_created_at_desc l)) in Hx.
    apply elem_of_app in Hx as [Hx|Hx]; [done|]. by apply Hcross.
Qed.

(** X19: the saved-content page shows, for each of its three tables, the
    fifty most recent rows by [created_at]: at most fifty rows of the table,
    newest first, every row when the table has no more than fifty, and no
    row left out is more recent than a row shown. *)
Theorem saved_content_lists_most_recent
  (e : env) (req : request) (d : database) :
  initialised d →
  ∀ page name tb,
    (page, name) ∈ saved_lists →
    d !! name = Some tb →
    most_recent (listed page (resp (serve e R_saved_content req d))) (rows tb).
Proof.
  intros Hd page name tb Hin Htb.
  destruct (initialised_lookup d "image_descriptions" _ Hd
              (list_elem_of_here _ _)) as (t1 & H1 & _).
  destruct (initialised_lookup d "transcriptions" transcription_columns Hd)
    as (t2 & H2 & _).
  { unfold schema. eauto 6 using list_elem_of_here, list_elem_of_further. }
  destruct (initialised_lookup d "saved_texts" saved_text_columns Hd)
    as (t3 & H3 & _).
  { unfold schema. eauto 6 using list_elem_of_here, list_elem_of_further. }
  unfold serve, dispatch, saved_content. run_monad.
  unfold exec_select_recent. rewrite H1. simpl. rewrite H2. simpl.
  rewrite H3. simpl.
  unfold saved_lists in Hin. rewrite !elem_of_cons, elem_of_nil in Hin.
  destruct Hin as [[= -> ->]|[[= -> ->]|[[= -> ->]|[]]]];
    unfold listed; simpl.
  - rewrite H1 in Htb. injection Htb as <-. apply take_most_recent.
  - rewrite H2 in Htb. injection Htb as <-. apply take_most_recent.
  - rewrite H3 in Htb. injection Htb as <-. apply take_most_recent.
Qed.

(** X19 on the table with one transcription. *)
Lemma saved_content_lists_most_recent_witness :
  initialised one_transcription ∧
  (("transcriptions", "transcriptions") ∈ saved_lists) ∧
  most_recent
    (listed "transcriptions"
       (resp (serve (offline 0) R_saved_content no_request one_transcription)))
    [transcription_row 1 "earlier" (SText "speech") 900].
Proof.
  assert (Hin : ("transcriptions", "transcriptions") ∈ saved_lists).
  { apply list_elem_of_further, list_elem_of_here. }
  split; [exact initialised_one_transcription|]. split; [exact Hin|].
  exact (saved_content_lists_most_recent (offline 0) no_request
           one_transcription initialised_one_transcription
           "transcriptions" "transcriptions"
           (appended (transcription_row 1 "earlier" (SText "speech") 900)
                     (empty_table transcription_columns))
           Hin ltac:(vm_compute; reflexivity)).
Defined.

(** ** Plain text *)

Lemma utf8_ascii (bs : list N) :
  Forall (λ b, (b < 128)%N) bs → Codec.utf8 bs = Some bs.
Proof.
  induction 1 as [|b bs Hb _ IH]; [done|]. simpl.
  rewrite (proj2 (N.ltb_lt _ _) Hb), IH. done.
Qed.

(** X20: a text file made of ASCII bytes only comes back unchanged: the
    text extract-document returns has one code point per byte, the byte
    itself. *)
Theorem extract_ascii_text_unchanged
  (e : env) (req : request) (d : database) (file : upload) :
  files req !! "document" = Some file →
  filename file ≠ "" →
  document_ext (secure_filename e (filename file)) = "txt" →
  Forall (λ b, (Byte.to_N b < 128)%N) (content file) →
  resp (serve e R_extract_document req d)
  = jsonify [("success", JBool true);
             ("text", JText (Byte.to_N <$> content file));
             ("method", JStr "direct")] 200.
Proof.
  intros Hf Hn Hx Hascii.
  rewrite (extract_txt e req d file Hf Hn Hx). simpl. unfold decoded.
  rewrite utf8_ascii; [done|]. by apply Forall_fmap.
Qed.

(** X20 on the two bytes of "hi". *)
Lemma extract_ascii_text_unchanged_witness :
  let file := named "notes.txt" [x68; x69]%byte in
  let req := upload_request "document" file ∅ in
  filename file ≠ "" ∧
  document_ext (Werkzeug.secure_filename (filename file)) = "txt" ∧
  Forall (λ b, (Byte.to_N b < 128)%N) (content file) ∧
  resp (serve (offline 0) R_extract_document req (init_db ∅))
  = jsonify [("success", JBool true); ("text", JText [104; 105]%N);
             ("method", JStr "direct")] 200.
Proof.
  intros file req.
  assert (Hn : filename file ≠ "") by discriminate.
  assert (Hx : document_ext (Werkzeug.secure_filename (filename file)) = "txt")
    by (vm_compute; reflexivity).
  assert (Ha : Forall (λ b, (Byte.to_N b < 128)%N) (content file)).
  { repeat constructor. }
  split; [exact Hn|]. split; [exact Hx|]. split; [exact Ha|].
  exact (extract_ascii_text_unchanged (offline 0) req (init_db ∅) file
           ltac:(vm_compute; reflexivity) Hn Hx Ha).
Defined.

(** ** File names and extensions *)

Lemma lower_char_idempotent (a : ascii) :
  Py.lower_char (Py.lower_char a) = Py.lower_char a.
Proof. destruct a as [[][][][][][][][]]; vm_compute; reflexivity. Qed.

Lemma lower_char_dot (a : ascii) :
  Py.lower_char a = "."%char → a = "."%char.
Proof. destruct a as [[][][][][][][][]]; vm_compute; congruence. Qed.

Lemma lower_idempotent (s : string) : Py.lower (Py.lower s) = Py.lower s.
Proof.
  induction s as [|a s IH]; simpl; [done|].
  by rewrite lower_char_idempotent, IH.
Qed.

Lemma contains_dot_lower (s : string) :
  Py.contains "." s = false → Py.contains "." (Py.lower s) = false.
Proof.
  induction s as [|a s IH]; simpl; [done|].
  destruct (decide (a = "."%char)); [done|]. intros H.
  rewrite decide_False; [by apply IH|]. intros E. by apply lower_char_dot in E.
Qed.

(** X21: [allowed_file] decides on the text after the last dot, without
    regard to case: a name without a dot is refused; a name [stem.ext]
    whose [ext] has no dot is accepted exactly when the lower-cased [ext]
    is in the allow-list, and as often as the name with [ext] in lower
    case; and the extension extract-document computes from a name is in the
    allow-list exactly when [allowed_file] accepts that name. *)
Theorem allowed_file_by_last_extension :
  (∀ s, Py.contains "." s = false →
        allowed_file s = false ∧ document_ext s = "") ∧
  (∀ stem ext, Py.contains "." ext = false →
     allowed_file (stem +:+ String "." ext)
     = bool_decide (Py.lower ext ∈ ALLOWED_EXTENSIONS) ∧
     allowed_file (stem +:+ String "." ext)
     = allowed_file (stem +:+ String "." (Py.lower ext)) ∧
     document_ext (stem +:+ String "." ext) = Py.lower ext) ∧
  (∀ s, allowed_file s = bool_decide (document_ext s ∈ ALLOWED_EXTENSIONS)).
Proof.
  assert (∀ stem ext, Py.contains "." ext = false →
            allowed_file (stem +:+ String "." ext)
            = bool_decide (Py.lower ext ∈ ALLOWED_EXTENSIONS)) as Hlast.
  { intros stem ext Hext. unfold allowed_file.
    by rewrite contains_last, rsplit1_last. }
  split; [|split].
  - intros s Hs. unfold allowed_file, document_ext. by rewrite Hs.
  - intros stem ext Hext. split; [by apply Hlast|]. split.
    + rewrite !Hlast by (done || by apply contains_dot_lower).
      by rewrite lower_idempotent.
    + unfold document_ext. by rewrite contains_last, rsplit1_last.
  - intros s. unfold allowed_file, document_ext.
    destruct (Py.contains "." s) eqn:Hc; simpl.
    + destruct (Py.rsplit1 "." s) as [[h x]|]; [done|]. by vm_compute.
    + by vm_compute.
Qed.

(** X21 on an upper-case extension behind a dotted stem. *)
Lemma allowed_file_by_last_extension_witness :
  Py.contains "." "PNG" = false ∧
  allowed_file "holiday.2024.PNG" = true ∧
  allowed_file "holiday.2024.png" = true ∧
  Py.contains "." "README" = false ∧
  allowed_file "README" = false.
Proof.
  destruct allowed_file_by_last_extension as (Hnone & Hlast & _).
  assert (H1 : Py.contains "." "PNG" = false) by reflexivity.
  assert (H2 : Py.contains "." "README" = false) by reflexivity.
  destruct (Hlast "holiday.2024" "PNG" H1) as (Ha & Hb & _).
  split; [exact H1|]. split; [|split; [|split; [exact H2|]]].
  - transitivity (bool_decide (Py.lower "PNG" ∈ ALLOWED_EXTENSIONS));
      [exact Ha|vm_compute; reflexivity].
  - transitivity (bool_decide (Py.lower "PNG" ∈ ALLOWED_EXTENSIONS));
      [exact (eq_trans (eq_sym Hb) Ha)|vm_compute; reflexivity].
  - exact (proj1 (Hnone "README" H2)).
Defined.

(** ** Simplifying text *)

(** X22: with the model configured, simplify-text sends one prompt, the
    fixed instructions followed by the text of the body's "text" value
    ([str] of it when it is not a string), and answers 200 with the model's
    text, or 500 with the error text when the call fails; it never touches
    the database. *)
Theorem simplify_text_through_model
  (e : env) (req : request) (d : database) (data : dict) (v : pyval)
  (g : list part → outcome string) :
  gemini_model e = Some g →
  json req = Some data →
  dict_get "text" data = Some v →
  serve e R_simplify_text req d
  = {| resp :=
         match g [Prompt (simplify_prompt (py_str v))] with
         | Return out =>
             jsonify [("success", JBool true); ("simplified", JStr out)] 200
         | Raise x => jsonify [("error", JStr (exn_msg x))] 500
         end;
       db_after := d;
       effects := [Generate [Prompt (simplify_prompt (py_str v))]] |}.
Proof.
  intros Hg Hj Hx. apply json_object in Hj.
  unfold serve, dispatch, api_simplify_text, gemini_available, get_json.
  rewrite Hg, Hj. simpl. destruct data as [|kv data]; [discriminate|].
  run_monad. unfold dict_has. rewrite Hx. simpl. rewrite Hg. simpl.
  by destruct (g _).
Qed.

(** X22 on a number sent as text. *)
Lemma simplify_text_through_model_witness :
  let data := [("text", PInt 42)] in
  dict_get "text" data = Some (PInt 42) ∧
  serve (failing 0) R_simplify_text (json_request data) one_transcription
  = {| resp := jsonify [("error", JStr "429 quota exceeded")] 500;
       db_after := one_transcription;
       effects := [Generate [Prompt (simplify_prompt "42")]] |}.
Proof.
  intros data. split; [reflexivity|].
  exact (simplify_text_through_model (failing 0) (json_request data)
           one_transcription data (PInt 42) failing_model
           eq_refl eq_refl eq_refl).
Defined.

(** ** Storage errors *)

(** X23: the presence check of save-transcription lets through values the
    store refuses.  A "text" that is null violates NOT NULL and an integer
    "text" above 2^63 - 1 cannot be bound: both are answered 500 with the
    error text, after the connection was opened and the insert attempted;
    nothing is committed, the connection is not closed and the database is
    unchanged. *)
Theorem save_transcription_storage_errors
  (e : env) (req : request) (d : database) (data : dict) (v : pyval)
  (tb : table) :
  json req = Some data →
  dict_get "text" data = Some v →
  d !! "transcriptions" = Some tb →
  columns tb = transcription_columns →
  bind_param (dict_get_default "source" (PStr "speech") data) ≠
    Raise (Exception "OverflowError"
             "Python int too large to convert to SQLite INTEGER") →
  let attempt :=
    [Connect;
     Execute (Insert false "transcriptions" ["text"; "source"]
                [v; dict_get_default "source" (PStr "speech") data])] in
  (v = PNone →
   serve e R_save_transcription req d
   = {| resp := jsonify [("error",
                          JStr "NOT NULL constraint failed: transcriptions.text")]
                        500;
        db_after := d; effects := attempt |}) ∧
  (∀ n, v = PInt n → int64_max < n →
   serve e R_save_transcription req d
   = {| resp := jsonify [("error",
                          JStr "Python int too large to convert to SQLite INTEGER")]
                        500;
        db_after := d; effects := attempt |}).
Proof.
  intros Hj Hx Htb Hc Hsrc attempt.
  assert (serve e R_save_transcription req d
          = match exec_insert false "transcriptions" ["text"; "source"]
                    [v; dict_get_default "source" (PStr "speech") data]
                    (now e) d with
            | Return d' =>
                {| resp := jsonify success 200; db_after := d';
                   effects := attempt ++ [Commit; Close] |}
            | Raise x =>
                {| resp := jsonify [("error", JStr (exn_msg x))] 500;
                   db_after := d; effects := attempt |}
            end) as Hserve.
  { apply json_object in Hj.
    unfold serve, dispatch, api_save_transcription, get_json.
    rewrite Hj. destruct data as [|kv data]; [discriminate|].
    run_monad. unfold dict_has. rewrite Hx. simpl.
    by destruct (exec_insert _ _ _ _ _ _). }
  rewrite Hserve. unfold exec_insert. rewrite Htb, Hc. split.
  - intros ->. simpl.
    destruct (dict_get_default "source" (PStr "speech") data) as [|b|n|s0];
      simpl in *; try done.
    by destruct ((int64_min <=? n) && (n <=? int64_max)).
  - intros n -> Hn. simpl.
    by rewrite (proj2 (Z.leb_gt _ _) Hn), andb_false_r.
Qed.

(** X23 on a null text. *)
Lemma save_transcription_storage_errors_witness :
  let data := [("text", PNone)] in
  dict_get "text" data = Some PNone ∧
  serve (offline 0) R_save_transcription (json_request data) one_transcription
  = {| resp := jsonify [("error",
                         JStr "NOT NULL constraint failed: transcriptions.text")]
                       500;
       db_after := one_transcription;
       effects := [Connect;
                   Execute (Insert false "transcriptions" ["text"; "source"]
                              [PNone; PStr "speech"])] |}.
Proof.
  intros data. split; [reflexivity|].
  destruct (save_transcription_storage_errors (offline 0) (json_request data)
              one_transcription data PNone
              (appended (transcription_row 1 "earlier" (SText "speech") 900)
                        (empty_table transcription_columns))
              eq_refl eq_refl ltac:(vm_compute; reflexivity) eq_refl
              ltac:(discriminate)) as [Hnull _].
  exact (Hnull eq_refl).
Defined.

(** X24: on a database whose tables have not been created, the handlers
    that have an [except] clause answer 500 with the text "no such table",
    while /api/preferences and the saved-content page, which have none, let
    the exception escape and end in the server's own 500 page. *)
Theorem missing_tables
  (e : env) (req : request) (d : database) :
  (∀ data v, json req = Some data → dict_get "text" data = Some v →
     d !! "transcriptions" = None →
     resp (serve e R_save_transcription req d)
     = jsonify [("error", JStr "no such table: transcriptions")] 500) ∧
  (∀ tbl i, tbl ∈ allowed_tables → d !! tbl = None →
     resp (serve e (R_delete tbl i) req d)
     = jsonify [("error", JStr ("no such table: " +:+ tbl))] 500) ∧
  (d !! "user_preferences" = None →
   resp (serve e (R_preferences GET) req d)
   = {| status := 500; payload := InternalServerError |} ∧
   (not_data (json req) = false →
    resp (serve e (R_preferences POST) req d)
    = {| status := 500; payload := InternalServerError |})) ∧
  (d !! "image_descriptions" = None →
   resp (serve e R_saved_content req d)
   = {| status := 500; payload := InternalServerError |}).
Proof.
  split; [|split; [|split]].
  - intros data v Hj Hx Hn. apply json_object in Hj.
    unfold serve, dispatch, api_save_transcription, get_json.
    rewrite Hj. destruct data as [|kv data]; [discriminate|].
    run_monad. unfold dict_has. rewrite Hx. simpl.
    unfold exec_insert. by rewrite Hn.
  - intros tbl i Hin Hn. unfold serve, dispatch, api_delete_item.
    rewrite (bool_decide_eq_true_2 _ Hin). run_monad.
    unfold exec_delete. by rewrite Hn.
  - intros Hn. split.
    + unfold serve, dispatch, api_preferences. run_monad.
      unfold exec_select_preferences. by rewrite Hn.
    + unfold serve, dispatch, api_preferences, not_data.
      body_cases req; try discriminate. intros _. destruct kv as [key value].
      run_monad. run_monad. unfold exec_insert. by rewrite Hn.
  - intros Hn. unfold serve, dispatch, saved_content. run_monad.
    unfold exec_select_recent. by rewrite Hn.
Qed.

(** X24 on the empty database. *)
Lemma missing_tables_witness :
  ("saved_texts" ∈ allowed_tables) ∧
  (∅ : database) !! "saved_texts" = None ∧
  resp (serve (offline 0) (R_delete "saved_texts" 4) no_request ∅)
  = jsonify [("error", JStr "no such table: saved_texts")] 500 ∧
  resp (serve (offline 0) (R_preferences GET) no_request ∅)
  = {| status := 500; payload := InternalServerError |}.
Proof.
  assert (Hin : "saved_texts" ∈ allowed_tables).
  { refine (bool_decide_unpack _ _). vm_compute. exact I. }
  destruct (missing_tables (offline 0) no_request ∅) as (_ & Hdel & Hpref & _).
  split; [exact Hin|]. split; [reflexivity|]. split.
  - exact (Hdel "saved_texts" 4%N Hin eq_refl).
  - exact (proj1 (Hpref eq_refl)).
Defined.

(** ** Statuses and connections *)

Lemma upsert_all_only_executes (e : env) (items : dict) (w : world) :
  ∃ tr, trace (upsert_all e items w).2 = trace w ++ tr ∧
        Forall (λ ev, ∃ s, ev = Execute s) tr.
Proof.
  revert w. induction items as [|[key value] items IH]; intros w.
  - exists []. simpl. by rewrite app_nil_r.
  - simpl upsert_all. unfold mbind, M_bind, execute.
    assert (∃ s, Execute (upsert_preference key value) = Execute s) as Hev
      by by eexists.
    destruct (conn w) as [d|]; simpl.
    + destruct (exec_insert _ _ _ _ _ _) as [d'|x]; simpl.
      * match goal with |- context [upsert_all e items ?w1] =>
          destruct (IH w1) as (tr & Htr & Hall) end.
        exists (Execute (upsert_preference key value) :: tr).
        rewrite Htr. simpl. rewrite <- app_assoc. split; [done|].
        by constructor.
      * exists [Execute (upsert_preference key value)].
        split; [done|]. by repeat constructor.
    + exists [Execute (upsert_preference key value)].
      split; [done|]. by repeat constructor.
Qed.

Lemma only_executes_counts (tr : list event) :
  Forall (λ ev, ∃ s, ev = Execute s) tr →
  connects tr = 0%nat ∧ closes tr = 0%nat ∧ ai_calls tr = 0%nat ∧
  List.filter is_setup tr = [].
Proof.
  induction 1 as [|ev tr [s ->] _ IH]; [done|].
  unfold connects, closes, ai_calls in *. simpl. exact IH.
Qed.

(** The store raises its own errors, never an [HTTPException]. *)
Lemma check_columns_exception (tbl : string) (cols : list column)
  (new : list (string * sqlval)) (x : exn) :
  check_columns tbl cols new = Some x → ∃ cls msg, x = Exception cls msg.
Proof.
  induction new as [|[c v] new IH]; simpl; [done|].
  destruct (find_column c cols) as [cd|]; [|intros [= <-]; by eauto].
  destruct (not_null cd && bool_decide (v = SNull)); [|exact IH].
  intros [= <-]. by eauto.
Qed.

Lemma bind_params_exception (vs : list pyval) (x : exn) :
  bind_params vs = Raise x → ∃ cls msg, x = Exception cls msg.
Proof.
  induction vs as [|v vs IH]; simpl; [done|].
  destruct (bind_param v) as [y|y] eqn:Hv.
  - destruct (bind_params vs); [done|]. intros [= <-]. by apply IH.
  - intros [= <-]. destruct v as [|b|n|s0]; simpl in Hv; try done.
    destruct ((int64_min <=? n) && (n <=? int64_max)); [done|].
    injection Hv as <-. by eauto.
Qed.

Lemma exec_exception (s : statement) (t : Z) (d : database) (x : exn) :
  exec s t d = Raise x → ∃ cls msg, x = Exception cls msg.
Proof.
  destruct s as [o tbl cols params|tbl param|tbl|]; simpl.
  - unfold exec_insert, no_such_table.
    destruct (d !! tbl) as [tb|]; [|intros [= <-]; by eauto].
    destruct (bind_params params) as [vals|y] eqn:Hb;
      [|intros [= <-]; by apply bind_params_exception in Hb].
    simpl. destruct (check_columns _ _ _) as [y|] eqn:Hy.
    + intros [= <-]. by apply check_columns_exception in Hy.
    + destruct (_ || _); [done|]. intros [= <-]. by eauto.
  - unfold exec_delete, no_such_table.
    destruct (d !! tbl) as [tb|]; [|intros [= <-]; by eauto].
    destruct (bind_param param) as [v|y] eqn:Hb; [done|].
    intros [= <-]. apply (bind_params_exception [param]). simpl.
    by rewrite Hb.
  - unfold exec_select_recent, no_such_table.
    destruct (d !! tbl); [done|]. intros [= <-]. by eauto.
  - unfold exec_select_preferences, no_such_table.
    destruct (d !! "user_preferences"); [done|]. intros [= <-]. by eauto.
Qed.

Lemma execute_exception (e : env) (s : statement) (w w' : world) (x : exn) :
  execute e s w = (Raise x, w') → ∃ cls msg, x = Exception cls msg.
Proof.
  unfold execute. destruct (conn w) as [d|]; [|intros [= <- _]; by eauto].
  destruct (exec s (now e) d) as [[d' rs]|y] eqn:Hx; [done|].
  intros [= <- _]. by apply exec_exception in Hx.
Qed.

Lemma upsert_all_exception (e : env) (items : dict) (w w' : world) (x : exn) :
  upsert_all e items w = (Raise x, w') → ∃ cls msg, x = Exception cls msg.
Proof.
  revert w. induction items as [|[key value] items IH]; intros w; [done|].
  simpl upsert_all. unfold mbind, M_bind.
  destruct (execute e _ w) as [[rs|y] w1] eqn:He.
  - apply IH.
  - intros [= <- _]. by apply execute_exception in He.
Qed.

Ltac close_case :=
  repeat match goal with
         | error : http_error |- _ => destruct error
         | x : exn |- _ => destruct x as [? ?|[] ?]
         end;
  simpl; try done; try (intros; discriminate); try lia;
  try (repeat split; (done || lia || (intros; discriminate))).

(** X25: a client error is decided before any work is done: a request
    answered with a status from 400 to 499 (the 400 of a handler, or the
    code with which [get_json()] refuses the body) has executed no
    statement and has not called the model; at most it has opened the
    connection or read the upload. *)
Theorem client_errors_precede_work
  (e : env) (r : route) (req : request) (d : database) :
  is_client_error (status (resp (serve e r req d))) →
  forallb is_setup (effects (serve e r req d)) = true.
Proof.
  unfold serve, dispatch, is_client_error.
  destruct r as [| | | | | | | | | | | | |[]|tbl i]; try (simpl; lia).
  - unfold saved_content. run_monad.
    unfold exec_select_recent, no_such_table. split_cases; close_case.
  - unfold api_describe_image. run_monad. split_cases; close_case.
  - unfold api_save_transcription. run_monad. split_cases; close_case.
  - unfold api_save_text. run_monad. split_cases; close_case.
  - unfold api_extract_document. run_monad. split_cases; close_case.
  - unfold api_conversation. run_monad. split_cases; close_case.
  - unfold api_simplify_text. run_monad. split_cases; close_case.
  - unfold api_preferences. run_monad.
    unfold exec_select_preferences, no_such_table. split_cases; close_case.
  - unfold api_preferences.
    body_cases req; try solve [run_monad; split_cases; close_case].
    cbv beta iota delta
      [mbind M_bind mret M_ret truthy negb py_items dict_method].
    remember (kv :: data) as items eqn:Hi. clear Hi. run_monad.
    match goal with |- context [upsert_all e items ?w1] =>
      destruct (upsert_all e items w1) as [[[]|x] w2] eqn:Hrun end.
    + split_cases; close_case.
    + apply upsert_all_exception in Hrun as (cls & msg & ->). simpl. lia.
  - unfold api_delete_item. run_monad. split_cases; close_case.
Qed.

(** X25 on a document of a kind the handler does not read. *)
Lemma client_errors_precede_work_witness :
  is_client_error
    (status (resp (serve (live 0) R_extract_document
                     (upload_request "document" (named "setup.exe" [x4d]%byte) ∅)
                     one_transcription))) ∧
  forallb is_setup
    (effects (serve (live 0) R_extract_document
                (upload_request "document" (named "setup.exe" [x4d]%byte) ∅)
                one_transcription)) = true.
Proof.
  assert (H : is_client_error
                (status (resp (serve (live 0) R_extract_document
                   (upload_request "document" (named "setup.exe" [x4d]%byte) ∅)
                   one_transcription)))).
  { unfold is_client_error.
    replace (status _) with 400 by (vm_compute; reflexivity). lia. }
  split; [exact H|].
  exact (client_errors_precede_work (live 0) R_extract_document _
           one_transcription H).
Defined.

Ltac count_connections Htr Hall :=
  simpl; rewrite ?Htr; unfold connects, closes in *; simpl;
  rewrite ?List.filter_app, ?length_app; simpl;
  try (destruct (only_executes_counts _ Hall) as (Hc1 & Hc2 & _);
       unfold connects, closes in Hc1, Hc2; rewrite ?Hc1, ?Hc2);
  close_case.

(** X26: a request opens at most one connection to the database, and a
    request answered 200 has closed every connection it opened; only
    requests that fail can leave a connection open. *)
Theorem connections_are_closed_on_success
  (e : env) (r : route) (req : request) (d : database) :
  (connects (effects (serve e r req d)) ≤ 1)%nat ∧
  (status (resp (serve e r req d)) = 200 →
   closes (effects (serve e r req d)) = connects (effects (serve e r req d))).
Proof.
  unfold serve, dispatch.
  destruct r as [| | | | | | | | | | | | |[]|tbl i];
    try (unfold connects, closes; simpl; split; [lia|done]).
  - unfold saved_content. run_monad. split_cases;
      unfold connects, closes; close_case.
  - unfold api_describe_image. run_monad. split_cases;
      unfold connects, closes; close_case.
  - unfold api_save_transcription. run_monad. split_cases;
      unfold connects, closes; close_case.
  - unfold api_save_text. run_monad. split_cases;
      unfold connects, closes; close_case.
  - unfold api_extract_document. run_monad. split_cases;
      unfold connects, closes; close_case.
  - unfold api_conversation. run_monad. split_cases;
      unfold connects, closes; close_case.
  - unfold api_simplify_text. run_monad. split_cases;
      unfold connects, closes; close_case.
  - unfold api_preferences. run_monad. split_cases;
      unfold connects, closes; close_case.
  - unfold api_preferences.
    body_cases req;
      try solve [run_monad; split_cases; unfold connects, closes; close_case].
    cbv beta iota delta
      [mbind M_bind mret M_ret truthy negb py_items dict_method].
    remember (kv :: data) as items eqn:Hi. clear Hi. run_monad.
    match goal with |- context [upsert_all e items ?w1] =>
      destruct (upsert_all_only_executes e items w1) as (tr & Htr & Hall);
      destruct (upsert_all e items w1) as [[[]|x] w2] end;
      simpl in Htr.
    + split_cases; count_connections Htr Hall.
    + count_connections Htr Hall.
  - unfold api_delete_item. run_monad. split_cases;
      unfold connects, closes; close_case.
Qed.

(** X26 on a POST of two preferences. *)
Lemma connections_are_closed_on_success_witness :
  let req := json_request [("theme", PStr "dark"); ("font", PStr "large")] in
  status (resp (serve (offline 0) (R_preferences POST) req (init_db ∅))) = 200 ∧
  closes (effects (serve (offline 0) (R_preferences POST) req (init_db ∅)))
  = connects (effects (serve (offline 0) (R_preferences POST) req (init_db ∅))).
Proof.
  intros req.
  assert (H : status (resp (serve (offline 0) (R_preferences POST) req
                              (init_db ∅))) = 200) by (vm_compute; reflexivity).
  split; [exact H|].
  exact (proj2 (connections_are_closed_on_success (offline 0)
                  (R_preferences POST) req (init_db ∅)) H).
Defined.

(** ** Bodies that are not objects *)

(** X27: a JSON body that is not an object and not empty (true, a number
    other than zero, a string or an array with something in it) is never
    stored.  The conversation endpoint answers 500 with the text of the
    [AttributeError] after it has opened the connection; a POST to
    /api/preferences lets the same error escape to the 500 page of the
    server.  Save-transcription answers with that page when the body is
    true or a number, where the test for "text" itself raises; it answers
    400 when the body is a string or an array without "text", and 500 after
    opening the connection when "text" occurs in it. *)
Theorem bodies_that_are_not_objects
  (e : env) (req : request) (d : database) (data : document) :
  json_body req = Parsed data →
  truthy data = true →
  json req = None →
  serve e R_conversation req d
  = {| resp := jsonify [("error",
                         JStr ("'" +:+ type_name data +:+
                               "' object has no attribute 'get'"))] 500;
       db_after := d; effects := [Connect] |} ∧
  serve e (R_preferences POST) req d
  = {| resp := {| status := 500; payload := InternalServerError |};
       db_after := d; effects := [Connect] |} ∧
  (member "text" data = None →
   serve e R_save_transcription req d
   = {| resp := {| status := 500; payload := InternalServerError |};
        db_after := d; effects := [] |}) ∧
  (member "text" data = Some false →
   serve e R_save_transcription req d
   = {| resp := jsonify [("error", JStr "No text provided")] 400;
        db_after := d; effects := [] |}) ∧
  (member "text" data = Some true →
   status (resp (serve e R_save_transcription req d)) = 500 ∧
   db_after (serve e R_save_transcription req d) = d ∧
   effects (serve e R_save_transcription req d) = [Connect]).
Proof.
  intros Hb Ht Hj. unfold json in Hj. rewrite Hb in Hj.
  unfold serve, dispatch, api_conversation, api_preferences,
    api_save_transcription, get_json.
  rewrite Hb. run_monad. rewrite Ht. simpl.
  destruct data as [[|b|n|s]|z|items|fields]; try discriminate;
    simpl in *; (split; [done|]); (split; [done|]);
    (split; [|split]); intros Hm; try discriminate; try done;
    injection Hm as Hm; by rewrite Hm.
Qed.

(** X27 on the body [5]. *)
Lemma bodies_that_are_not_objects_witness :
  let req := json_document (Scalar (PInt 5)) in
  truthy (Scalar (PInt 5)) = true ∧
  json req = None ∧
  member "text" (Scalar (PInt 5)) = None ∧
  resp (serve (offline 0) R_conversation req one_transcription)
  = jsonify [("error", JStr "'int' object has no attribute 'get'")] 500 ∧
  serve (offline 0) R_save_transcription req one_transcription
  = {| resp := {| status := 500; payload := InternalServerError |};
       db_after := one_transcription; effects := [] |}.
Proof.
  intros req.
  destruct (bodies_that_are_not_objects (offline 0) req one_transcription
              (Scalar (PInt 5)) eq_refl eq_refl eq_refl)
    as (Hc & _ & Hn & _).
  split; [reflexivity|]. split; [reflexivity|]. split; [reflexivity|].
  split; [|exact (Hn eq_refl)].
  rewrite Hc. reflexivity.
Defined.
